(** * astroARIADNE: the fitter's parameter coordination, prior construction
      and result reduction (src/code/fitter.py), embedded and verified.

    Numbers are IEEE binary64 values (Rocq's primitive floats), which is what
    Python's [float] and numpy's [float64] are.  Dictionaries are finite maps,
    numpy arrays are lists, raised exceptions are the error side of [result].
    The collaborators that live outside fitter.py (the star catalogue, scipy,
    numpy's median, the likelihood kernel, the file system) are gathered in the
    record [World] and every theorem holds for all of them. *)

From Stdlib Require Import Floats ZArith Lia Ascii.
From stdpp Require Import gmap strings list fin_maps.

Set Warnings "-inexact-float".

Local Open Scope Z_scope.
Local Open Scope string_scope.

(** ** Python: exceptions and results *)

(** The exceptions the modelled code raises.  InputError and PriorError are
    the classes of the Error module; [InputError(value, msg).raise_()] raises
    the error it has built. *)
Inductive exn : Type :=
| NameError (name : string)
| InputError (msg : string)
| PriorError (par : string) (code : Z)
| NotImplementedError
| ValueError
| ZeroDivisionError
| OverflowError
| IndexError
| KeyError (key : string)
| AttributeError
| TypeError
| FileNotFoundError (path : string).

(** What a call gives back: a value, or the exception it raised.  A raised
    exception ends the run modelled; the state reached by then is dropped. *)
Inductive result (A : Type) : Type :=
| Ok (a : A)
| Raise (e : exn).
Arguments Ok {A} a.
Arguments Raise {A} e.

#[export] Instance result_ret : MRet result := fun _ a => Ok a.
#[export] Instance result_bind : MBind result := fun _ _ k m =>
  match m with
  | Ok a => k a
  | Raise e => Raise e
  end.

Definition is_Ok {A} (r : result A) : bool :=
  match r with Ok _ => true | Raise _ => false end.

Definition of_option {A} (o : option A) (e : exn) : result A :=
  match o with Some a => Ok a | None => Raise e end.

(** A runtime value handed to a property setter. *)
Inductive pyval : Type :=
| VNone
| VBool (b : bool)
| VInt (n : Z)
| VFloat (x : float)
| VStr (s : string).

(** [type(v) is bool]. *)
Definition is_bool (v : pyval) : bool :=
  match v with VBool _ => true | _ => false end.

(** ** Python: strings *)

Definition lower_ascii (c : ascii) : ascii :=
  let n := nat_of_ascii c in
  if ((65 <=? n) && (n <=? 90))%nat then ascii_of_nat (n + 32) else c.

(** [str.lower] on the ASCII range. *)
Fixpoint lower (s : string) : string :=
  match s with
  | EmptyString => EmptyString
  | String c s' => String (lower_ascii c) (lower s')
  end.

(** [s.split(sep)] for a one-character separator: the pieces between the
    separators, empty pieces included. *)
Fixpoint split (sep : ascii) (s : string) : list string :=
  match s with
  | EmptyString => [EmptyString]
  | String c s' =>
      if Ascii.eqb c sep then EmptyString :: split sep s'
      else match split sep s' with
           | [] => [String c EmptyString]
           | p :: ps => String c p :: ps
           end
  end.

Definition comma : ascii := ","%char.

(** Membership test [x in lst] on a list of strings. *)
Definition str_in (x : string) (l : list string) : bool :=
  existsb (String.eqb x) l.

(** ** Python and numpy: numbers and arrays *)

Module Np.

Local Open Scope float_scope.

(** Truth value of a float: everything but zero (of either sign). *)
Definition truthy (x : float) : bool := negb (PrimFloat.eqb x 0).

(** [int(x)]: truncation towards zero; infinities and NaN raise. *)
Definition py_int (x : float) : result Z :=
  match Prim2SF x with
  | S754_zero _ => Ok 0%Z
  | S754_finite s m e =>
      let v := Z.shiftl (Z.pos m) e in
      Ok (if s then (- v)%Z else v)
  | S754_infinity _ => Raise OverflowError
  | S754_nan => Raise ValueError
  end.

(** A small count as a float. *)
Definition of_nat (n : nat) : float :=
  PrimFloat.of_uint63 (Uint63.of_Z (Z.of_nat n)).

(** [sp.zeros(n)]. *)
Definition zeros (n : nat) : list float := replicate n 0.

(** [a.sum()]: numpy adds the entries of an array this short one after
    the other. *)
Definition sum (a : list float) : float := fold_left PrimFloat.add a 0.

(** [a[i]] for a possibly negative Python index. *)
Definition norm_index (len : nat) (i : Z) : result nat :=
  if (0 <=? i)%Z then
    if (i <? Z.of_nat len)%Z then Ok (Z.to_nat i) else Raise IndexError
  else
    if (0 <=? Z.of_nat len + i)%Z then Ok (Z.to_nat (Z.of_nat len + i))
    else Raise IndexError.

Definition get (a : list float) (i : nat) : result float :=
  of_option (a !! i) IndexError.

(** [a[i] = v]. *)
Definition set (a : list float) (i : Z) (v : float) : result (list float) :=
  k ← norm_index (length a) i; Ok (<[k := v]> a).

(** [sp.where(par == order)[0]]: the positions of [order] holding [par]. *)
Fixpoint where_eq (par : string) (order : list string) (i : nat) : list nat :=
  match order with
  | [] => []
  | p :: order' =>
      if String.eqb par p then i :: where_eq par order' (S i)
      else where_eq par order' (S i)
  end.

(** [a[idx] = v] for an array of positions. *)
Fixpoint set_at (a : list float) (idx : list nat) (v : float)
  : result (list float) :=
  match idx with
  | [] => Ok a
  | i :: idx' =>
      if (i <? length a)%nat then set_at (<[i := v]> a) idx' v
      else Raise IndexError
  end.

(** A two-dimensional array: [shape1] columns, one list per row. *)
Record matrix : Type := Matrix { shape1 : nat; rows : list (list float) }.

Definition shape0 (m : matrix) : nat := length (rows m).

(** [m[:, j]]. *)
Definition column (m : matrix) (j : nat) : result (list float) :=
  if (j <? shape1 m)%nat then Ok (map (fun r => nth j r 0) (rows m))
  else Raise IndexError.

End Np.

(** ** scipy.stats: frozen distributions *)

Module St.

Local Open Scope float_scope.

(** The distribution objects the fitter builds, by their constructor calls,
    and a prior unpickled from one of the lookup-table files. *)
Inductive rv : Type :=
| norm (loc scale : float)
| uniform (loc scale : float)
| truncnorm (a b loc scale : float)
| pickled (path : string).

(** scipy's [uniform(loc, scale)] is the uniform distribution on
    [[loc, loc + scale]]. *)
Definition in_support_uniform (loc scale x : float) : bool :=
  PrimFloat.leb loc x && PrimFloat.leb x (loc + scale).

End St.

(** ** The collaborators of fitter.py *)

(** The star descriptor: the attributes of the [Star] object the fitter
    reads.  [lum] and [rad] are [None] when the catalogue has no value. *)
Record Star : Type := {
  starname : string;
  get_temp : bool;  temp : float;        temp_e : float;
  get_lum : bool;   lum : option float;  lum_e : float;
  get_rad : bool;   rad : option float;  rad_e : float;
  get_plx : bool;   plx : float;         plx_e : float;
  mags : list float;
  mag_errs : list float;
  dist : float;     dist_e : float;
  Av : float
}.

(** What the fitter calls and does not define.  The numerical kernels are
    taken as total functions. *)
Record World : Type := {
  (** [float(s)]; [None] when it raises ValueError. *)
  py_float : string -> option float;
  (** [sp.log10]. *)
  log10 : float -> float;
  (** [isochrone.estimate(used_bands, params)]. *)
  estimate : list string -> gmap string (float * float) -> option (float * float);
  (** [pickle.load] of an opened data file; [None] when the file is missing. *)
  read_pickle : string -> option St.rv;
  (** The triples [zip(param, prior, bounds)] runs over after
      [sp.loadtxt(priorfile, usecols=[0, 1, 2], unpack=True, dtype=object)]:
      the rows of a file of two or more rows.  (numpy hands a file of one
      row over as three strings, and [zip] then runs over their characters,
      in step.) *)
  loadtxt : string -> result (list (string * string * string));
  (** [sp.median]. *)
  median : list float -> float;
  (** [credibility_interval]: median, lower and upper bound. *)
  credibility_interval : list float -> float * float * float;
  (** [build_params(cube, coordinator, fixed, norm)]. *)
  build_params : list float -> list float -> list float -> bool -> list float;
  (** [log_likelihood(theta, self.star, interpolators, norm)], the interpolators
      being those loaded with the grid. *)
  log_likelihood : list float -> option Star -> bool -> float;
  (** ['{:.4f}'.format]. *)
  fmt4 : float -> string
}.

(** ** The fitter object *)

(** The attributes of a [Fitter] together with the module-level state
    [initialize] binds.  The global names [coordinator], [fixed], [star],
    [use_norm] and [prior_dict] are bound by [initialize] to the very objects
    the attributes hold and are rebound nowhere else, so each pair is one
    field here; [order] exists as a global only; [warnings] collects what
    [warnings.warn] was called with. *)
Record Fitter : Type := {
  out_folder : option string;
  verbose : bool;
  star : option Star;
  _engine : string;
  _norm : bool;
  _grid : string;
  _estimate_logg : bool;
  priorfile : option string;
  coordinator : list float;
  fixed : list float;
  default_priors : gmap string (option St.rv);
  priors : gmap string (option St.rv);
  ndim : Z;
  order : list string;
  warnings : list string
}.

Definition with_out_folder (x : option string) (f : Fitter) : Fitter :=
  {| out_folder := x; verbose := verbose f; star := star f;
     _engine := _engine f; _norm := _norm f; _grid := _grid f;
     _estimate_logg := _estimate_logg f; priorfile := priorfile f;
     coordinator := coordinator f; fixed := fixed f;
     default_priors := default_priors f; priors := priors f;
     ndim := ndim f; order := order f; warnings := warnings f |}.

Definition with_verbose (x : bool) (f : Fitter) : Fitter :=
  {| out_folder := out_folder f; verbose := x; star := star f;
     _engine := _engine f; _norm := _norm f; _grid := _grid f;
     _estimate_logg := _estimate_logg f; priorfile := priorfile f;
     coordinator := coordinator f; fixed := fixed f;
     default_priors := default_priors f; priors := priors f;
     ndim := ndim f; order := order f; warnings := warnings f |}.

Definition with_norm (x : bool) (f : Fitter) : Fitter :=
  {| out_folder := out_folder f; verbose := verbose f; star := star f;
     _engine := _engine f; _norm := x; _grid := _grid f;
     _estimate_logg := _estimate_logg f; priorfile := priorfile f;
     coordinator := coordinator f; fixed := fixed f;
     default_priors := default_priors f; priors := priors f;
     ndim := ndim f; order := order f; warnings := warnings f |}.

Definition with_estimate_logg (x : bool) (f : Fitter) : Fitter :=
  {| out_folder := out_folder f; verbose := verbose f; star := star f;
     _engine := _engine f; _norm := _norm f; _grid := _grid f;
     _estimate_logg := x; priorfile := priorfile f;
     coordinator := coordinator f; fixed := fixed f;
     default_priors := default_priors f; priors := priors f;
     ndim := ndim f; order := order f; warnings := warnings f |}.

Definition with_coordinator (x : list float) (f : Fitter) : Fitter :=
  {| out_folder := out_folder f; verbose := verbose f; star := star f;
     _engine := _engine f; _norm := _norm f; _grid := _grid f;
     _estimate_logg := _estimate_logg f; priorfile := priorfile f;
     coordinator := x; fixed := fixed f;
     default_priors := default_priors f; priors := priors f;
     ndim := ndim f; order := order f; warnings := warnings f |}.

Definition with_fixed (x : list float) (f : Fitter) : Fitter :=
  {| out_folder := out_folder f; verbose := verbose f; star := star f;
     _engine := _engine f; _norm := _norm f; _grid := _grid f;
     _estimate_logg := _estimate_logg f; priorfile := priorfile f;
     coordinator := coordinator f; fixed := x;
     default_priors := default_priors f; priors := priors f;
     ndim := ndim f; order := order f; warnings := warnings f |}.

Definition with_default_priors (x : gmap string (option St.rv)) (f : Fitter)
  : Fitter :=
  {| out_folder := out_folder f; verbose := verbose f; star := star f;
     _engine := _engine f; _norm := _norm f; _grid := _grid f;
     _estimate_logg := _estimate_logg f; priorfile := priorfile f;
     coordinator := coordinator f; fixed := fixed f;
     default_priors := x; priors := priors f;
     ndim := ndim f; order := order f; warnings := warnings f |}.

Definition with_priors (x : gmap string (option St.rv)) (f : Fitter) : Fitter :=
  {| out_folder := out_folder f; verbose := verbose f; star := star f;
     _engine := _engine f; _norm := _norm f; _grid := _grid f;
     _estimate_logg := _estimate_logg f; priorfile := priorfile f;
     coordinator := coordinator f; fixed := fixed f;
     default_priors := default_priors f; priors := x;
     ndim := ndim f; order := order f; warnings := warnings f |}.

Definition with_ndim (x : Z) (f : Fitter) : Fitter :=
  {| out_folder := out_folder f; verbose := verbose f; star := star f;
     _engine := _engine f; _norm := _norm f; _grid := _grid f;
     _estimate_logg := _estimate_logg f; priorfile := priorfile f;
     coordinator := coordinator f; fixed := fixed f;
     default_priors := default_priors f; priors := priors f;
     ndim := x; order := order f; warnings := warnings f |}.

Definition with_order (x : list string) (f : Fitter) : Fitter :=
  {| out_folder := out_folder f; verbose := verbose f; star := star f;
     _engine := _engine f; _norm := _norm f; _grid := _grid f;
     _estimate_logg := _estimate_logg f; priorfile := priorfile f;
     coordinator := coordinator f; fixed := fixed f;
     default_priors := default_priors f; priors := priors f;
     ndim := ndim f; order := x; warnings := warnings f |}.

(** [warnings.warn(msg)]. *)
Definition warn (msg : string) (f : Fitter) : Fitter :=
  {| out_folder := out_folder f; verbose := verbose f; star := star f;
     _engine := _engine f; _norm := _norm f; _grid := _grid f;
     _estimate_logg := _estimate_logg f; priorfile := priorfile f;
     coordinator := coordinator f; fixed := fixed f;
     default_priors := default_priors f; priors := priors f;
     ndim := ndim f; order := order f; warnings := warnings f ++ [msg] |}.

(** ** Property setters *)

(** [Fitter.norm] setter.  The name called on a non-boolean value,
    [rInputError], is bound by no statement of fitter.py (the error classes
    it takes from Error are used as InstanceError, InputError and
    PriorError): evaluating it raises NameError before any error object is
    built. *)
Definition set_norm (f : Fitter) (v : pyval) : result Fitter :=
  match v with
  | VBool b => Ok (with_norm b f)
  | _ => Raise (NameError "rInputError")
  end.

(** [Fitter.verbose] setter. *)
Definition set_verbose (f : Fitter) (v : pyval) : result Fitter :=
  match v with
  | VBool b => Ok (with_verbose b f)
  | _ => Raise (InputError "verbose must be True or False.")
  end.

(** [Fitter.estimate_logg] setter. *)
Definition set_estimate_logg (f : Fitter) (v : pyval) : result Fitter :=
  match v with
  | VBool b => Ok (with_estimate_logg b f)
  | _ => Raise (InputError "estimate_logg must be True or False.")
  end.

(** [Fitter.bma] setter. *)
Definition set_bma (f : Fitter) (v : pyval) : result Fitter :=
  Raise NotImplementedError.

(** ** Parameter order *)

Definition order_physical : list string :=
  ["teff"; "logg"; "z"; "dist"; "rad"; "Av"; "inflation"].

Definition order_normalized : list string :=
  ["teff"; "logg"; "z"; "norm"; "Av"; "inflation"].

Definition order_of (norm : bool) : list string :=
  if negb norm then order_physical else order_normalized.

Definition npars (norm : bool) : nat := if negb norm then 7%nat else 6%nat.

(** [Fitter.get_ndim]. *)
Definition get_ndim (f : Fitter) : result Z :=
  let ndim := (if negb (_norm f) then 7 else 6)%float in
  let ndim := (ndim - Np.sum (coordinator f))%float in
  Np.py_int ndim.

(** ** Default priors *)

Definition logg_ppf : string := "../Datafiles/logg_ppf.pkl".
Definition teff_ppf : string := "../Datafiles/teff_ppf.pkl".

Definition isochrone_mask : list bool :=
  [true; true; true; false; false; false; true; true; true; false; false;
   false; false; false; false; false; false; false; false; false; true; true;
   false; false].

Definition isochrone_bands : list string :=
  ["H"; "J"; "Ks"; "G"; "RP"; "BP"; "W1"; "W2"].

(** [a[mask == 1]]: a boolean index must be as long as the array. *)
Definition mask_select (a : list float) : result (list float) :=
  if (length a =? length isochrone_mask)%nat
  then Ok (map fst (filter (fun p => Is_true (snd p)) (zip a isochrone_mask)))
  else Raise IndexError.

(** The loop over [zip(mags, mags_e, bands)]: the bands with a non-zero
    magnitude enter [params] and [used_bands]. *)
Fixpoint collect_bands (ms es : list float) (bs : list string)
    (params : gmap string (float * float)) (used : list string)
    : gmap string (float * float) * list string :=
  match ms, es, bs with
  | m :: ms', e :: es', b :: bs' =>
      if Np.truthy m
      then collect_bands ms' es' bs' (<[b := (m, e)]> params) (used ++ [b])
      else collect_bands ms' es' bs' params used
  | _, _, _ => (params, used)
  end.

(** The parameters handed to the isochrone estimator. *)
Definition isochrone_params (W : World) (s : Star)
    : gmap string (float * float) :=
  let params : gmap string (float * float) := ∅ in
  let params :=
    if get_temp s then <["Teff" := (temp s, temp_e s)]> params else params in
  let params :=
    match get_lum s, lum s with
    | true, Some l => <["LogL" := (log10 W l, log10 W (lum_e s))]> params
    | _, _ => params
    end in
  let params :=
    match get_rad s, rad s with
    | true, Some r => <["radius" := (r, rad_e s)]> params
    | _, _ => params
    end in
  if get_plx s then <["parallax" := (plx s, plx_e s)]> params else params.

Definition rad_warning : string :=
  "No radius found in Gaia, using default radius prior"
  ++ ". Consider fitting the normalization constant"
  ++ " instead.".

(** The blocks of [Fitter._default_priors], in the order they run, each on
    the dictionary [defaults] built so far. *)

(** Logg prior setup. *)
Definition logg_defaults (W : World) (f : Fitter)
    (defaults : gmap string (option St.rv))
    : result (gmap string (option St.rv)) :=
  if negb (_estimate_logg f) then
    d ← of_option (read_pickle W logg_ppf) (FileNotFoundError logg_ppf);
    Ok (<["logg" := Some d]> defaults)
  else
    s ← of_option (star f) AttributeError;
    let params := isochrone_params W s in
    ms ← mask_select (mags s);
    es ← mask_select (mag_errs s);
    let '(params, used_bands) :=
      collect_bands ms es isochrone_bands params [] in
    match estimate W used_bands params with
    | Some (v, e) => Ok (<["logg" := Some (St.norm v e)]> defaults)
    | None => Ok defaults
    end.

(** Teff prior setup.  Without a measured temperature the table is loaded
    into [defaults['teff']], and the next line assigns [teff_prior['teff']]
    over it; [teff_prior] is bound by no statement of fitter.py, so that
    line raises NameError. *)
Definition teff_defaults (W : World) (s : Star)
    (defaults : gmap string (option St.rv))
    : result (gmap string (option St.rv)) :=
  if get_temp s then
    Ok (<["teff" := Some (St.norm (temp s) (temp_e s))]> defaults)
  else
    d ← of_option (read_pickle W teff_ppf) (FileNotFoundError teff_ppf);
    let defaults := <["teff" := Some d]> defaults in
    Raise (NameError "teff_prior").

(** Distance and radius, or the normalization constant. *)
Definition scale_defaults (f : Fitter) (s : Star)
    (defaults : gmap string (option St.rv))
    : gmap string (option St.rv) * Fitter :=
  if negb (_norm f) then
    let defaults := <["dist" := Some (St.norm (dist s) (dist_e s))]> defaults in
    match rad s with
    | Some r => (<["rad" := Some (St.norm r (rad_e s))]> defaults, f)
    | None =>
        let f := warn rad_warning f in
        (<["rad" := Some (St.uniform 0.1 10)]> defaults, f)
    end
  else
    let up := (1 / 1e-20)%float in
    (<["norm" := Some (St.truncnorm 0 up 0 1e-20)]> defaults, f).

(** Extinction. *)
Definition av_defaults (f : Fitter) (s : Star)
    (defaults : gmap string (option St.rv))
    : result (gmap string (option St.rv) * Fitter) :=
  if PrimFloat.eqb (Av s) 0 then
    c ← Np.set (coordinator f) (-2) 1;
    let f := with_coordinator c f in
    x ← Np.set (fixed f) (-2) 0;
    let f := with_fixed x f in
    Ok (<["Av" := None]> defaults, f)
  else
    Ok (<["Av" := Some (St.uniform 0 (Av s))]> defaults, f).

(** [Fitter._default_priors]: the dictionary of defaults, and the fitter
    with the writes to its coordinator and fixed arrays and the warnings
    emitted on the way. *)
Definition _default_priors (W : World) (f : Fitter)
    : result (gmap string (option St.rv) * Fitter) :=
  defaults ← logg_defaults W f ∅;
  s ← of_option (star f) AttributeError;
  defaults ← teff_defaults W s defaults;
  let defaults := <["z" := Some (St.norm (-0.125) 0.234)]> defaults in
  let '(defaults, f) := scale_defaults f s defaults in
  '(defaults, f) ← av_defaults f s defaults;
  let '(up, low) := (((5 - 0.5) / 0.5)%float, ((0 - 0.5) / 0.5)%float) in
  let defaults := <["inflation" := Some (St.truncnorm low up 0.5 0.5)]> defaults in
  Ok (defaults, f).

(** ** Priors from a prior file *)

Definition param_list : list string :=
  ["teff"; "logg"; "z"; "dist"; "rad"; "norm"; "Av"; "inflation"].

(** [float(s)] as a fallible step. *)
Definition to_float (W : World) (s : string) : result float :=
  of_option (py_float W s) ValueError.

(** A subscript store [name[key] = value] through a name that no statement
    binds ([priot_dict], beside the local [prior_dict]): looking the name up
    raises NameError once the value has been built. *)
Definition store_through_unbound {A} (name key : string) (value : St.rv)
    : result A :=
  Raise (NameError name).

(** One turn of the loop of [create_priors] over the rows of the file, on
    the local dictionary [prior_dict] and the fitter. *)
Definition prior_row (W : World)
    (acc : gmap string (option St.rv) * Fitter)
    (row : string * string * string)
    : result (gmap string (option St.rv) * Fitter) :=
  let '(prior_dict, f) := acc in
  let '(par, pri, bo) := row in
  if negb (str_in par param_list) then Raise (PriorError par 0)
  else if _norm f && (String.eqb par "dist" || String.eqb par "rad")
  then Raise (PriorError par 1)
  else if String.eqb (lower pri) "uniform" then
    match split comma bo with
    | [a; b] =>
        a ← to_float W a; b ← to_float W b;
        Ok (<[par := Some (St.uniform a (b - a))]> prior_dict, f)
    | _ => Raise ValueError
    end
  else if String.eqb (lower pri) "normal" then
    match split comma bo with
    | [mu; sig] =>
        mu ← to_float W mu; sig ← to_float W sig;
        Ok (<[par := Some (St.norm mu sig)]> prior_dict, f)
    | _ => Raise ValueError
    end
  else if String.eqb (lower pri) "truncatednormal" then
    match split comma bo with
    | [mu; sig; up; low] =>
        mu ← to_float W mu; sig ← to_float W sig;
        up ← to_float W up; low ← to_float W low;
        if PrimFloat.eqb sig 0 then Raise ZeroDivisionError
        else
          let '(up, low) := (((up - mu) / sig)%float, ((low - mu) / sig)%float) in
          store_through_unbound "priot_dict" par (St.truncnorm low up mu sig)
    | _ => Raise ValueError
    end
  else if String.eqb (lower pri) "default" then
    d ← of_option (default_priors f !! par) (KeyError par);
    Ok (<[par := d]> prior_dict, f)
  else if String.eqb (lower pri) "fixed" then
    let idx := Np.where_eq par (order f) 0 in
    c ← Np.set_at (coordinator f) idx 1;
    let f := with_coordinator c f in
    v ← to_float W bo;
    x ← Np.set_at (fixed f) idx v;
    Ok (prior_dict, with_fixed x f)
  else Ok (prior_dict, f).

(** A [for] loop whose body may raise. *)
Fixpoint for_each {A S} (body : S -> A -> result S) (s : S) (l : list A)
    : result S :=
  match l with
  | [] => Ok s
  | a :: l' => s' ← body s a; for_each body s' l'
  end.

Definition no_priorfile_warning : string :=
  "No priorfile detected. Using default priors.".

(** [Fitter.create_priors]. *)
Definition create_priors (W : World) (f : Fitter) (priorfile : option string)
    : result Fitter :=
  match priorfile with
  | Some (String c p) =>
      rows ← loadtxt W (String c p);
      '(prior_dict, f) ← for_each (prior_row W) (∅, f) rows;
      Ok (with_priors prior_dict f)
  | _ =>
      let f := warn no_priorfile_warning f in
      Ok (with_priors (default_priors f) f)
  end.

(** ** Initialization *)

Definition no_star_msg : string :=
  "No star is detected. Please create an instance of Star.".

(** [Fitter.initialize].  Creating the output directory touches nothing the
    fitter reads back and is left out, and so are the interpolators, which
    the grid setter loaded when the fitter was built. *)
Definition initialize (W : World) (f : Fitter) : result Fitter :=
  match star f with
  | None => Raise (InputError no_star_msg)
  | Some s =>
      (* Declare order of parameters. *)
      let f := with_order (order_of (_norm f)) f in
      (* Create output directory. *)
      let f :=
        match out_folder f with
        | None => with_out_folder (Some (starname s ++ "/")) f
        | Some _ => f
        end in
      (* Parameter coordination. *)
      let f := with_coordinator (Np.zeros (npars (_norm f))) f in
      let f := with_fixed (Np.zeros (npars (_norm f))) f in
      (* Setup priors. *)
      '(defaults, f) ← _default_priors W f;
      let f := with_default_priors defaults f in
      f ← create_priors W f (priorfile f);
      (* Get dimensions. *)
      n ← get_ndim f;
      Ok (with_ndim n f)
  end.

(** ** Result reduction *)

(** A value of the [posterior_samples] dictionary: a column of the sample
    array, or a single number. *)
Inductive entry : Type :=
| Column (a : list float)
| Scalar (x : float).

(** The dictionary [out] that [save] pickles. *)
Record ResultRecord : Type := {
  lnZ : float;
  lnZerr : float;
  posterior_samples : gmap string entry;
  out_fixed : list float;
  out_coordinator : list float;
  best_fit : gmap string float;
  out_star : option Star;
  engine : string;
  out_norm : bool;
  model_grid : string
}.

Definition tab : string := String (ascii_of_nat 9) EmptyString.
Definition newline : string := String (ascii_of_nat 10) EmptyString.

(** [enumerate(l)], counting from [i]. *)
Fixpoint enumerate_from {A} (i : nat) (l : list A) : list (nat * A) :=
  match l with
  | [] => []
  | a :: l' => (i, a) :: enumerate_from (S i) l'
  end.

(** First loop over [enumerate(order)]: [j] walks the columns of the
    sample array. *)
Definition samples_step (f : Fitter) (post : Np.matrix)
    (acc : gmap string entry * nat) (ip : nat * string)
    : result (gmap string entry * nat) :=
  let '(samples, j) := acc in
  let '(i, param) := ip in
  c ← Np.get (coordinator f) i;
  if negb (Np.truthy c) then
    col ← Np.column post j;
    Ok (<[param := Column col]> samples, S j)
  else
    x ← Np.get (fixed f) i;
    Ok (<[param := Scalar x]> samples, j).

(** The log likelihood of every row: the array of zeros filled in place. *)
Definition loglike (W : World) (f : Fitter) (post : Np.matrix) : list float :=
  foldl
    (fun ll i =>
       let theta :=
         build_params W (nth i (Np.rows post) []) (coordinator f) (fixed f)
           (_norm f) in
       <[i := log_likelihood W theta (star f) (_norm f)]> ll)
    (Np.zeros (Np.shape0 post))
    (seq 0 (Np.shape0 post)).

(** The state of the second loop. *)
Record best_state : Type := {
  bs_samples : gmap string entry;
  bs_best_fit : gmap string float;
  bs_best_theta : list float;
  bs_logdat : string;
  bs_j : nat
}.

(** Second loop over [enumerate(order)]. *)
Definition best_fit_step (W : World) (f : Fitter) (post : Np.matrix)
    (acc : best_state) (ip : nat * string) : result best_state :=
  let '(i, param) := ip in
  c ← Np.get (coordinator f) i;
  if negb (Np.truthy c) then
    col ← Np.column post (bs_j acc);
    let logdat :=
      bs_logdat acc ++ param ++ tab ++ fmt4 W (median W col) ++ tab in
    let '(_, lo, up) := credibility_interval W col in
    let logdat := logdat ++ fmt4 W up ++ tab ++ fmt4 W lo ++ newline in
    Ok {| bs_samples := <[param := Column col]> (bs_samples acc);
          bs_best_fit := <[param := median W col]> (bs_best_fit acc);
          bs_best_theta := <[i := median W col]> (bs_best_theta acc);
          bs_logdat := logdat;
          bs_j := S (bs_j acc) |}
  else
    x ← Np.get (fixed f) i;
    let logdat := bs_logdat acc ++ param ++ tab ++ fmt4 W x ++ tab in
    let logdat := logdat ++ "FIXED" ++ newline in
    Ok {| bs_samples := bs_samples acc;
          bs_best_fit := <[param := x]> (bs_best_fit acc);
          bs_best_theta := <[i := x]> (bs_best_theta acc);
          bs_logdat := logdat;
          bs_j := bs_j acc |}.

Definition logdat_header : string :=
  "Parameter" ++ tab ++ "median" ++ tab ++ "upper" ++ tab ++ "lower" ++ newline.

(** [Fitter.save], from the triple [(lnz, lnzer, posterior_samples)] that
    [multinest_results] or [dynesty_results] hands over: the dictionary it
    pickles and the text of the log file.  The two file names are built
    from the output folder first, which fails on [None]. *)
Definition save (W : World) (f : Fitter) (res : float * float * Np.matrix)
    : result (ResultRecord * string) :=
  let '(lnz, lnzer, post) := res in
  (* out_file and log_out: the output folder must be a string by now. *)
  _ ← of_option (out_folder f) TypeError;
  '(samples, _) ←
    for_each (samples_step f post) (∅, 0%nat) (enumerate_from 0 (order f));
  let samples := <["loglike" := Column (loglike W f post)]> samples in
  st ←
    for_each (best_fit_step W f post)
      {| bs_samples := samples; bs_best_fit := ∅;
         bs_best_theta := Np.zeros (length (order f));
         bs_logdat := logdat_header; bs_j := 0%nat |}
      (enumerate_from 0 (order f));
  let likelihood := log_likelihood W (bs_best_theta st) (star f) (_norm f) in
  Ok ({| lnZ := lnz; lnZerr := lnzer;
         posterior_samples := bs_samples st;
         out_fixed := fixed f;
         out_coordinator := coordinator f;
         best_fit := <["likelihood" := likelihood]> (bs_best_fit st);
         out_star := star f;
         engine := _engine f;
         out_norm := _norm f;
         model_grid := _grid f |},
      bs_logdat st).

(** ** Counting fixed and free parameters *)

(** The number of entries of a coordinator that mark a fixed parameter. *)
Fixpoint count_fixed (a : list float) : nat :=
  match a with
  | [] => 0
  | x :: a' => ((if Np.truthy x then 1 else 0) + count_fixed a')%nat
  end.

(** The number of entries that mark a free parameter. *)
Fixpoint count_free (a : list float) : nat :=
  match a with
  | [] => 0
  | x :: a' => ((if Np.truthy x then 0 else 1) + count_free a')%nat
  end.

(** The column of the sample array that belongs to the parameter at
    position [i]: the number of free parameters before it. *)
Definition free_rank (a : list float) (i : nat) : nat := count_free (take i a).

(** The samples of column [j], one per row. *)
Definition column_of (post : Np.matrix) (j : nat) : list float :=
  map (fun r => nth j r 0%float) (Np.rows post).

(** The best-fit value of the parameter at position [i]: its fixed value,
    or the median of its samples. *)
Definition best_value (W : World) (f : Fitter) (post : Np.matrix) (i : nat)
    : float :=
  match coordinator f !! i, fixed f !! i with
  | Some c, Some x =>
      if Np.truthy c then x
      else median W (column_of post (free_rank (coordinator f) i))
  | _, _ => 0%float
  end.

(** The best-fit values of all parameters, in canonical order. *)
Definition best_vector (W : World) (f : Fitter) (post : Np.matrix)
    : list float :=
  map (best_value W f post) (seq 0 (length (order f))).

(** What the parameter at position [i] should hold in [posterior_samples]
    if fixed values were broadcast to the number of samples. *)
Definition broadcast (post : Np.matrix) (x : float) : entry :=
  Column (replicate (Np.shape0 post) x).

(** A coordinator entry as the fitter writes it: 0 or 1. *)
Definition flag (x : float) : Prop := x = 0%float \/ x = 1%float.

(** ** A concrete world and star for running the model *)

Module Sample.

Local Open Scope float_scope.

Definition digit_of (c : ascii) : option Z :=
  let n := nat_of_ascii c in
  if ((48 <=? n) && (n <=? 57))%nat then Some (Z.of_nat n - 48)%Z else None.

Fixpoint digits (s : string) (acc : Z) : option Z :=
  match s with
  | EmptyString => Some acc
  | String c s' => d ← digit_of c; digits s' (10 * acc + d)%Z
  end.

Definition float_of_Z (z : Z) : float :=
  PrimFloat.of_uint63 (Uint63.of_Z z).

(** [float] on plain decimal literals, an optional minus sign and at most
    fifteen digits around an optional point; there the quotient of the
    digits by the power of ten is the correctly rounded value.  Every
    other string is refused. *)
Definition decimal_literal (s : string) : option float :=
  let '(neg, body) :=
    match s with
    | String c r => if Ascii.eqb c "-"%char then (true, r) else (false, s)
    | EmptyString => (false, s)
    end in
  let sign (x : float) := if neg : bool then (- x) else x in
  match split "."%char body with
  | [ip] =>
      if ((0 <? String.length ip) && (String.length ip <=? 15))%nat
      then m ← digits ip 0; Some (sign (float_of_Z m))
      else None
  | [ip; fp] =>
      let n := (String.length ip + String.length fp)%nat in
      if ((0 <? n) && (n <=? 15))%nat
      then m ← digits (ip ++ fp) 0;
           Some (sign (float_of_Z m / float_of_Z (10 ^ Z.of_nat (String.length fp))))
      else None
  | _ => None
  end.

Fixpoint insert_sorted (x : float) (l : list float) : list float :=
  match l with
  | [] => [x]
  | y :: l' => if PrimFloat.leb x y then x :: l else y :: insert_sorted x l'
  end.

Definition sort (l : list float) : list float := foldr insert_sorted [] l.

(** The median of a sample without NaN: the middle of the sorted values,
    or the mean of the two in the middle. *)
Definition median_of (l : list float) : float :=
  let s := sort l in
  let n := length s in
  if (n =? 0)%nat then nan
  else if Nat.odd n then nth (n / 2) s nan
  else (nth (n / 2 - 1) s nan + nth (n / 2) s nan) / 2.

(** Modelled from the spec: the parameter vector builder of section 4.2
    ([build_params], defined outside fitter.py).  It walks the canonical
    order; a fixed slot takes its value from [fixed], a free slot the next
    unconsumed entry of the free-parameter vector. *)
Fixpoint expand (cube coordinator fixed : list float) (norm : bool)
    : list float :=
  match coordinator, fixed with
  | c :: coordinator', x :: fixed' =>
      if Np.truthy c then x :: expand cube coordinator' fixed' norm
      else match cube with
           | v :: cube' => v :: expand cube' coordinator' fixed' norm
           | [] => []
           end
  | _, _ => []
  end.

Definition prior_rows : list (string * string * string) :=
  [("teff", "normal", "4730,44");
   ("logg", "default", "0");
   ("z", "Fixed", "-0.125");
   ("norm", "fixed", "1.5");
   ("Av", "uniform", "0,0.5")].

Definition truncated_rows : list (string * string * string) :=
  [("teff", "TruncatedNormal", "4730,44,5000,4400");
   ("Av", "uniform", "0,0.5")].

Definition world : World :=
  {| py_float := decimal_literal;
     log10 := fun _ => nan;
     estimate := fun _ _ => None;
     read_pickle := fun p => Some (St.pickled p);
     loadtxt := fun p =>
       if String.eqb p "priors.dat" then Ok prior_rows
       else if String.eqb p "truncated.dat" then Ok truncated_rows
       else Raise (FileNotFoundError p);
     median := median_of;
     credibility_interval := fun l =>
       (median_of l, nth 0 (sort l) nan, nth (length l - 1) (sort l) nan);
     build_params := expand;
     log_likelihood := fun theta _ _ =>
       - fold_left (fun a x => a + x * x) theta 0;
     fmt4 := fun _ => "#" |}.

(** A star with a measured temperature, no catalogue radius and no
    extinction. *)
Definition ngts6 : Star :=
  {| starname := "NGTS-6";
     get_temp := true; temp := 4730; temp_e := 44;
     get_lum := false; lum := None; lum_e := 0;
     get_rad := false; rad := None; rad_e := 0;
     get_plx := true; plx := 3.215; plx_e := 0.017;
     mags := []; mag_errs := [];
     dist := 311; dist_e := 2;
     Av := 0 |}.

(** A star without a measured temperature. *)
Definition unmeasured : Star :=
  {| starname := "unmeasured";
     get_temp := false; temp := 0; temp_e := 0;
     get_lum := false; lum := None; lum_e := 0;
     get_rad := true; rad := Some 0.7; rad_e := 0.1;
     get_plx := true; plx := 3.215; plx_e := 0.017;
     mags := []; mag_errs := [];
     dist := 311; dist_e := 2;
     Av := 0.2 |}.

(** The attributes [Fitter.__init__] sets, the star given, and empty
    placeholders for what [initialize] creates. *)
Definition fitter (s : Star) (norm : bool) (priorfile : option string)
    : Fitter :=
  {| out_folder := None; verbose := true; star := Some s;
     _engine := "dynesty"; _norm := norm; _grid := "phoenix";
     _estimate_logg := false; priorfile := priorfile;
     coordinator := []; fixed := [];
     default_priors := ∅; priors := ∅;
     ndim := 0; order := []; warnings := [] |}.

(** The fitter as [initialize] hands it to [_default_priors]. *)
Definition prepared (s : Star) (norm : bool) : Fitter :=
  with_fixed (Np.zeros (npars norm))
    (with_coordinator (Np.zeros (npars norm))
       (with_order (order_of norm) (fitter s norm None))).

(** What [_default_priors] returns for it. *)
Definition default_run (s : Star) (norm : bool)
    : gmap string (option St.rv) * Fitter :=
  match _default_priors world (prepared s norm) with
  | Ok r => r
  | Raise _ => (∅, prepared s norm)
  end.

(** The fitter after [initialize]. *)
Definition initialized (s : Star) (norm : bool) (priorfile : option string)
    : Fitter :=
  match initialize world (fitter s norm priorfile) with
  | Ok f => f
  | Raise _ => fitter s norm priorfile
  end.

(** Two equally weighted samples of the six free parameters of [ngts6]
    in physical mode. *)
Definition posterior : Np.matrix :=
  Np.Matrix 6 [[4700; 4.5; -0.1; 310; 0.7; 0.4];
               [4760; 4.7; -0.3; 312; 0.9; 0.6]].

End Sample.

(** ** The remaining setters *)

Definition with_priorfile (x : option string) (f : Fitter) : Fitter :=
  {| out_folder := out_folder f; verbose := verbose f; star := star f;
     _engine := _engine f; _norm := _norm f; _grid := _grid f;
     _estimate_logg := _estimate_logg f; priorfile := x;
     coordinator := coordinator f; fixed := fixed f;
     default_priors := default_priors f; priors := priors f;
     ndim := ndim f; order := order f; warnings := warnings f |}.

(** [Fitter.priorfile] setter. *)
Definition set_priorfile (f : Fitter) (v : pyval) : result Fitter :=
  match v with
  | VStr s => Ok (with_priorfile (Some s) f)
  | VNone => Ok (with_priorfile None f)
  | _ => Raise (InputError "Priorfile must be an address or None.")
  end.

(** [Fitter.out_folder] setter. *)
Definition set_out_folder (f : Fitter) (v : pyval) : result Fitter :=
  match v with
  | VStr s => Ok (with_out_folder (Some s) f)
  | VNone => Ok (with_out_folder None f)
  | _ => Raise (InputError "Output folder must be an address or None.")
  end.

(** The fitter as [initialize] has it when it turns to the priors: the
    order declared, the output folder defaulted to the star's name, the
    coordinator and the fixed values zeroed. *)
Definition prepare (f : Fitter) (s : Star) : Fitter :=
  let f := with_order (order_of (_norm f)) f in
  let f :=
    match out_folder f with
    | None => with_out_folder (Some (starname s ++ "/")) f
    | Some _ => f
    end in
  let f := with_coordinator (Np.zeros (npars (_norm f))) f in
  with_fixed (Np.zeros (npars (_norm f))) f.

(** ** The sampler set-up *)

(** [v == s] for a string literal [s]. *)
Definition is_str (v : pyval) (s : string) : bool :=
  match v with VStr t => String.eqb t s | _ => false end.

Module Sampler.

(** The attributes the [setup] setter writes, [None] while one has never
    been assigned.  ([Fitter] keeps the engine's name for [save].) *)
Record attrs : Type := {
  _setup : option (list pyval);
  _engine : option pyval;
  _nlive : option pyval;
  _dlogz : option pyval;
  _bound : option pyval;
  _sample : option pyval;
  _threads : option pyval;
  _dynamic : option pyval
}.

Definition unset : attrs :=
  {| _setup := None; _engine := None; _nlive := None; _dlogz := None;
     _bound := None; _sample := None; _threads := None; _dynamic := None |}.

Definition err_msg : string :=
  "The setup has to contain at least the fitting engine"
  ++ ", multinest or dynesty.".

(** [setup[i]]. *)
Definition item (setup : list pyval) (i : nat) : result pyval :=
  of_option (setup !! i) IndexError.

(** The MultiNest block of the setter. *)
Definition multinest_block (defaults : bool) (setup : list pyval) (a : attrs)
    : result attrs :=
  if defaults then
    Ok {| _setup := _setup a; _engine := _engine a;
          _nlive := Some (VInt 500); _dlogz := Some (VFloat 0.5);
          _bound := _bound a; _sample := _sample a;
          _threads := _threads a; _dynamic := _dynamic a |}
  else
    nlive ← item setup 1;
    dlogz ← item setup 2;
    Ok {| _setup := _setup a; _engine := _engine a;
          _nlive := Some nlive; _dlogz := Some dlogz;
          _bound := _bound a; _sample := _sample a;
          _threads := _threads a; _dynamic := _dynamic a |}.

(** The dynesty block of the setter. *)
Definition dynesty_block (defaults : bool) (setup : list pyval) (a : attrs)
    : result attrs :=
  if defaults then
    Ok {| _setup := _setup a; _engine := _engine a;
          _nlive := Some (VInt 500); _dlogz := Some (VFloat 0.5);
          _bound := Some (VStr "multi"); _sample := Some (VStr "rwalk");
          _threads := Some (VInt 1); _dynamic := Some (VBool false) |}
  else
    nlive ← item setup 1;
    dlogz ← item setup 2;
    bound ← item setup 3;
    sample ← item setup 4;
    threads ← item setup 5;
    dynamic ← item setup 6;
    Ok {| _setup := _setup a; _engine := _engine a;
          _nlive := Some nlive; _dlogz := Some dlogz;
          _bound := Some bound; _sample := Some sample;
          _threads := Some threads; _dynamic := Some dynamic |}.

(** [Fitter.setup] setter, for a list [setup]. *)
Definition set_setup (a : attrs) (setup : list pyval) : result attrs :=
  if (length setup <? 1)%nat then Raise (InputError err_msg)
  else
    engine ← item setup 0;
    let a :=
      {| _setup := Some setup; _engine := Some engine;
         _nlive := _nlive a; _dlogz := _dlogz a;
         _bound := _bound a; _sample := _sample a;
         _threads := _threads a; _dynamic := _dynamic a |} in
    let defaults := (length setup =? 1)%nat in
    a ← (if is_str engine "multinest" then multinest_block defaults setup a
         else Ok a);
    if is_str engine "dynesty" then dynesty_block defaults setup a
    else Ok a.

End Sampler.

(** ** The likelihood wrappers and the MultiNest results *)

(** [dynesty_log_like(cube)], on the objects [initialize] bound. *)
Definition dynesty_log_like (W : World) (f : Fitter) (cube : list float)
    : float :=
  let theta := build_params W cube (coordinator f) (fixed f) (_norm f) in
  log_likelihood W theta (star f) (_norm f).

(** [[cube[i] for i in range(ndim)]]. *)
Definition first_entries (cube : list float) (ndim : Z) : result (list float) :=
  for_each
    (fun (theta : list float) i => x ← Np.get cube i; Ok (theta ++ [x])%list)
    [] (seq 0 (Z.to_nat ndim)).

(** [multinest_log_like(cube, ndim, nparams)]. *)
Definition multinest_log_like (W : World) (f : Fitter) (cube : list float)
    (ndim nparams : Z) : result float :=
  theta ← first_entries cube ndim;
  let theta := build_params W theta (coordinator f) (fixed f) (_norm f) in
  Ok (log_likelihood W theta (star f) (_norm f)).



(** ** The text of the log file *)

(** The row [save] writes for the parameter [param] at position [i]. *)
Definition log_row (W : World) (f : Fitter) (post : Np.matrix) (i : nat)
    (param : string) : string :=
  match coordinator f !! i with
  | Some c =>
      if Np.truthy c then
        match fixed f !! i with
        | Some x => param ++ tab ++ fmt4 W x ++ tab ++ "FIXED" ++ newline
        | None => ""
        end
      else
        let col := column_of post (free_rank (coordinator f) i) in
        let '(_, lo, up) := credibility_interval W col in
        param ++ tab ++ fmt4 W (median W col) ++ tab
        ++ fmt4 W up ++ tab ++ fmt4 W lo ++ newline
  | None => ""
  end.

(** The rows of the parameters [names], the first at position [i]. *)
Fixpoint log_rows (W : World) (f : Fitter) (post : Np.matrix) (i : nat)
    (names : list string) : string :=
  match names with
  | [] => ""
  | p :: names' => log_row W f post i p ++ log_rows W f post (S i) names'
  end.

(** ** More concrete inputs *)

Module Cases.

Local Open Scope float_scope.

(** A star with extinction and the 24 magnitudes of the catalogue query,
    three of the eight isochrone bands missing. *)
Definition reddened : Star :=
  {| starname := "reddened";
     get_temp := true; temp := 5800; temp_e := 80;
     get_lum := true; lum := Some 1.1; lum_e := 0.1;
     get_rad := true; rad := Some 1.05; rad_e := 0.05;
     get_plx := true; plx := 10.2; plx_e := 0.03;
     mags := [7.1; 7.4; 7; 0; 0; 0; 8.2; 0; 8.6; 0; 0; 0;
              0; 0; 0; 0; 0; 0; 0; 0; 0; 0; 0; 0];
     mag_errs := replicate 24 0.02;
     dist := 98; dist_e := 1;
     Av := 0.3 |}.


(** The set-up [Fitter.__init__] leaves. *)
Definition default_setup : Sampler.attrs :=
  match Sampler.set_setup Sampler.unset [VStr "dynesty"] with
  | Ok a => a
  | Raise _ => Sampler.unset
  end.

(** The sample world with a prior file of two rows, the second fixing
    'norm' at something that is no number. *)
Definition unparsable_world : World :=
  {| py_float := py_float Sample.world;
     log10 := log10 Sample.world;
     estimate := estimate Sample.world;
     read_pickle := read_pickle Sample.world;
     loadtxt := fun _ =>
       Ok [("teff", "normal", "4730,44"); ("norm", "fixed", "abc")];
     median := median Sample.world;
     credibility_interval := credibility_interval Sample.world;
     build_params := build_params Sample.world;
     log_likelihood := log_likelihood Sample.world;
     fmt4 := fmt4 Sample.world |}.

(** The sample world with an estimator that answers for the three 2MASS
    bands alone. *)
Definition picky_world : World :=
  {| py_float := py_float Sample.world;
     log10 := log10 Sample.world;
     estimate := fun bands _ =>
       if bool_decide (bands = ["H"; "J"; "Ks"]) then Some (4.4, 0.1)
       else None;
     read_pickle := read_pickle Sample.world;
     loadtxt := loadtxt Sample.world;
     median := median Sample.world;
     credibility_interval := credibility_interval Sample.world;
     build_params := build_params Sample.world;
     log_likelihood := log_likelihood Sample.world;
     fmt4 := fmt4 Sample.world |}.

(** The fitter as [initialize] hands it to [create_priors]. *)
Definition ready (s : Star) (norm : bool) : Fitter :=
  with_default_priors (Sample.default_run s norm).1
    (Sample.default_run s norm).2.

(** [reddened] prepared for the priors, logg estimation on. *)
Definition estimating : Fitter :=
  with_estimate_logg true (Sample.prepared reddened false).

(** Two samples of two columns only. *)
Definition short_posterior : Np.matrix :=
  Np.Matrix 2 [[4700; 4.5]; [4760; 4.7]].

(** A unit cube as MultiNest hands it over: the parameters first, then what
    the sampler appends. *)
Definition cube : list float := [0.3; 0.5; 0.1; 0.9; 0.7; 0.4; 0; 0].

End Cases.

(** ** Predicates of the statements *)

(** [a'] has a truthy entry wherever [a] has one. *)
Definition no_freer (a a' : list float) : Prop :=
  Forall2 (fun x y => Np.truthy x = true -> Np.truthy y = true) a a'.

(** The kinds of row that store a distribution. *)
Definition stores_prior (pri : string) : Prop :=
  lower pri = "uniform" \/ lower pri = "normal" \/ lower pri = "default".

(** * Verification *)

(** ** The model on small inputs *)

Example split_two : split comma "0.1,10" = ["0.1"; "10"].
Proof. reflexivity. Qed.

Example split_empty_piece : split comma "a,,b" = ["a"; ""; "b"].
Proof. reflexivity. Qed.

Example lower_mixed : lower "TruncatedNormal" = "truncatednormal".
Proof. reflexivity. Qed.

Example int_of_float : Np.py_int 5.75%float = Ok 5.
Proof. reflexivity. Qed.

Example sum_three : Np.sum [1; 0; 1]%float = 2%float.
Proof. reflexivity. Qed.

Example where_Av : Np.where_eq "Av" order_physical 0 = [5%nat].
Proof. reflexivity. Qed.

Example literal_eighth : Sample.decimal_literal "-0.125" = Some (-0.125)%float.
Proof. reflexivity. Qed.

Example median_even : Sample.median_of [3; 1; 2; 5]%float = 2.5%float.
Proof. reflexivity. Qed.

(** ** Results and binds *)

Lemma bind_Ok {A B} (m : result A) (k : A -> result B) (b : B) :
  m ≫= k = Ok b -> exists a, m = Ok a /\ k a = Ok b.
Proof. destruct m as [a|e]; simpl; [eauto | discriminate]. Qed.

Lemma bind_Ok_l {A B} (a : A) (k : A -> result B) : Ok a ≫= k = k a.
Proof. reflexivity. Qed.

Lemma bind_Raise {A B} (e : exn) (k : A -> result B) :
  Raise e ≫= k = Raise e.
Proof. reflexivity. Qed.

Lemma of_option_Ok {A} (o : option A) (e : exn) (a : A) :
  of_option o e = Ok a -> o = Some a.
Proof. destruct o; simpl; congruence. Qed.

Lemma is_Ok_bind_false {A B} (m : result A) (k : A -> result B) :
  (forall a, is_Ok (k a) = false) -> is_Ok (m ≫= k) = false.
Proof. intros H. destruct m; simpl; auto. Qed.

Ltac bind_inv H :=
  let a := fresh "a" in
  let E := fresh "E" in
  apply bind_Ok in H as (a & E & H).

(** ** Arrays *)

Lemma norm_index_minus_two (len : nat) (k : nat) :
  Np.norm_index len (-2) = Ok k -> (2 <= len)%nat /\ k = (len - 2)%nat.
Proof.
  unfold Np.norm_index. simpl.
  destruct (0 <=? Z.of_nat len + -2)%Z eqn:E; [|discriminate].
  intros [= <-]. apply Z.leb_le in E. lia.
Qed.

Lemma set_minus_two (a a' : list float) (v : float) :
  Np.set a (-2) v = Ok a' ->
  (2 <= length a)%nat /\ a' = <[(length a - 2)%nat := v]> a.
Proof.
  unfold Np.set. intros H. bind_inv H.
  apply norm_index_minus_two in E as [Hlen ->]. split; congruence.
Qed.

Lemma set_minus_two_Ok (a : list float) (v : float) :
  (2 <= length a)%nat -> Np.set a (-2) v = Ok (<[(length a - 2)%nat := v]> a).
Proof.
  intros Hlen. unfold Np.set, Np.norm_index. simpl.
  destruct (0 <=? Z.of_nat (length a) + -2)%Z eqn:E.
  - simpl. do 2 f_equal. lia.
  - apply Z.leb_gt in E. lia.
Qed.

(** ** Setters *)

Section Setters.

Variable f : Fitter.

(** C8 (as the code stands).  A value that is not a bool makes the norm
    setter raise NameError for the unbound name [rInputError]; it is no
    InputError and carries no message, whereas the sibling setters of
    [verbose] and [estimate_logg] raise the InputError with their message
    for the same value. *)
Theorem set_norm_non_bool (v : pyval) :
  is_bool v = false ->
  set_norm f v = Raise (NameError "rInputError")
  /\ set_norm f v <> Raise (InputError "norm must be True or False.")
  /\ set_verbose f v = Raise (InputError "verbose must be True or False.")
  /\ set_estimate_logg f v
     = Raise (InputError "estimate_logg must be True or False.").
Proof. destruct v; simpl; try discriminate; intros _; repeat split; discriminate. Qed.

(** C9.  Whatever value is assigned to [bma], and whatever the fitter
    holds, the setter raises NotImplementedError, and so does every
    program that continues after the assignment: nothing behind
    [f.bma = ...] is reached. *)
Theorem set_bma_always_raises (v : pyval) {A} (rest : Fitter -> result A) :
  set_bma f v = Raise NotImplementedError
  /\ (set_bma f v ≫= rest) = Raise NotImplementedError.
Proof. split; reflexivity. Qed.

End Setters.

(** ** Default priors *)

Section DefaultPriors.

Variable W : World.

Implicit Types (f : Fitter) (s : Star) (d : gmap string (option St.rv)).

Lemma logg_defaults_other f d d' (k : string) :
  logg_defaults W f d = Ok d' -> k <> "logg" -> d' !! k = d !! k.
Proof.
  unfold logg_defaults. intros H Hk.
  destruct (negb (_estimate_logg f)).
  - bind_inv H. injection H as <-. by rewrite lookup_insert_ne.
  - bind_inv H. bind_inv H. bind_inv H.
    destruct (collect_bands _ _ _ _ _) as [params used].
    destruct (estimate W used params) as [[v e]|].
    + injection H as <-. by rewrite lookup_insert_ne.
    + by injection H as <-.
Qed.

Lemma teff_defaults_Ok s d d' :
  teff_defaults W s d = Ok d' ->
  get_temp s = true
  /\ d' = <["teff" := Some (St.norm (temp s) (temp_e s))]> d.
Proof.
  unfold teff_defaults. destruct (get_temp s).
  - intros [= <-]. done.
  - intros H. bind_inv H. discriminate.
Qed.

Lemma teff_defaults_no_temp s d :
  get_temp s = false -> is_Ok (teff_defaults W s d) = false.
Proof.
  unfold teff_defaults. intros ->.
  by destruct (read_pickle W teff_ppf).
Qed.

Lemma scale_defaults_arrays f s d d' f' :
  scale_defaults f s d = (d', f') ->
  coordinator f' = coordinator f /\ fixed f' = fixed f
  /\ _norm f' = _norm f.
Proof.
  unfold scale_defaults.
  destruct (negb (_norm f)); [destruct (rad s)|]; intros [= <- <-]; done.
Qed.

Lemma scale_defaults_no_radius f s d d' f' :
  _norm f = false -> rad s = None ->
  scale_defaults f s d = (d', f') ->
  d' !! "rad" = Some (Some (St.uniform 0.1 10))
  /\ warnings f' = (warnings f ++ [rad_warning])%list.
Proof.
  unfold scale_defaults. intros -> ->. simpl. intros [= <- <-].
  split; [apply lookup_insert_eq | done].
Qed.

Lemma av_defaults_zero f s d d' f' :
  PrimFloat.eqb (Av s) 0 = true ->
  av_defaults f s d = Ok (d', f') ->
  (2 <= length (coordinator f))%nat /\ (2 <= length (fixed f))%nat
  /\ coordinator f' = <[(length (coordinator f) - 2)%nat := 1%float]> (coordinator f)
  /\ fixed f' = <[(length (fixed f) - 2)%nat := 0%float]> (fixed f)
  /\ d' = <["Av" := None]> d.
Proof.
  unfold av_defaults. intros -> H.
  bind_inv H. bind_inv H. injection H as <- <-.
  apply set_minus_two in E as [Hc ->].
  simpl in E0. apply set_minus_two in E0 as [Hx ->]. done.
Qed.

Lemma av_defaults_other f s d d' f' (k : string) :
  av_defaults f s d = Ok (d', f') -> k <> "Av" ->
  d' !! k = d !! k /\ warnings f' = warnings f.
Proof.
  unfold av_defaults. intros H Hk.
  destruct (PrimFloat.eqb (Av s) 0).
  - bind_inv H. bind_inv H. injection H as <- <-.
    by rewrite lookup_insert_ne.
  - injection H as <- <-. by rewrite lookup_insert_ne.
Qed.

(** The shape of a completed run: every block returned. *)
Lemma default_priors_Ok f d f' :
  _default_priors W f = Ok (d, f') ->
  exists s d1 d2 d3 f3 d4,
    star f = Some s
    /\ logg_defaults W f ∅ = Ok d1
    /\ teff_defaults W s d1 = Ok d2
    /\ scale_defaults f s (<["z" := Some (St.norm (-0.125) 0.234)]> d2)
       = (d3, f3)
    /\ av_defaults f3 s d3 = Ok (d4, f')
    /\ d = <["inflation" := Some (St.truncnorm (-1) 9 0.5 0.5)]> d4.
Proof.
  unfold _default_priors. intros H.
  bind_inv H. bind_inv H. apply of_option_Ok in E0.
  bind_inv H.
  destruct (scale_defaults _ _ _) as [d3 f3] eqn:E2.
  bind_inv H. destruct a2 as [d4 f4]. simpl in H.
  injection H as <- <-.
  exists a0, a, a1, d3, f3, d4. done.
Qed.

(** C5 (as the code stands).  In physical mode, for a star without a
    catalogue radius, a completed default-prior construction has stored
    [uniform(0.1, 10)] under 'rad' and has emitted the fallback warning.
    In scipy's location and scale reading that distribution lives on
    [[0.1, 0.1 + 10]]: its support ends at 10.1, so 10.05 lies in it
    though it is above 10. *)
Theorem default_radius_prior_fallback f s d f' :
  star f = Some s ->
  _norm f = false ->
  rad s = None ->
  _default_priors W f = Ok (d, f') ->
  d !! "rad" = Some (Some (St.uniform 0.1 10))
  /\ rad_warning ∈ warnings f'
  /\ (forall x, St.in_support_uniform 0.1 10 x
                = PrimFloat.leb 0.1 x && PrimFloat.leb x 10.1)
  /\ St.in_support_uniform 0.1 10 10.05 = true
  /\ PrimFloat.leb 10.05 10 = false.
Proof.
  intros Hs Hn Hr H.
  apply default_priors_Ok in H
    as (s' & d1 & d2 & d3 & f3 & d4 & Hs' & _ & _ & H3 & H4 & ->).
  assert (s' = s) as -> by congruence.
  apply scale_defaults_no_radius in H3 as [Hd Hw]; [|done..].
  apply (av_defaults_other _ _ _ _ _ "rad") in H4 as [Hd4 Hw4]; [|done].
  repeat split.
  - rewrite lookup_insert_ne by done. by rewrite Hd4.
  - rewrite Hw4, Hw. set_solver.
Qed.

(** C7 (as the code stands).  With a measured temperature a completed
    construction stores the normal prior centred on it under 'teff'.
    Without one the construction never completes: once the lookup table
    has been read, the line taking [teff_prior['teff']] raises NameError,
    so no empirical prior is ever returned. *)
Theorem default_teff_prior f s :
  star f = Some s ->
  (get_temp s = true ->
   forall d f', _default_priors W f = Ok (d, f') ->
     d !! "teff" = Some (Some (St.norm (temp s) (temp_e s))))
  /\ (get_temp s = false ->
      is_Ok (_default_priors W f) = false
      /\ (_estimate_logg f = false ->
          is_Some (read_pickle W logg_ppf) ->
          is_Some (read_pickle W teff_ppf) ->
          _default_priors W f = Raise (NameError "teff_prior"))).
Proof.
  intros Hs. split.
  - intros Ht d f' H.
    apply default_priors_Ok in H
      as (s' & d1 & d2 & d3 & f3 & d4 & Hs' & _ & H2 & H3 & H4 & ->).
    assert (s' = s) as -> by congruence.
    apply teff_defaults_Ok in H2 as [_ ->].
    apply (av_defaults_other _ _ _ _ _ "teff") in H4 as [Hd4 _]; [|done].
    rewrite lookup_insert_ne by done. rewrite Hd4.
    revert H3. unfold scale_defaults.
    destruct (negb (_norm f)); [destruct (rad s)|]; intros [= <- _];
      by simplify_map_eq.
  - intros Ht. split.
    + unfold _default_priors. apply is_Ok_bind_false. intros d1.
      rewrite Hs. simpl of_option. rewrite bind_Ok_l.
      pose proof (teff_defaults_no_temp s d1 Ht) as Hno.
      by destruct (teff_defaults W s d1).
    + intros Hl [p Hp] [q Hq].
      unfold _default_priors, logg_defaults. rewrite Hl, Hp, Hs.
      simpl. unfold teff_defaults. by rewrite Ht, Hq.
Qed.

End DefaultPriors.

(** ** Priors from a prior file *)

Lemma for_each_invariant {A S} (body : S -> A -> result S) (P : S -> Prop)
    (l : list A) :
  (forall s a s', P s -> body s a = Ok s' -> P s') ->
  forall s s', P s -> for_each body s l = Ok s' -> P s'.
Proof.
  intros Hbody. induction l as [|a l IH]; simpl; intros s s' Hs H.
  - by injection H as <-.
  - bind_inv H. eauto.
Qed.

Lemma for_each_fails {A S} (body : S -> A -> result S) (l : list A) (a : A) :
  a ∈ l -> (forall s, is_Ok (body s a) = false) ->
  forall s, is_Ok (for_each body s l) = false.
Proof.
  intros Hin Hbad. induction l as [|b l IH]; [by apply elem_of_nil in Hin|].
  intros s. simpl. apply elem_of_cons in Hin as [<-|Hin].
  - specialize (Hbad s). by destruct (body s a).
  - apply is_Ok_bind_false. auto.
Qed.

Lemma set_at_preserves (idx : list nat) (v : float) (a a' : list float) :
  Np.set_at a idx v = Ok a' ->
  length a' = length a /\ (flag v -> Forall flag a -> Forall flag a').
Proof.
  revert a. induction idx as [|i idx IH]; simpl; intros a H.
  - by injection H as <-.
  - destruct (i <? length a)%nat; [|discriminate].
    apply IH in H as [Hlen Hflag]. rewrite length_insert in Hlen.
    split; [done|]. intros Hv Ha. apply Hflag; [done|].
    by apply Forall_insert.
Qed.

Lemma set_at_keeps_one (idx : list nat) (a a' : list float) (k : nat) :
  Np.set_at a idx 1 = Ok a' -> a !! k = Some 1%float -> a' !! k = Some 1%float.
Proof.
  revert a. induction idx as [|i idx IH]; simpl; intros a H Hk.
  - by injection H as <-.
  - destruct (i <? length a)%nat eqn:Hi; [|discriminate].
    apply (IH _ H). apply Nat.ltb_lt in Hi.
    destruct (decide (i = k)) as [->|Hne].
    + by apply list_lookup_insert_eq.
    + by rewrite list_lookup_insert_ne.
Qed.

Section CreatePriors.

Variable W : World.

Implicit Types (f : Fitter) (pd : gmap string (option St.rv)).

(** What a turn of the loop leaves alone, and what it keeps true of the
    coordinator. *)
Lemma prior_row_preserves pd f row pd' f' :
  prior_row W (pd, f) row = Ok (pd', f') ->
  _norm f' = _norm f /\ order f' = order f
  /\ default_priors f' = default_priors f
  /\ length (coordinator f') = length (coordinator f)
  /\ (Forall flag (coordinator f) -> Forall flag (coordinator f')).
Proof.
  unfold prior_row. destruct row as [[par pri] bo]. intros H.
  destruct (negb (str_in par param_list)); [discriminate|].
  destruct (_norm f && _); [discriminate|].
  destruct (String.eqb (lower pri) "uniform").
  { destruct (split comma bo) as [|a [|b [|]]]; try discriminate.
    bind_inv H. bind_inv H. by injection H as <- <-. }
  destruct (String.eqb (lower pri) "normal").
  { destruct (split comma bo) as [|a [|b [|]]]; try discriminate.
    bind_inv H. bind_inv H. by injection H as <- <-. }
  destruct (String.eqb (lower pri) "truncatednormal").
  { destruct (split comma bo) as [|a [|b [|c [|d [|]]]]]; try discriminate.
    do 4 bind_inv H. by destruct (PrimFloat.eqb _ 0). }
  destruct (String.eqb (lower pri) "default").
  { bind_inv H. by injection H as <- <-. }
  destruct (String.eqb (lower pri) "fixed"); [|by injection H as <- <-].
  bind_inv H. bind_inv H. bind_inv H. injection H as <- <-.
  apply set_at_preserves in E as [Hlen Hflag].
  simpl. repeat split; try done.
  intros Ha. apply Hflag; [by right | done].
Qed.

(** C6 (as the code stands).  A row of kind truncated normal (in any
    letter case) never stores anything: the turn of the loop raises,
    whatever the dictionary and the fitter; with an accepted parameter
    name, four numbers and a non-zero scale the exception is the NameError
    of the unbound name [priot_dict]; and a prior file holding such a row
    makes [create_priors] raise, so no prior map results. *)
Theorem truncatednormal_row_raises pd f (par pri bo : string) :
  lower pri = "truncatednormal" ->
  is_Ok (prior_row W (pd, f) (par, pri, bo)) = false
  /\ (forall smu ssig sup slow mu sig up low,
        str_in par param_list = true ->
        _norm f && (String.eqb par "dist" || String.eqb par "rad") = false ->
        split comma bo = [smu; ssig; sup; slow] ->
        py_float W smu = Some mu -> py_float W ssig = Some sig ->
        py_float W sup = Some up -> py_float W slow = Some low ->
        PrimFloat.eqb sig 0 = false ->
        prior_row W (pd, f) (par, pri, bo) = Raise (NameError "priot_dict"))
  /\ (forall (p : string) rows,
        p <> "" -> loadtxt W p = Ok rows -> (par, pri, bo) ∈ rows ->
        is_Ok (create_priors W f (Some p)) = false).
Proof.
  intros Hpri.
  assert (forall pd f, is_Ok (prior_row W (pd, f) (par, pri, bo)) = false)
    as Hbad.
  { clear pd f. intros pd f. unfold prior_row.
    destruct (negb (str_in par param_list)); [done|].
    destruct (_norm f && _); [done|].
    rewrite Hpri. simpl.
    destruct (split comma bo) as [|a [|b [|c [|d [|]]]]]; try done.
    unfold to_float.
    destruct (py_float W a); [|done]. destruct (py_float W b); [|done].
    destruct (py_float W c); [|done]. destruct (py_float W d); [|done].
    simpl. by destruct (PrimFloat.eqb _ 0). }
  split; [apply Hbad|]. split.
  - intros smu ssig sup slow mu sig up low Hin Hmode Hsplit Hmu Hsig Hup Hlow Hz.
    unfold prior_row, to_float.
    rewrite Hpri, Hin, Hmode, Hsplit, Hmu, Hsig, Hup, Hlow. simpl.
    by rewrite Hz.
  - intros p rows Hp Hload Hin. unfold create_priors.
    destruct p as [|c p]; [done|]. rewrite Hload, bind_Ok_l.
    pose proof (for_each_fails (prior_row W) rows (par, pri, bo) Hin) as Hf.
    specialize (Hf ltac:(intros [pd0 f0]; apply Hbad) (∅, f)).
    by destruct (for_each _ _ _).
Qed.

(** C10 (amended).  In physical mode, when the loop of [create_priors]
    receives a row that names 'norm' with kind fixed (in any letter case):
    'norm' is in the list of parameter names and no position of the
    physical order holds it.  If the value parses as a float, the turn of
    the loop returns the dictionary and the fitter as they were, the
    coordinator and the fixed values included.  If it does not, the turn
    raises ValueError: [float(bo)] is evaluated although the index lookup
    matched nothing.  Either way no completed turn changes the two
    arrays. *)
Theorem fixed_norm_row_physical pd f (pri bo : string) :
  _norm f = false ->
  order f = order_physical ->
  lower pri = "fixed" ->
  str_in "norm" param_list = true
  /\ Np.where_eq "norm" (order f) 0 = []
  /\ (forall v, py_float W bo = Some v ->
        prior_row W (pd, f) ("norm", pri, bo) = Ok (pd, f))
  /\ (py_float W bo = None ->
      prior_row W (pd, f) ("norm", pri, bo) = Raise ValueError)
  /\ (forall pd' f', prior_row W (pd, f) ("norm", pri, bo) = Ok (pd', f') ->
        coordinator f' = coordinator f /\ fixed f' = fixed f).
Proof.
  intros Hn Ho Hpri.
  assert (forall v, py_float W bo = Some v ->
            prior_row W (pd, f) ("norm", pri, bo) = Ok (pd, f)) as Hrow.
  { intros v Hv. unfold prior_row, to_float. rewrite Hpri, Hn, Ho, Hv. simpl.
    by destruct f. }
  assert (py_float W bo = None ->
          prior_row W (pd, f) ("norm", pri, bo) = Raise ValueError) as Hbad.
  { intros Hv. unfold prior_row, to_float. by rewrite Hpri, Hn, Ho, Hv. }
  split; [done|]. split; [by rewrite Ho|]. split; [done|]. split; [done|].
  intros pd' f'. destruct (py_float W bo) as [v|] eqn:Hv.
  - rewrite (Hrow v eq_refl). by intros [= <- <-].
  - by rewrite Hbad.
Qed.

Lemma create_priors_preserves f pf f' :
  create_priors W f pf = Ok f' ->
  _norm f' = _norm f /\ order f' = order f
  /\ length (coordinator f') = length (coordinator f)
  /\ (Forall flag (coordinator f) -> Forall flag (coordinator f')).
Proof.
  unfold create_priors. intros H.
  destruct pf as [[|c p]|]; try by injection H as <-.
  bind_inv H. bind_inv H. destruct a0 as [pd1 f1]. injection H as <-. simpl.
  pose (P := fun acc : gmap string (option St.rv) * Fitter =>
    _norm acc.2 = _norm f /\ order acc.2 = order f
    /\ length (coordinator acc.2) = length (coordinator f)
    /\ (Forall flag (coordinator f) -> Forall flag (coordinator acc.2))).
  refine (for_each_invariant (prior_row W) P a _ (∅, f) (pd1, f1) _ E0);
    [|done].
  intros [pd2 f2] row [pd3 f3] (Hn & Ho & Hl & Hf) Hrow. unfold P. simpl in *.
  apply prior_row_preserves in Hrow as (Hn' & Ho' & _ & Hl' & Hf').
  repeat split; try congruence. auto.
Qed.

(** The fixed array keeps its length and the output folder stays. *)
Lemma prior_row_frame pd f row pd' f' :
  prior_row W (pd, f) row = Ok (pd', f') ->
  out_folder f' = out_folder f /\ length (fixed f') = length (fixed f).
Proof.
  unfold prior_row. destruct row as [[par pri] bo]. intros H.
  destruct (negb (str_in par param_list)); [discriminate|].
  destruct (_norm f && _); [discriminate|].
  destruct (String.eqb (lower pri) "uniform").
  { destruct (split comma bo) as [|a [|b [|]]]; try discriminate.
    bind_inv H. bind_inv H. by injection H as <- <-. }
  destruct (String.eqb (lower pri) "normal").
  { destruct (split comma bo) as [|a [|b [|]]]; try discriminate.
    bind_inv H. bind_inv H. by injection H as <- <-. }
  destruct (String.eqb (lower pri) "truncatednormal").
  { destruct (split comma bo) as [|a [|b [|c [|d [|]]]]]; try discriminate.
    do 4 bind_inv H. by destruct (PrimFloat.eqb _ 0). }
  destruct (String.eqb (lower pri) "default").
  { bind_inv H. by injection H as <- <-. }
  destruct (String.eqb (lower pri) "fixed"); [|by injection H as <- <-].
  bind_inv H. bind_inv H. bind_inv H. injection H as <- <-.
  apply set_at_preserves in E1 as [Hlen _]. simpl in *. done.
Qed.

Lemma create_priors_frame f pf f' :
  create_priors W f pf = Ok f' ->
  out_folder f' = out_folder f /\ length (fixed f') = length (fixed f).
Proof.
  unfold create_priors. intros H.
  destruct pf as [[|c p]|]; try by injection H as <-.
  bind_inv H. bind_inv H. destruct a0 as [pd1 f1]. injection H as <-. simpl.
  pose (P := fun acc : gmap string (option St.rv) * Fitter =>
    out_folder acc.2 = out_folder f
    /\ length (fixed acc.2) = length (fixed f)).
  refine (for_each_invariant (prior_row W) P a _ (∅, f) (pd1, f1) _ E0);
    [|done].
  intros [pd2 f2] row [pd3 f3] [Ho Hl] Hrow. unfold P. simpl in *.
  apply prior_row_frame in Hrow as [Ho' Hl']. split; congruence.
Qed.

(** A parameter marked fixed stays marked through a turn of the loop. *)
Lemma prior_row_keeps_one pd f row pd' f' (k : nat) :
  prior_row W (pd, f) row = Ok (pd', f') ->
  coordinator f !! k = Some 1%float -> coordinator f' !! k = Some 1%float.
Proof.
  unfold prior_row. destruct row as [[par pri] bo]. intros H Hk.
  destruct (negb (str_in par param_list)); [discriminate|].
  destruct (_norm f && _); [discriminate|].
  destruct (String.eqb (lower pri) "uniform").
  { destruct (split comma bo) as [|a [|b [|]]]; try discriminate.
    bind_inv H. bind_inv H. by injection H as <- <-. }
  destruct (String.eqb (lower pri) "normal").
  { destruct (split comma bo) as [|a [|b [|]]]; try discriminate.
    bind_inv H. bind_inv H. by injection H as <- <-. }
  destruct (String.eqb (lower pri) "truncatednormal").
  { destruct (split comma bo) as [|a [|b [|c [|d [|]]]]]; try discriminate.
    do 4 bind_inv H. by destruct (PrimFloat.eqb _ 0). }
  destruct (String.eqb (lower pri) "default").
  { bind_inv H. by injection H as <- <-. }
  destruct (String.eqb (lower pri) "fixed"); [|by injection H as <- <-].
  bind_inv H. bind_inv H. bind_inv H. injection H as <- <-. simpl.
  by apply (set_at_keeps_one _ _ _ _ E).
Qed.

Lemma create_priors_keeps_one f pf f' (k : nat) :
  create_priors W f pf = Ok f' ->
  coordinator f !! k = Some 1%float -> coordinator f' !! k = Some 1%float.
Proof.
  unfold create_priors. intros H Hk.
  destruct pf as [[|c p]|]; try by injection H as <-.
  bind_inv H. bind_inv H. destruct a0 as [pd1 f1]. injection H as <-. simpl.
  pose (P := fun acc : gmap string (option St.rv) * Fitter =>
    coordinator acc.2 !! k = Some 1%float).
  refine (for_each_invariant (prior_row W) P a _ (∅, f) (pd1, f1) Hk E0).
  intros [pd2 f2] row [pd3 f3] HP Hrow. unfold P in *. simpl in *.
  by apply (prior_row_keeps_one _ _ _ _ _ _ Hrow).
Qed.

(** Without a prior file the defaults are the prior map. *)
Lemma create_priors_no_file f f' :
  create_priors W f None = Ok f' ->
  priors f' = default_priors f /\ coordinator f' = coordinator f.
Proof. unfold create_priors. by intros [= <-]. Qed.

End CreatePriors.

(** ** Initialization and the number of dimensions *)

Lemma count_fixed_le (a : list float) : (count_fixed a <= length a)%nat.
Proof. induction a as [|x a IH]; simpl; [lia|]. destruct (Np.truthy x); lia. Qed.


Lemma zeros_flags (n : nat) : Forall flag (Np.zeros n).
Proof. apply Forall_replicate. by left. Qed.

(** On an array of 0s and 1s with one entry per parameter, numpy's sum is
    the number of 1s and [get_ndim]'s arithmetic is exact: all 64 and 128
    arrays are run. *)
Lemma flags_sum_ndim (norm : bool) (a : list float) :
  length a = npars norm -> Forall flag a ->
  Np.sum a = Np.of_nat (count_fixed a)
  /\ Np.py_int ((if negb norm then 7 else 6) - Np.sum a)%float
     = Ok (Z.of_nat (npars norm) - Z.of_nat (count_fixed a)).
Proof.
  intros Hlen Hflag. unfold npars in *.
  destruct norm; simpl in Hlen;
    repeat (destruct a as [|? a]; try discriminate Hlen);
    repeat match goal with
           | H : Forall _ (_ :: _) |- _ =>
               apply Forall_cons in H as [[-> | ->] H]
           end;
    vm_compute; split; reflexivity.
Qed.

Section Initialize.

Variable W : World.

Lemma default_priors_preserves (f : Fitter) d (f' : Fitter) :
  _default_priors W f = Ok (d, f') ->
  _norm f' = _norm f /\ order f' = order f /\ priorfile f' = priorfile f
  /\ length (coordinator f') = length (coordinator f)
  /\ (Forall flag (coordinator f) -> Forall flag (coordinator f')).
Proof.
  intros H.
  apply default_priors_Ok in H
    as (s & d1 & d2 & d3 & f3 & d4 & _ & _ & _ & H3 & H4 & _).
  assert (_norm f3 = _norm f /\ order f3 = order f
          /\ priorfile f3 = priorfile f /\ coordinator f3 = coordinator f)
    as (Hn & Ho & Hp & Hc).
  { revert H3. unfold scale_defaults.
    destruct (negb (_norm f)); [destruct (rad s)|]; by intros [= _ <-]. }
  revert H4. unfold av_defaults. destruct (PrimFloat.eqb (Av s) 0).
  - intros H. bind_inv H. bind_inv H. injection H as _ <-. simpl.
    apply set_minus_two in E as [_ ->]. rewrite length_insert, Hc.
    repeat split; try done.
    intros Hf. apply Forall_insert; [done | by right].
  - intros [= _ <-]. by rewrite Hn, Ho, Hp, Hc.
Qed.

Lemma default_priors_frame (f : Fitter) d (f' : Fitter) :
  _default_priors W f = Ok (d, f') ->
  out_folder f' = out_folder f /\ length (fixed f') = length (fixed f).
Proof.
  intros H.
  apply default_priors_Ok in H
    as (s & d1 & d2 & d3 & f3 & d4 & _ & _ & _ & H3 & H4 & _).
  assert (out_folder f3 = out_folder f /\ fixed f3 = fixed f) as [Ho Hx].
  { revert H3. unfold scale_defaults.
    destruct (negb (_norm f)); [destruct (rad s)|]; by intros [= _ <-]. }
  revert H4. unfold av_defaults. destruct (PrimFloat.eqb (Av s) 0).
  - intros H. bind_inv H. bind_inv H. injection H as _ <-. simpl.
    simpl in E0. apply set_minus_two in E0 as [_ ->].
    by rewrite length_insert, Hx.
  - intros [= _ <-]. by rewrite Ho, Hx.
Qed.

(** C2.  For a star whose catalogue extinction is zero, in either mode and
    on the arrays [initialize] creates (one entry per parameter), a
    completed default-prior construction has put 1 in the coordinator
    entry of Av, which is the second-to-last position of the order, 0 in
    the fixed entry there, and [None] under 'Av' in the defaults.  The mark
    survives whatever prior file is read afterwards, so Av stays out of the
    sampled parameters, and without a prior file the prior map holds [None]
    for Av.  The construction does complete for a star with a measured
    temperature when the logg table is read. *)
Theorem default_priors_fix_Av (f : Fitter) (s : Star) :
  star f = Some s ->
  PrimFloat.eqb (Av s) 0 = true ->
  length (coordinator f) = npars (_norm f) ->
  length (fixed f) = npars (_norm f) ->
  (forall d f', _default_priors W f = Ok (d, f') ->
     exists k : nat,
       Np.where_eq "Av" (order_of (_norm f)) 0 = [k]
       /\ k = (length (order_of (_norm f)) - 2)%nat
       /\ coordinator f' !! k = Some 1%float
       /\ fixed f' !! k = Some 0%float
       /\ d !! "Av" = Some None
       /\ (forall pf f'',
             create_priors W (with_default_priors d f') pf = Ok f'' ->
             coordinator f'' !! k = Some 1%float /\ Np.truthy 1 = true)
       /\ (forall f'',
             create_priors W (with_default_priors d f') None = Ok f'' ->
             priors f'' !! "Av" = Some None))
  /\ (get_temp s = true -> _estimate_logg f = false ->
      is_Some (read_pickle W logg_ppf) ->
      is_Ok (_default_priors W f) = true).
Proof.
  intros Hs HAv Hc Hx. split.
  - intros d f' H.
    apply default_priors_Ok in H
      as (s' & d1 & d2 & d3 & f3 & d4 & Hs' & _ & _ & H3 & H4 & ->).
    assert (s' = s) as -> by congruence.
    apply scale_defaults_arrays in H3 as (Hc3 & Hx3 & _).
    apply av_defaults_zero in H4 as (_ & _ & Hc' & Hx' & ->); [|done].
    rewrite Hc3, Hc in Hc'. rewrite Hx3, Hx in Hx'.
    exists (npars (_norm f) - 2)%nat.
    assert (npars (_norm f) - 2 < npars (_norm f))%nat
      by (unfold npars; destruct (_norm f); simpl; lia).
    assert (coordinator f' !! (npars (_norm f) - 2)%nat = Some 1%float) as Hk
      by (rewrite Hc'; apply list_lookup_insert_eq; by rewrite Hc).
    assert (forall k : string, k <> "inflation" ->
              (<["inflation" := Some (St.truncnorm (-1) 9 0.5 0.5)]>
                 (<["Av" := None]> d3) : gmap string (option St.rv)) !! k
              = (<["Av" := None]> d3 : gmap string (option St.rv)) !! k) as Hd
      by (intros k Hne; by rewrite lookup_insert_ne).
    split; [by destruct (_norm f)|]. split; [by destruct (_norm f)|].
    split; [done|].
    split; [rewrite Hx'; apply list_lookup_insert_eq; by rewrite Hx|].
    split; [rewrite Hd by done; apply lookup_insert_eq|].
    split.
    + intros pf f'' Hcp. split; [|done].
      by apply (create_priors_keeps_one W _ _ _ _ Hcp).
    + intros f'' Hcp. apply create_priors_no_file in Hcp as [-> _]. simpl.
      rewrite Hd by done. apply lookup_insert_eq.
  - intros Ht Hl [p Hp].
    unfold _default_priors, logg_defaults. rewrite Hl, Hp, Hs.
    simpl. unfold teff_defaults. rewrite Ht. simpl.
    destruct (scale_defaults _ _ _) as [d3 f3] eqn:E3.
    apply scale_defaults_arrays in E3 as (Hc3 & Hx3 & _).
    unfold av_defaults. rewrite HAv.
    rewrite set_minus_two_Ok
      by (rewrite Hc3, Hc; unfold npars; destruct (_norm f); simpl; lia).
    simpl.
    rewrite set_minus_two_Ok
      by (rewrite Hx3, Hx; unfold npars; destruct (_norm f); simpl; lia).
    done.
Qed.

(** The steps of a completed [initialize]. *)
Lemma initialize_Ok (f f' : Fitter) :
  initialize W f = Ok f' ->
  exists s f0 d f1 f2 n,
    star f = Some s
    /\ _default_priors W f0 = Ok (d, f1)
    /\ create_priors W (with_default_priors d f1) (priorfile f1) = Ok f2
    /\ get_ndim f2 = Ok n
    /\ f' = with_ndim n f2
    /\ is_Some (out_folder f0)
    /\ _norm f0 = _norm f /\ order f0 = order_of (_norm f)
    /\ coordinator f0 = Np.zeros (npars (_norm f))
    /\ fixed f0 = Np.zeros (npars (_norm f)).
Proof.
  unfold initialize. intros H.
  destruct (star f) as [s|] eqn:Hs; [|discriminate].
  cbn zeta in H.
  change (out_folder (with_order (order_of (_norm f)) f))
    with (out_folder f) in H.
  destruct (out_folder f) as [o|] eqn:Hof;
    (bind_inv H; destruct a as [d f1]; bind_inv H; bind_inv H;
     injection H as <-;
     eexists s, _, d, f1, _, _;
     split; [reflexivity|];
     split; [exact E|]; split; [exact E0|]; split; [exact E1|];
     split; [reflexivity|];
     split; [simpl; rewrite ?Hof; by eexists|];
     repeat split).
Qed.


(** C1.  When [initialize] has completed, the order is the canonical one
    of the mode, 7 names in physical and 6 in normalized mode; the
    coordinator has one entry per name, each 0 or 1, and its sum is the
    number of fixed parameters; [get_ndim] returns the stored [ndim], which
    is the length of the order minus that sum, and it is not negative. *)
Theorem initialize_ndim (f f' : Fitter) :
  initialize W f = Ok f' ->
  order f' = order_of (_norm f')
  /\ length (order f') = (if _norm f' then 6 else 7)%nat
  /\ length (coordinator f') = length (order f')
  /\ Forall flag (coordinator f')
  /\ Np.sum (coordinator f') = Np.of_nat (count_fixed (coordinator f'))
  /\ get_ndim f' = Ok (ndim f')
  /\ ndim f'
     = Z.of_nat (length (order f')) - Z.of_nat (count_fixed (coordinator f'))
  /\ 0 <= ndim f'.
Proof.
  intros H.
  apply initialize_Ok in H
    as (s & f0 & d & f1 & f2 & n & _ & H1 & H2 & H3 & -> & _ & Hn0 & Ho0 & Hc0 & _).
  apply default_priors_preserves in H1 as (Hn1 & Ho1 & _ & Hl1 & Hf1).
  apply create_priors_preserves in H2 as (Hn2 & Ho2 & Hl2 & Hf2).
  simpl in Hn2, Ho2, Hl2, Hf2.
  assert (_norm f2 = _norm f) as Hn by congruence.
  assert (order f2 = order_of (_norm f)) as Ho by congruence.
  assert (length (coordinator f2) = npars (_norm f2)) as Hl.
  { rewrite Hl2, Hl1, Hc0, Hn. apply length_replicate. }
  assert (Forall flag (coordinator f2)) as Hf.
  { apply Hf2, Hf1. rewrite Hc0. apply zeros_flags. }
  destruct (flags_sum_ndim (_norm f2) (coordinator f2) Hl Hf) as [Hsum Hint].
  unfold get_ndim in H3. rewrite Hint in H3. injection H3 as <-.
  simpl. rewrite Ho, Hn in *.
  assert (length (order_of (_norm f)) = npars (_norm f)) as Hlo
    by (by destruct (_norm f)).
  rewrite Hlo.
  repeat split; try done.
  - by destruct (_norm f).
  - unfold get_ndim. simpl. by rewrite Hn, Hint.
  - pose proof (count_fixed_le (coordinator f2)). lia.
Qed.

End Initialize.

(** ** Result reduction *)

Lemma count_free_app (a b : list float) :
  count_free (a ++ b) = (count_free a + count_free b)%nat.
Proof. induction a as [|x a IH]; simpl; [done|]. rewrite IH. lia. Qed.

Lemma free_rank_S (a : list float) (i : nat) (c : float) :
  a !! i = Some c ->
  free_rank a (S i) = (free_rank a i + (if Np.truthy c then 0 else 1))%nat.
Proof.
  intros H. unfold free_rank. rewrite (take_S_r _ _ _ H), count_free_app.
  simpl. lia.
Qed.

Lemma free_rank_le (a : list float) (i : nat) :
  (free_rank a i <= count_free a)%nat.
Proof.
  unfold free_rank. rewrite <- (take_drop i a) at 2.
  rewrite count_free_app. lia.
Qed.

Lemma free_rank_lt (a : list float) (i : nat) (c : float) :
  a !! i = Some c -> Np.truthy c = false ->
  (free_rank a i < count_free a)%nat.
Proof.
  intros H Hc. pose proof (free_rank_le a (S i)) as Hle.
  rewrite (free_rank_S _ _ _ H), Hc in Hle. lia.
Qed.

Lemma order_of_NoDup (norm : bool) : NoDup (order_of norm).
Proof. destruct norm; by apply (bool_decide_unpack _). Qed.

Lemma order_of_not_reserved (norm : bool) :
  ("loglike" ∉ order_of norm) /\ ("likelihood" ∉ order_of norm).
Proof. destruct norm; split; (by apply (bool_decide_unpack _)). Qed.

Section Save.

Variable W : World.
Variable f : Fitter.
Variable post : Np.matrix.

Hypothesis Hcoord : length (coordinator f) = length (order f).
Hypothesis Hfixed : length (fixed f) = length (order f).
Hypothesis Hcols : (count_free (coordinator f) <= Np.shape1 post)%nat.

(** The entry the loops leave for the parameter at position [i]. *)
Let sample_entry (i : nat) : entry :=
  match coordinator f !! i, fixed f !! i with
  | Some c, Some x =>
      if Np.truthy c then Scalar x
      else Column (column_of post (free_rank (coordinator f) i))
  | _, _ => Scalar 0
  end.

Lemma column_free (i : nat) (c : float) :
  coordinator f !! i = Some c -> Np.truthy c = false ->
  Np.column post (free_rank (coordinator f) i)
  = Ok (column_of post (free_rank (coordinator f) i)).
Proof.
  intros H Hc. unfold Np.column.
  pose proof (free_rank_lt _ _ _ H Hc) as Hlt.
  destruct (Nat.ltb_spec (free_rank (coordinator f) i) (Np.shape1 post));
    [done | lia].
Qed.

(** The first loop, from position [i0] on. *)
Lemma samples_loop (names : list string) :
  forall (i0 : nat) (samples : gmap string entry),
    (i0 + length names <= length (coordinator f))%nat ->
    (i0 + length names <= length (fixed f))%nat ->
    exists samples',
      for_each (samples_step f post)
        (samples, free_rank (coordinator f) i0) (enumerate_from i0 names)
      = Ok (samples', free_rank (coordinator f) (i0 + length names))
      /\ (forall p, p ∉ names -> samples' !! p = samples !! p)
      /\ (NoDup names -> forall k p, names !! k = Some p ->
            samples' !! p = Some (sample_entry (i0 + k))).
Proof.
  induction names as [|p names IH]; intros i0 samples Hc Hx.
  - exists samples. simpl. rewrite Nat.add_0_r.
    split; [done|]. split; [done|].
    intros _ k p Hk. by rewrite lookup_nil in Hk.
  - simpl in Hc, Hx.
    destruct (lookup_lt_is_Some_2 (coordinator f) i0) as [c Hci]; [lia|].
    destruct (lookup_lt_is_Some_2 (fixed f) i0) as [x Hxi]; [lia|].
    pose proof (free_rank_S _ _ _ Hci) as HS.
    assert (exists e j,
               samples_step f post (samples, free_rank (coordinator f) i0)
                 (i0, p) = Ok (<[p := e]> samples, j)
               /\ j = free_rank (coordinator f) (S i0)
               /\ e = sample_entry i0) as (e & j & Hstep & -> & He).
    { unfold samples_step, Np.get, sample_entry. rewrite Hci, Hxi. simpl.
      destruct (Np.truthy c) eqn:Ht; simpl.
      - eexists _, _. split; [done|]. split; [rewrite HS; lia | done].
      - rewrite (column_free _ _ Hci Ht). simpl.
        eexists _, _. split; [done|]. split; [rewrite HS; lia | done]. }
    destruct (IH (S i0) (<[p := e]> samples)) as (samples' & Hrun & Hfr & Hval);
      [lia | lia |].
    exists samples'. cbn [for_each enumerate_from length]. rewrite Hstep, bind_Ok_l, Hrun.
    replace (S i0 + length names)%nat with (i0 + S (length names))%nat by lia.
    split; [done|]. split.
    + intros q Hq. apply not_elem_of_cons in Hq as [Hqp Hq].
      rewrite (Hfr q Hq). by rewrite lookup_insert_ne.
    + intros Hnd k q Hk. apply NoDup_cons in Hnd as [Hp Hnd].
      destruct k as [|k]; simpl in Hk.
      * injection Hk as <-. rewrite (Hfr p Hp), lookup_insert_eq, He.
        by rewrite Nat.add_0_r.
      * rewrite (Hval Hnd k q Hk). do 2 f_equal. lia.
Qed.

(** The second loop, from position [i0] on. *)
Lemma best_fit_loop (names : list string) :
  forall (i0 : nat) (st : best_state),
    (i0 + length names <= length (coordinator f))%nat ->
    (i0 + length names <= length (fixed f))%nat ->
    (i0 + length names <= length (bs_best_theta st))%nat ->
    bs_j st = free_rank (coordinator f) i0 ->
    exists st',
      for_each (best_fit_step W f post) st (enumerate_from i0 names) = Ok st'
      /\ length (bs_best_theta st') = length (bs_best_theta st)
      /\ (forall i, (i < i0)%nat ->
            bs_best_theta st' !! i = bs_best_theta st !! i)
      /\ (forall k, (k < length names)%nat ->
            bs_best_theta st' !! (i0 + k)%nat
            = Some (best_value W f post (i0 + k)))
      /\ (forall p, p ∉ names ->
            bs_best_fit st' !! p = bs_best_fit st !! p
            /\ bs_samples st' !! p = bs_samples st !! p)
      /\ (NoDup names -> forall k p, names !! k = Some p ->
            bs_best_fit st' !! p = Some (best_value W f post (i0 + k))
            /\ (bs_samples st !! p = Some (sample_entry (i0 + k)) ->
                bs_samples st' !! p = Some (sample_entry (i0 + k)))).
Proof.
  induction names as [|p names IH]; intros i0 st Hc Hx Hb Hj.
  - exists st. simpl.
    split; [done|]. split; [done|]. split; [done|]. split; [|split; [done|]].
    + intros k Hk. simpl in Hk. lia.
    + intros _ k p Hk. by rewrite lookup_nil in Hk.
  - simpl in Hc, Hx, Hb.
    destruct (lookup_lt_is_Some_2 (coordinator f) i0) as [c Hci]; [lia|].
    destruct (lookup_lt_is_Some_2 (fixed f) i0) as [x Hxi]; [lia|].
    pose proof (free_rank_S _ _ _ Hci) as HS.
    assert (exists st1,
               best_fit_step W f post st (i0, p) = Ok st1
               /\ bs_j st1 = free_rank (coordinator f) (S i0)
               /\ bs_best_theta st1
                  = <[i0 := best_value W f post i0]> (bs_best_theta st)
               /\ bs_best_fit st1
                  = <[p := best_value W f post i0]> (bs_best_fit st)
               /\ (bs_samples st1 = bs_samples st
                   \/ bs_samples st1 = <[p := sample_entry i0]> (bs_samples st)))
      as (st1 & Hstep & Hj1 & Hb1 & Hf1 & Hs1).
    { unfold best_fit_step, Np.get, best_value, sample_entry.
      rewrite Hci, Hxi. simpl.
      destruct (Np.truthy c) eqn:Ht; simpl.
      - eexists. split; [done|]. simpl.
        split; [rewrite HS, Hj; lia|]. auto.
      - rewrite Hj, (column_free _ _ Hci Ht). simpl.
        destruct (credibility_interval W _) as [[med lo] up].
        eexists. split; [done|]. simpl.
        split; [rewrite HS; lia|]. auto. }
    destruct (IH (S i0) st1) as (st' & Hrun & Hlen & Hlow & Hval & Hfr & Hnames);
      [lia | lia | rewrite Hb1, length_insert; lia | done |].
    exists st'. cbn [for_each enumerate_from length]. rewrite Hstep, bind_Ok_l, Hrun.
    rewrite Hb1, length_insert in Hlen.
    split; [done|]. split; [done|]. split; [|split; [|split]].
    + intros i Hi. rewrite Hlow by lia. rewrite Hb1.
      apply list_lookup_insert_ne. lia.
    + intros k Hk. destruct k as [|k].
      * rewrite Nat.add_0_r, Hlow by lia. rewrite Hb1.
        apply list_lookup_insert_eq. lia.
      * simpl in Hk.
        replace (i0 + S k)%nat with (S i0 + k)%nat by lia.
        apply Hval. lia.
    + intros q Hq. apply not_elem_of_cons in Hq as [Hqp Hq].
      destruct (Hfr q Hq) as [-> ->]. rewrite Hf1.
      split; [by rewrite lookup_insert_ne|].
      destruct Hs1 as [-> | ->]; [done | by rewrite lookup_insert_ne].
    + intros Hnd k q Hk. apply NoDup_cons in Hnd as [Hp Hnd].
      destruct k as [|k]; simpl in Hk.
      * injection Hk as <-. destruct (Hfr p Hp) as [-> ->].
        rewrite Nat.add_0_r, Hf1, lookup_insert_eq. split; [done|].
        destruct Hs1 as [-> | ->]; [done | by rewrite lookup_insert_eq].
      * replace (i0 + S k)%nat with (S i0 + k)%nat by lia.
        destruct (Hnames Hnd k q Hk) as [Hbf Hsm]. split; [done|].
        intros Hq. apply Hsm.
        destruct Hs1 as [-> | ->]; [done|].
        rewrite lookup_insert_ne; [done|].
        intros <-. apply Hp. by eapply list_elem_of_lookup_2.
Qed.

Hypothesis Horder : order f = order_of (_norm f).
Hypothesis Hfolder : is_Some (out_folder f).

(** A run of [save] on a well-shaped sample array. *)
Lemma save_Ok (lnz lnzer : float) :
  exists out logdat,
    save W f (lnz, lnzer, post) = Ok (out, logdat)
    /\ (forall i p, order f !! i = Some p ->
          best_fit out !! p = Some (best_value W f post i)
          /\ posterior_samples out !! p = Some (sample_entry i))
    /\ best_fit out !! "likelihood"
       = Some (log_likelihood W (best_vector W f post) (star f) (_norm f))
    /\ posterior_samples out !! "loglike" = Some (Column (loglike W f post)).
Proof.
  pose proof (order_of_NoDup (_norm f)) as Hnd.
  destruct (order_of_not_reserved (_norm f)) as [Hll Hlk].
  rewrite <- Horder in Hnd, Hll, Hlk.
  destruct (samples_loop (order f) 0 ∅) as (samples1 & Hrun1 & _ & Hval1);
    [simpl; lia | simpl; lia |].
  change (free_rank (coordinator f) 0) with 0%nat in Hrun1.
  set (st0 := {| bs_samples := <["loglike" := Column (loglike W f post)]> samples1;
                 bs_best_fit := ∅;
                 bs_best_theta := Np.zeros (length (order f));
                 bs_logdat := logdat_header; bs_j := 0%nat |}).
  destruct (best_fit_loop (order f) 0 st0)
    as (st' & Hrun2 & Hlen & _ & Hth & Hfr & Hval2);
    [simpl; lia | simpl; lia
     | simpl; unfold Np.zeros; rewrite length_replicate; lia | done |].
  assert (bs_best_theta st' = best_vector W f post) as Htheta.
  { apply list_eq. intros i. unfold best_vector.
    rewrite list_lookup_fmap.
    destruct (Nat.lt_ge_cases i (length (order f))) as [Hi|Hi].
    - specialize (Hth i Hi). simpl in Hth.
      rewrite Hth, lookup_seq_lt by done. done.
    - rewrite lookup_seq_ge by done. apply lookup_ge_None_2.
      rewrite Hlen. simpl. unfold Np.zeros. by rewrite length_replicate. }
  destruct Hfolder as [folder Hdir].
  eexists _, (bs_logdat st'). unfold save.
  rewrite Hdir. simpl of_option. rewrite bind_Ok_l.
  rewrite Hrun1, bind_Ok_l. fold st0. rewrite Hrun2, bind_Ok_l.
  split; [reflexivity|]. simpl. rewrite Htheta.
  split; [|split].
  - intros i p Hp.
    assert (p ∈ order f) as Hin by (by eapply list_elem_of_lookup_2).
    destruct (Hval2 Hnd i p Hp) as [Hbf Hsm]. simpl in Hbf, Hsm.
    split.
    + rewrite lookup_insert_ne; [done|]. by intros <-.
    + apply Hsm. simpl. rewrite lookup_insert_ne by (by intros <-).
      by apply (Hval1 Hnd i p).
  - apply lookup_insert_eq.
  - destruct (Hfr "loglike" Hll) as [_ ->]. simpl. apply lookup_insert_eq.
Qed.

Lemma column_of_length (j : nat) :
  length (column_of post j) = Np.shape0 post.
Proof. unfold column_of, Np.shape0. apply length_map. Qed.

(** C3.  On the state [initialize] leaves (the order of the mode, one
    coordinator and one fixed entry per name, an output folder: lemma
    [initialize_ready_for_save]) and a sample array with a column for every
    free parameter, [save] returns, and in the record it
    writes: the best-fit entry of a free parameter is the median of that
    parameter's column of the equal-weight samples, the entry of a fixed
    parameter is its stored fixed value, and the best-fit likelihood is the
    log likelihood evaluated at the vector of exactly these values, in
    canonical order. *)
Theorem save_best_fit (lnz lnzer : float) :
  exists out logdat,
    save W f (lnz, lnzer, post) = Ok (out, logdat)
    /\ (forall i p c x,
          order f !! i = Some p ->
          coordinator f !! i = Some c -> fixed f !! i = Some x ->
          best_fit out !! p
          = Some (if Np.truthy c then x
                  else median W (column_of post (free_rank (coordinator f) i))))
    /\ (forall i p, order f !! i = Some p ->
          best_fit out !! p = best_vector W f post !! i)
    /\ length (best_vector W f post) = length (order f)
    /\ best_fit out !! "likelihood"
       = Some (log_likelihood W (best_vector W f post) (star f) (_norm f)).
Proof.
  destruct (save_Ok lnz lnzer) as (out & logdat & Hsave & Hpar & Hlik & _).
  exists out, logdat. split; [done|]. split; [|split; [|split; [|done]]].
  - intros i p c x Hp Hc Hx. destruct (Hpar i p Hp) as [-> _].
    unfold best_value. by rewrite Hc, Hx.
  - intros i p Hp. destruct (Hpar i p Hp) as [-> _].
    unfold best_vector. rewrite list_lookup_fmap, lookup_seq_lt; [done|].
    by eapply lookup_lt_Some.
  - unfold best_vector. by rewrite length_map, length_seq.
Qed.

(** C4 (amended).  In the record [save] writes, every parameter of the
    order has an entry in [posterior_samples]; the entry of a fixed
    parameter is the stored fixed value itself, one number and not a
    sequence of the sample count's length, and the entry of a free
    parameter is its column of the samples, as long as the sample count. *)
Theorem save_posterior_samples (lnz lnzer : float) :
  exists out logdat,
    save W f (lnz, lnzer, post) = Ok (out, logdat)
    /\ (forall i p c x,
          order f !! i = Some p ->
          coordinator f !! i = Some c -> fixed f !! i = Some x ->
          (Np.truthy c = true ->
             posterior_samples out !! p = Some (Scalar x)
             /\ posterior_samples out !! p <> Some (broadcast post x))
          /\ (Np.truthy c = false ->
                exists col,
                  posterior_samples out !! p = Some (Column col)
                  /\ col = column_of post (free_rank (coordinator f) i)
                  /\ length col = Np.shape0 post)).
Proof.
  destruct (save_Ok lnz lnzer) as (out & logdat & Hsave & Hpar & _).
  exists out, logdat. split; [done|].
  intros i p c x Hp Hc Hx. destruct (Hpar i p Hp) as [_ ->].
  unfold sample_entry. rewrite Hc, Hx. split; intros ->.
  - split; [done | discriminate].
  - eexists. split; [done|]. split; [done|]. apply column_of_length.
Qed.

End Save.

(** ** The theorems at concrete inputs *)

(** C1 on a run: normalized mode, a prior file that fixes z and norm, and a
    star without extinction leave three free parameters. *)
Lemma initialize_ndim_witness :
  initialize Sample.world (Sample.fitter Sample.ngts6 true (Some "priors.dat"))
  = Ok (Sample.initialized Sample.ngts6 true (Some "priors.dat"))
  /\ coordinator (Sample.initialized Sample.ngts6 true (Some "priors.dat"))
     = [0; 0; 1; 1; 1; 0]%float
  /\ get_ndim (Sample.initialized Sample.ngts6 true (Some "priors.dat")) = Ok 3
  /\ ndim (Sample.initialized Sample.ngts6 true (Some "priors.dat")) = 6 - 3.
Proof.
  assert (initialize Sample.world
            (Sample.fitter Sample.ngts6 true (Some "priors.dat"))
          = Ok (Sample.initialized Sample.ngts6 true (Some "priors.dat"))) as H
    by (vm_compute; reflexivity).
  split; [exact H|]. split; [vm_compute; reflexivity|].
  destruct (initialize_ndim Sample.world _ _ H)
    as (_ & _ & _ & _ & _ & Hget & Hn & _).
  split; [rewrite Hget | rewrite Hn]; vm_compute; reflexivity.
Defined.

(** C2 on a run in normalized mode, where Av is the fifth of six names. *)
Lemma default_priors_fix_Av_witness :
  (star (Sample.prepared Sample.ngts6 true) = Some Sample.ngts6
   /\ PrimFloat.eqb (Av Sample.ngts6) 0 = true
   /\ length (coordinator (Sample.prepared Sample.ngts6 true)) = npars true
   /\ length (fixed (Sample.prepared Sample.ngts6 true)) = npars true)
  /\ exists d f',
       _default_priors Sample.world (Sample.prepared Sample.ngts6 true)
       = Ok (d, f')
       /\ coordinator f' !! 4%nat = Some 1%float
       /\ fixed f' !! 4%nat = Some 0%float
       /\ d !! "Av" = Some None.
Proof.
  split; [repeat split|].
  destruct (default_priors_fix_Av Sample.world
              (Sample.prepared Sample.ngts6 true) Sample.ngts6
              eq_refl eq_refl eq_refl eq_refl) as [Hset Hruns].
  specialize (Hruns eq_refl eq_refl (ex_intro _ _ eq_refl)).
  revert Hset Hruns.
  destruct (_default_priors Sample.world (Sample.prepared Sample.ngts6 true))
    as [[d f']|e]; intros Hset Hruns; [|discriminate Hruns].
  destruct (Hset d f' eq_refl) as (k & _ & -> & Hc & Hx & Hd & _).
  exists d, f'. repeat split; assumption.
Defined.

(** C3 on two samples of six free parameters, Av being fixed at 0. *)
Lemma save_best_fit_witness :
  (length (coordinator (Sample.initialized Sample.ngts6 false None))
   = length (order (Sample.initialized Sample.ngts6 false None))
   /\ length (fixed (Sample.initialized Sample.ngts6 false None))
      = length (order (Sample.initialized Sample.ngts6 false None))
   /\ (count_free (coordinator (Sample.initialized Sample.ngts6 false None))
       <= Np.shape1 Sample.posterior)%nat
   /\ order (Sample.initialized Sample.ngts6 false None) = order_of false
   /\ is_Some (out_folder (Sample.initialized Sample.ngts6 false None)))
  /\ exists out logdat,
       save Sample.world (Sample.initialized Sample.ngts6 false None)
         (1.5, 0.1, Sample.posterior)%float = Ok (out, logdat)
       /\ best_fit out !! "teff" = Some 4730%float
       /\ best_fit out !! "Av" = Some 0%float
       /\ best_fit out !! "likelihood"
          = Some (log_likelihood Sample.world
                    [4730; 4.5999999999999996; -0.2; 311; 0.8; 0; 0.5]%float
                    (Some Sample.ngts6) false).
Proof.
  assert (length (coordinator (Sample.initialized Sample.ngts6 false None))
          = length (order (Sample.initialized Sample.ngts6 false None))) as H1
    by (vm_compute; reflexivity).
  assert (length (fixed (Sample.initialized Sample.ngts6 false None))
          = length (order (Sample.initialized Sample.ngts6 false None))) as H2
    by (vm_compute; reflexivity).
  assert (count_free (coordinator (Sample.initialized Sample.ngts6 false None))
          <= Np.shape1 Sample.posterior)%nat as H3
    by (vm_compute; repeat constructor).
  assert (order (Sample.initialized Sample.ngts6 false None) = order_of false)
    as H4 by (vm_compute; reflexivity).
  assert (is_Some (out_folder (Sample.initialized Sample.ngts6 false None)))
    as H5 by (exists "NGTS-6/"; vm_compute; reflexivity).
  split; [done|].
  destruct (save_best_fit Sample.world _ Sample.posterior H1 H2 H3 H4 H5
              1.5%float 0.1%float) as (out & logdat & Hs & Hpar & _ & _ & Hl).
  exists out, logdat. split; [exact Hs|].
  split; [|split].
  - rewrite (Hpar 0%nat "teff" 0%float 0%float); vm_compute; reflexivity.
  - rewrite (Hpar 5%nat "Av" 1%float 0%float); vm_compute; reflexivity.
  - rewrite Hl. vm_compute. reflexivity.
Defined.

(** C4 (amended) on the same samples. *)
Lemma save_posterior_samples_witness :
  (length (coordinator (Sample.initialized Sample.ngts6 false None))
   = length (order (Sample.initialized Sample.ngts6 false None))
   /\ length (fixed (Sample.initialized Sample.ngts6 false None))
      = length (order (Sample.initialized Sample.ngts6 false None))
   /\ (count_free (coordinator (Sample.initialized Sample.ngts6 false None))
       <= Np.shape1 Sample.posterior)%nat
   /\ order (Sample.initialized Sample.ngts6 false None) = order_of false
   /\ is_Some (out_folder (Sample.initialized Sample.ngts6 false None)))
  /\ exists out logdat,
       save Sample.world (Sample.initialized Sample.ngts6 false None)
         (1.5, 0.1, Sample.posterior)%float = Ok (out, logdat)
       /\ posterior_samples out !! "Av" = Some (Scalar 0)
       /\ posterior_samples out !! "teff" = Some (Column [4700; 4760]%float).
Proof.
  assert (length (coordinator (Sample.initialized Sample.ngts6 false None))
          = length (order (Sample.initialized Sample.ngts6 false None))) as H1
    by (vm_compute; reflexivity).
  assert (length (fixed (Sample.initialized Sample.ngts6 false None))
          = length (order (Sample.initialized Sample.ngts6 false None))) as H2
    by (vm_compute; reflexivity).
  assert (count_free (coordinator (Sample.initialized Sample.ngts6 false None))
          <= Np.shape1 Sample.posterior)%nat as H3
    by (vm_compute; repeat constructor).
  assert (order (Sample.initialized Sample.ngts6 false None) = order_of false)
    as H4 by (vm_compute; reflexivity).
  assert (is_Some (out_folder (Sample.initialized Sample.ngts6 false None)))
    as H5 by (exists "NGTS-6/"; vm_compute; reflexivity).
  split; [done|].
  destruct (save_posterior_samples Sample.world _ Sample.posterior
              H1 H2 H3 H4 H5 1.5%float 0.1%float) as (out & logdat & Hs & Hpar).
  exists out, logdat. split; [exact Hs|]. split.
  - destruct (Hpar 5%nat "Av" 1%float 0%float eq_refl eq_refl eq_refl)
      as [Hfix _].
    exact (proj1 (Hfix eq_refl)).
  - destruct (Hpar 0%nat "teff" 0%float 0%float eq_refl eq_refl eq_refl)
      as [_ Hfree].
    destruct (Hfree eq_refl) as (col & Hcol & -> & _). exact Hcol.
Defined.

(** C4 (as stated) fails.  With Av fixed at 0 and two posterior samples, the
    entry of Av in [posterior_samples] is the single number 0, not the
    sequence of two 0s a broadcast would give. *)
Lemma save_fixed_entry_not_broadcast :
  exists out logdat,
    save Sample.world (Sample.initialized Sample.ngts6 false None)
      (1.5, 0.1, Sample.posterior)%float = Ok (out, logdat)
    /\ coordinator (Sample.initialized Sample.ngts6 false None) !! 5%nat
       = Some 1%float
    /\ Np.shape0 Sample.posterior = 2%nat
    /\ posterior_samples out !! "Av" = Some (Scalar 0)
    /\ posterior_samples out !! "Av" <> Some (Column [0; 0]%float)
    /\ posterior_samples out !! "Av" <> Some (broadcast Sample.posterior 0).
Proof.
  eexists _, _. split; [vm_compute; reflexivity|].
  split; [vm_compute; reflexivity|]. split; [reflexivity|].
  split; [vm_compute; reflexivity|].
  split; vm_compute; discriminate.
Qed.

(** C5 on a star without a catalogue radius. *)
Lemma default_radius_prior_fallback_witness :
  (star (Sample.prepared Sample.ngts6 false) = Some Sample.ngts6
   /\ _norm (Sample.prepared Sample.ngts6 false) = false
   /\ rad Sample.ngts6 = None
   /\ _default_priors Sample.world (Sample.prepared Sample.ngts6 false)
      = Ok (Sample.default_run Sample.ngts6 false))
  /\ (Sample.default_run Sample.ngts6 false).1 !! "rad"
     = Some (Some (St.uniform 0.1 10))
  /\ rad_warning ∈ warnings (Sample.default_run Sample.ngts6 false).2
  /\ St.in_support_uniform 0.1 10 10.05 = true
  /\ PrimFloat.leb 10.05 10 = false.
Proof.
  assert (_default_priors Sample.world (Sample.prepared Sample.ngts6 false)
          = Ok (Sample.default_run Sample.ngts6 false)) as H
    by (vm_compute; reflexivity).
  split; [done|].
  destruct (default_radius_prior_fallback Sample.world
              (Sample.prepared Sample.ngts6 false) Sample.ngts6
              (Sample.default_run Sample.ngts6 false).1
              (Sample.default_run Sample.ngts6 false).2
              eq_refl eq_refl eq_refl H) as (Hd & Hw & _ & Hin & Hout).
  done.
Defined.

(** C6 on a prior file of two rows, the first asking for a truncated
    normal. *)
Lemma truncatednormal_row_raises_witness :
  lower "TruncatedNormal" = "truncatednormal"
  /\ prior_row Sample.world (∅, Sample.prepared Sample.ngts6 false)
       ("teff", "TruncatedNormal", "4730,44,5000,4400")
     = Raise (NameError "priot_dict")
  /\ loadtxt Sample.world "truncated.dat"
     = Ok [("teff", "TruncatedNormal", "4730,44,5000,4400");
           ("Av", "uniform", "0,0.5")]
  /\ is_Ok (create_priors Sample.world (Sample.prepared Sample.ngts6 false)
              (Some "truncated.dat")) = false.
Proof.
  split; [reflexivity|].
  destruct (truncatednormal_row_raises Sample.world ∅
              (Sample.prepared Sample.ngts6 false)
              "teff" "TruncatedNormal" "4730,44,5000,4400" eq_refl)
    as (_ & Hname & Hfile).
  split; [|split; [reflexivity|]].
  - apply (Hname "4730" "44" "5000" "4400" 4730 44 5000 4400)%float;
      reflexivity.
  - apply (Hfile "truncated.dat" _ ltac:(discriminate) eq_refl).
    apply list_elem_of_here.
Defined.

(** C7 on a star without a measured temperature. *)
Lemma default_teff_prior_witness :
  (star (Sample.prepared Sample.unmeasured false) = Some Sample.unmeasured
   /\ get_temp Sample.unmeasured = false)
  /\ _default_priors Sample.world (Sample.prepared Sample.unmeasured false)
     = Raise (NameError "teff_prior").
Proof.
  split; [done|].
  destruct (default_teff_prior Sample.world
              (Sample.prepared Sample.unmeasured false) Sample.unmeasured
              eq_refl) as [_ Hno].
  destruct (Hno eq_refl) as [_ Hraise].
  apply Hraise; [reflexivity | by eexists | by eexists].
Defined.

(** C8 on an integer and on a string. *)
Lemma set_norm_non_bool_witness :
  is_bool (VInt 1) = false
  /\ set_norm (Sample.fitter Sample.ngts6 false None) (VInt 1)
     = Raise (NameError "rInputError")
  /\ is_bool (VStr "yes") = false
  /\ set_norm (Sample.fitter Sample.ngts6 false None) (VStr "yes")
     = Raise (NameError "rInputError").
Proof.
  split; [reflexivity|]. split; [|split; [reflexivity|]].
  - exact (proj1 (set_norm_non_bool _ (VInt 1) eq_refl)).
  - exact (proj1 (set_norm_non_bool _ (VStr "yes") eq_refl)).
Defined.

(** C10 (amended) on the row [norm Fixed 1.5] after a physical-mode
    initialization. *)
Lemma fixed_norm_row_physical_witness :
  (_norm (Sample.initialized Sample.ngts6 false None) = false
   /\ order (Sample.initialized Sample.ngts6 false None) = order_physical
   /\ lower "Fixed" = "fixed"
   /\ py_float Sample.world "1.5" = Some 1.5%float)
  /\ prior_row Sample.world (∅, Sample.initialized Sample.ngts6 false None)
       ("norm", "Fixed", "1.5")
     = Ok (∅, Sample.initialized Sample.ngts6 false None).
Proof.
  assert (_norm (Sample.initialized Sample.ngts6 false None) = false) as H1
    by (vm_compute; reflexivity).
  assert (order (Sample.initialized Sample.ngts6 false None) = order_physical)
    as H2 by (vm_compute; reflexivity).
  split; [done|].
  destruct (fixed_norm_row_physical Sample.world ∅ _ "Fixed" "1.5"
              H1 H2 eq_refl) as (_ & _ & Hrow & _).
  exact (Hrow 1.5%float eq_refl).
Defined.

(** C10 (as stated) fails.  In physical mode the row [norm fixed abc],
    whose name is in the accepted list, is not accepted without an error:
    it raises ValueError, and so does [create_priors] on a file of two
    rows that holds it. *)
Lemma fixed_norm_row_not_numeric :
  _norm (Sample.initialized Sample.ngts6 false None) = false
  /\ str_in "norm" param_list = true
  /\ py_float Sample.world "abc" = None
  /\ prior_row Sample.world (∅, Sample.initialized Sample.ngts6 false None)
       ("norm", "fixed", "abc") = Raise ValueError
  /\ create_priors Cases.unparsable_world
       (Sample.initialized Sample.ngts6 false None) (Some "priors.dat")
     = Raise ValueError.
Proof. repeat split; vm_compute; reflexivity. Qed.

(** * More of the code *)

(** ** Rows of a prior file *)

Ltac in_list :=
  repeat first [by apply list_elem_of_here | apply list_elem_of_further].


Lemma for_each_fails_inv {A S} (body : S -> A -> result S) (P : S -> Prop)
    (l : list A) (a : A) :
  a ∈ l ->
  (forall s b s', P s -> body s b = Ok s' -> P s') ->
  (forall s, P s -> is_Ok (body s a) = false) ->
  forall s, P s -> is_Ok (for_each body s l) = false.
Proof.
  intros Hin Hstep Hbad. induction l as [|b l IH]; [by apply elem_of_nil in Hin|].
  intros s Hs. simpl. apply elem_of_cons in Hin as [<-|Hin].
  - specialize (Hbad s Hs). by destruct (body s a).
  - destruct (body s b) as [s'|e] eqn:E; [|done]. simpl. eauto.
Qed.

Lemma where_eq_order (norm : bool) (k : nat) (par : string) :
  order_of norm !! k = Some par -> Np.where_eq par (order_of norm) 0 = [k].
Proof.
  destruct norm; simpl;
    do 7 (destruct k as [|k]; [by intros [= <-]|]); simpl;
    by rewrite ?lookup_nil.
Qed.

Lemma order_in_param_list (norm : bool) (k : nat) (par : string) :
  order_of norm !! k = Some par ->
  str_in par param_list = true
  /\ norm && (String.eqb par "dist" || String.eqb par "rad") = false.
Proof.
  destruct norm; simpl;
    do 7 (destruct k as [|k]; [by intros [= <-]|]); simpl;
    by rewrite ?lookup_nil.
Qed.

Lemma no_freer_refl (a : list float) : no_freer a a.
Proof. by apply Forall2_same_length_lookup_2; [|intros i x y -> [= ->]]. Qed.

Lemma no_freer_trans (a b c : list float) :
  no_freer a b -> no_freer b c -> no_freer a c.
Proof.
  unfold no_freer. intros Hab. revert c.
  induction Hab as [|x y a b Hxy Hab IH]; intros c Hbc.
  - by apply Forall2_nil_inv_l in Hbc as ->.
  - apply Forall2_cons_inv_l in Hbc as (z & c' & Hyz & Hbc & ->).
    constructor; [auto | by apply IH].
Qed.

Lemma no_freer_insert_one (a : list float) (i : nat) :
  no_freer a (<[i := 1%float]> a).
Proof.
  unfold no_freer. revert i. induction a as [|x a IH]; intros i; [constructor|].
  destruct i as [|i]; simpl.
  - constructor; [done | apply no_freer_refl].
  - constructor; [done | apply IH].
Qed.

Lemma set_at_no_freer (idx : list nat) (a a' : list float) :
  Np.set_at a idx 1 = Ok a' -> no_freer a a'.
Proof.
  revert a. induction idx as [|i idx IH]; simpl; intros a H.
  - injection H as <-. apply no_freer_refl.
  - destruct (i <? length a)%nat; [|discriminate].
    eapply no_freer_trans; [apply no_freer_insert_one | by apply IH].
Qed.

Lemma no_freer_count (a a' : list float) :
  no_freer a a' -> (count_fixed a <= count_fixed a')%nat.
Proof.
  induction 1 as [|x y a a' Hxy _ IH]; simpl; [done|].
  destruct (Np.truthy x); [rewrite Hxy by done|destruct (Np.truthy y)]; lia.
Qed.

Section PriorRows.

Variable W : World.

Implicit Types (f : Fitter) (pd : gmap string (option St.rv)).

Lemma create_priors_fails_on pd0 f (row : string * string * string)
    (P : Fitter -> Prop) :
  (forall pd f1 r pd' f2, P f1 -> prior_row W (pd, f1) r = Ok (pd', f2) -> P f2) ->
  (forall pd f1, P f1 -> is_Ok (prior_row W (pd, f1) row) = false) ->
  P f ->
  forall (p : string) rows,
    p <> "" -> loadtxt W p = Ok rows -> row ∈ rows ->
    is_Ok (create_priors W f (Some p)) = false.
Proof.
  intros Hstep Hbad Hf p rows Hp Hload Hin. unfold create_priors.
  destruct p as [|c p]; [done|]. rewrite Hload, bind_Ok_l.
  pose proof (for_each_fails_inv (prior_row W)
                (fun acc => P acc.2) rows row Hin) as Hfail.
  assert (is_Ok (for_each (prior_row W) (∅, f) rows) = false) as Hno.
  { apply Hfail; [| |done].
    - intros [pd1 f1] r [pd2 f2]. simpl. apply Hstep.
    - intros [pd1 f1]. simpl. apply Hbad. }
  by destruct (for_each _ _ _).
Qed.

(** X1.  A row whose parameter name is none of the eight accepted names
    raises PriorError with code 0 when the loop of [create_priors] receives
    it, whatever its kind and bounds and whatever the fitter holds; and
    [create_priors] yields no prior map whenever the triples it runs over
    (what [loadtxt] and [zip] make of the file) include such a row. *)
Theorem unknown_parameter_rejected pd f (par pri bo : string) :
  str_in par param_list = false ->
  prior_row W (pd, f) (par, pri, bo) = Raise (PriorError par 0)
  /\ (forall (p : string) rows,
        p <> "" -> loadtxt W p = Ok rows -> (par, pri, bo) ∈ rows ->
        is_Ok (create_priors W f (Some p)) = false).
Proof.
  intros Hpar.
  assert (forall pd f, prior_row W (pd, f) (par, pri, bo)
                       = Raise (PriorError par 0)) as Hrow.
  { intros pd1 f1. unfold prior_row. by rewrite Hpar. }
  split; [apply Hrow|].
  apply (create_priors_fails_on pd f _ (fun _ => True)); [done| |done].
  intros pd1 f1 _. by rewrite Hrow.
Qed.

(** X2.  In normalized mode a row for 'dist' or 'rad' raises PriorError
    with code 1 when the loop of [create_priors] receives it, whatever its
    kind; and [create_priors] yields no prior map whenever the triples it
    runs over (what [loadtxt] and [zip] make of the file) include such a
    row. *)
Theorem dist_rad_rejected_in_norm_mode pd f (par pri bo : string) :
  _norm f = true ->
  par = "dist" \/ par = "rad" ->
  prior_row W (pd, f) (par, pri, bo) = Raise (PriorError par 1)
  /\ (forall (p : string) rows,
        p <> "" -> loadtxt W p = Ok rows -> (par, pri, bo) ∈ rows ->
        is_Ok (create_priors W f (Some p)) = false).
Proof.
  intros Hn Hpar.
  assert (forall pd f, _norm f = true ->
            prior_row W (pd, f) (par, pri, bo) = Raise (PriorError par 1))
    as Hrow.
  { intros pd1 f1 Hn1. unfold prior_row. rewrite Hn1.
    by destruct Hpar as [-> | ->]. }
  split; [by apply Hrow|].
  apply (create_priors_fails_on pd f _ (fun f1 => _norm f1 = true));
    [| |done].
  - intros pd1 f1 r pd2 f2 Hn1 Hr.
    apply prior_row_preserves in Hr as (Hn2 & _). congruence.
  - intros pd1 f1 Hn1. by rewrite Hrow.
Qed.

(** X3.  A row of kind fixed for the parameter at position [k] of the
    order, with a numeric value, puts 1 at position [k] of the coordinator
    and the value at position [k] of the fixed array, touches no other
    entry, and leaves the dictionary of priors as it was: no distribution
    is created for the parameter. *)
Theorem fixed_row_marks pd f (par pri bo : string) (v : float) (k : nat) :
  order f = order_of (_norm f) ->
  order f !! k = Some par ->
  length (coordinator f) = length (order f) ->
  length (fixed f) = length (order f) ->
  lower pri = "fixed" ->
  py_float W bo = Some v ->
  exists f',
    prior_row W (pd, f) (par, pri, bo) = Ok (pd, f')
    /\ coordinator f' = <[k := 1%float]> (coordinator f)
    /\ fixed f' = <[k := v]> (fixed f)
    /\ coordinator f' !! k = Some 1%float
    /\ fixed f' !! k = Some v
    /\ (forall i, i <> k ->
          coordinator f' !! i = coordinator f !! i
          /\ fixed f' !! i = fixed f !! i).
Proof.
  intros Ho Hk Hc Hx Hpri Hv.
  assert (k < length (order f))%nat as Hlt by (by eapply lookup_lt_Some).
  rewrite Ho in Hk.
  destruct (order_in_param_list _ _ _ Hk) as [Hin Hmode].
  pose proof (where_eq_order _ _ _ Hk) as Hw.
  eexists. split.
  - unfold prior_row, to_float. rewrite Hin, Hmode, Hpri, Ho, Hw, Hv. simpl.
    destruct (Nat.ltb_spec k (length (coordinator f))) as [_|Hge]; [|lia].
    simpl.
    destruct (Nat.ltb_spec k (length (fixed f))) as [_|Hge]; [|lia].
    reflexivity.
  - simpl. split; [done|]. split; [done|].
    split; [apply list_lookup_insert_eq; lia|].
    split; [apply list_lookup_insert_eq; lia|].
    intros i Hi. by rewrite !list_lookup_insert_ne.
Qed.

Lemma prior_row_coordinator_moves pd f (par pri bo : string) pd' f' :
  prior_row W (pd, f) (par, pri, bo) = Ok (pd', f') ->
  coordinator f' = coordinator f
  \/ no_freer (coordinator f) (coordinator f').
Proof.
  unfold prior_row. intros H.
  destruct (negb (str_in par param_list)); [discriminate|].
  destruct (_norm f && _); [discriminate|].
  destruct (String.eqb (lower pri) "uniform").
  { destruct (split comma bo) as [|a [|b [|]]]; try discriminate.
    bind_inv H. bind_inv H. injection H as <- <-. by left. }
  destruct (String.eqb (lower pri) "normal").
  { destruct (split comma bo) as [|a [|b [|]]]; try discriminate.
    bind_inv H. bind_inv H. injection H as <- <-. by left. }
  destruct (String.eqb (lower pri) "truncatednormal").
  { destruct (split comma bo) as [|a [|b [|c [|d [|]]]]]; try discriminate.
    do 4 bind_inv H. by destruct (PrimFloat.eqb _ 0). }
  destruct (String.eqb (lower pri) "default").
  { bind_inv H. injection H as <- <-. by left. }
  destruct (String.eqb (lower pri) "fixed");
    [|injection H as <- <-; by left].
  bind_inv H. bind_inv H. bind_inv H. injection H as <- <-. simpl.
  right. by eapply set_at_no_freer.
Qed.

(** X4.  Only rows of kind fixed touch the fitter, and rows of kind fixed
    never touch the dictionary: after a turn of the loop for any other kind
    the coordinator, the fixed values and every other attribute are as
    before, and after a turn for kind fixed the dictionary is. *)
Theorem only_fixed_rows_touch_arrays pd f (par pri bo : string) pd' f' :
  prior_row W (pd, f) (par, pri, bo) = Ok (pd', f') ->
  (lower pri <> "fixed" -> f' = f)
  /\ (lower pri = "fixed" -> pd' = pd).
Proof.
  unfold prior_row. intros H.
  destruct (negb (str_in par param_list)); [discriminate|].
  destruct (_norm f && _); [discriminate|].
  destruct (String.eqb_spec (lower pri) "uniform") as [Hu|_].
  { rewrite Hu. split; [|done]. intros _.
    destruct (split comma bo) as [|a [|b [|]]]; try discriminate.
    bind_inv H. bind_inv H. by injection H as <- <-. }
  destruct (String.eqb_spec (lower pri) "normal") as [Hu|_].
  { rewrite Hu. split; [|done]. intros _.
    destruct (split comma bo) as [|a [|b [|]]]; try discriminate.
    bind_inv H. bind_inv H. by injection H as <- <-. }
  destruct (String.eqb_spec (lower pri) "truncatednormal") as [Hu|_].
  { destruct (split comma bo) as [|a [|b [|c [|d [|]]]]]; try discriminate.
    do 4 bind_inv H. by destruct (PrimFloat.eqb _ 0). }
  destruct (String.eqb_spec (lower pri) "default") as [Hu|_].
  { rewrite Hu. split; [|done]. intros _.
    bind_inv H. by injection H as <- <-. }
  destruct (String.eqb_spec (lower pri) "fixed") as [Hu|Hu].
  - split; [done|]. intros _.
    bind_inv H. bind_inv H. bind_inv H. by injection H as <- <-.
  - injection H as <- <-. done.
Qed.

(** X5.  A row with an accepted parameter name whose kind is none of
    uniform, normal, truncatednormal, default and fixed is passed over in
    silence: no error, no prior stored, nothing fixed. *)
Theorem unknown_kind_ignored pd f (par pri bo : string) :
  str_in par param_list = true ->
  _norm f && (String.eqb par "dist" || String.eqb par "rad") = false ->
  lower pri ∉ ["uniform"; "normal"; "truncatednormal"; "default"; "fixed"] ->
  prior_row W (pd, f) (par, pri, bo) = Ok (pd, f).
Proof.
  intros Hin Hmode Hkind. unfold prior_row. rewrite Hin, Hmode. simpl.
  assert (forall k, k ∈ ["uniform"; "normal"; "truncatednormal"; "default";
                         "fixed"] -> String.eqb (lower pri) k = false) as Hne.
  { intros k Hk. apply String.eqb_neq. by intros <-. }
  rewrite !Hne by (rewrite !elem_of_cons; auto 10).
  done.
Qed.

(** X6.  For the kinds uniform and normal the bounds string must split at
    its commas into exactly two pieces that both read as numbers: any other
    bounds string raises ValueError. *)
Theorem malformed_bounds_raise pd f (par pri bo : string) :
  str_in par param_list = true ->
  _norm f && (String.eqb par "dist" || String.eqb par "rad") = false ->
  lower pri = "uniform" \/ lower pri = "normal" ->
  length (split comma bo) <> 2%nat
  \/ (exists piece, piece ∈ split comma bo /\ py_float W piece = None) ->
  prior_row W (pd, f) (par, pri, bo) = Raise ValueError.
Proof.
  intros Hin Hmode Hkind Hbad. unfold prior_row, to_float.
  rewrite Hin, Hmode. simpl.
  assert (match split comma bo with
          | [a; b] =>
              match py_float W a with
              | Some _ => py_float W b = None
              | None => True
              end
          | _ => True
          end) as Hcase.
  { destruct (split comma bo) as [|a [|b [|c l]]]; try done.
    destruct Hbad as [Hlen | (piece & Hp & Hnone)]; [done|].
    destruct (py_float W a) eqn:Ha; [|done].
    apply elem_of_cons in Hp as [-> | Hp]; [congruence|].
    apply elem_of_cons in Hp as [-> | Hp]; [done|].
    by apply elem_of_nil in Hp. }
  destruct Hkind as [-> | ->]; simpl;
    destruct (split comma bo) as [|a [|b [|c l]]]; try done;
    destruct (py_float W a); simpl; try done; by rewrite Hcase.
Qed.

(** X7.  Reading a prior file can fix parameters and never frees one: every
    entry of the coordinator that counted as fixed before [create_priors]
    still does afterwards, the coordinator keeps its length, and the number
    of fixed parameters does not go down. *)
Theorem create_priors_never_frees f (pf : option string) f' :
  create_priors W f pf = Ok f' ->
  length (coordinator f') = length (coordinator f)
  /\ (forall i x, coordinator f !! i = Some x -> Np.truthy x = true ->
        exists y, coordinator f' !! i = Some y /\ Np.truthy y = true)
  /\ (count_fixed (coordinator f) <= count_fixed (coordinator f'))%nat.
Proof.
  intros H.
  assert (no_freer (coordinator f) (coordinator f')) as Hnf.
  { revert H. unfold create_priors.
    destruct pf as [[|c p]|]; try (intros [= <-]; apply no_freer_refl).
    intros H. bind_inv H. bind_inv H. destruct a0 as [pd1 f1].
    injection H as <-. simpl.
    refine (for_each_invariant (prior_row W)
              (fun acc => no_freer (coordinator f) (coordinator acc.2))
              a _ (∅, f) (pd1, f1) (no_freer_refl _) E0).
    intros [pd2 f2] [[par pri] bo] [pd3 f3] Hinv Hrow. simpl in *.
    destruct (prior_row_coordinator_moves pd2 f2 par pri bo pd3 f3 Hrow)
      as [-> | Hset]; [done|].
    eapply no_freer_trans; [exact Hinv | exact Hset]. }
  split; [by apply Forall2_length in Hnf|]. split.
  - intros i x Hi Hx.
    destruct (Forall2_lookup_l _ _ _ _ _ Hnf Hi) as (y & Hy & Hxy). eauto.
  - by apply no_freer_count.
Qed.

End PriorRows.

(** ** Default priors, entry by entry *)

Lemma mask_select_24 (a : list float) :
  length a = 24%nat ->
  mask_select a
  = Ok (map (fun i => nth i a 0%float) [0; 1; 2; 6; 7; 8; 20; 21]%nat).
Proof.
  intros Hlen. unfold mask_select.
  do 25 (destruct a as [|? a]; try discriminate Hlen).
  reflexivity.
Qed.

Lemma collect_bands_spec (bs : list string) :
  forall (ms es : list float) (params : gmap string (float * float))
         (used : list string) params' used',
    length ms = length bs -> length es = length bs -> NoDup bs ->
    (forall b, b ∈ bs -> b ∉ used) ->
    collect_bands ms es bs params used = (params', used') ->
    (forall j b m e,
        bs !! j = Some b -> ms !! j = Some m -> es !! j = Some e ->
        (b ∈ used' <-> Np.truthy m = true)
        /\ (Np.truthy m = true -> params' !! b = Some (m, e))
        /\ (Np.truthy m = false -> params' !! b = params !! b))
    /\ (forall b, b ∉ bs ->
          (b ∈ used' <-> b ∈ used) /\ params' !! b = params !! b).
Proof.
  induction bs as [|b0 bs IH]; intros ms es params used params' used'
    Hm He Hnd Hfresh H.
  - destruct ms; [|discriminate Hm]. simpl in H. injection H as <- <-.
    split; [intros j b m e Hj; by rewrite lookup_nil in Hj | done].
  - destruct ms as [|m0 ms]; [discriminate Hm|].
    destruct es as [|e0 es]; [discriminate He|].
    apply NoDup_cons in Hnd as [Hb0 Hnd].
    simpl in Hm, He, H.
    assert (b0 ∉ used) as Hb0u by (apply Hfresh; left).
    destruct (Np.truthy m0) eqn:Ht.
    + apply IH in H as [Hin Hout]; [|lia|lia|done|].
      2:{ intros b Hb Hbu. apply elem_of_app in Hbu as [Hbu|Hbu].
          - by apply (Hfresh b); [right|].
          - apply list_elem_of_singleton in Hbu as ->. done. }
      split.
      * intros j b m e Hj Hmj Hej. destruct j as [|j]; simpl in *.
        -- injection Hj as <-. injection Hmj as <-. injection Hej as <-.
           destruct (Hout b0 Hb0) as [Hu Hp].
           rewrite Hu, Hp, lookup_insert_eq, Ht.
           split; [split; [done | intros _; apply elem_of_app; right; by left]|].
           split; [done | discriminate].
        -- destruct (Hin j b m e Hj Hmj Hej) as (Hu & Hp1 & Hp2).
           split; [done|]. split; [done|].
           intros Hf. rewrite (Hp2 Hf). apply lookup_insert_ne.
           intros <-. apply Hb0. by eapply list_elem_of_lookup_2.
      * intros b Hb. apply not_elem_of_cons in Hb as [Hne Hb].
        destruct (Hout b Hb) as [Hu Hp]. rewrite Hu, Hp.
        split; [| by apply lookup_insert_ne].
        rewrite elem_of_app, list_elem_of_singleton.
        split; [intros [?|?]; [done|congruence] | by left].
    + apply IH in H as [Hin Hout]; [|lia|lia|done|].
      2:{ intros b Hb. apply Hfresh. by right. }
      split.
      * intros j b m e Hj Hmj Hej. destruct j as [|j]; simpl in *.
        -- injection Hj as <-. injection Hmj as <-. injection Hej as <-.
           destruct (Hout b0 Hb0) as [Hu Hp].
           rewrite Hu, Hp, Ht. split; [split; [done | discriminate]|].
           split; [discriminate | done].
        -- by apply (Hin j).
      * intros b Hb. apply not_elem_of_cons in Hb as [Hne Hb]. by apply Hout.
Qed.

Section DefaultEntries.

Variable W : World.

Implicit Types (f : Fitter) (s : Star) (d : gmap string (option St.rv)).

(** The dictionary a completed run returns, written out. *)
Lemma default_priors_dict f d f' :
  _default_priors W f = Ok (d, f') ->
  exists s d1,
    star f = Some s /\ get_temp s = true
    /\ logg_defaults W f ∅ = Ok d1
    /\ (forall k, k <> "logg" -> d1 !! k = None)
    /\ d = <["inflation" := Some (St.truncnorm (-1) 9 0.5 0.5)]>
            (<["Av" := if PrimFloat.eqb (Av s) 0 then None
                       else Some (St.uniform 0 (Av s))]>
               ((if negb (_norm f)
                 then <["rad" := Some (match rad s with
                                       | Some r => St.norm r (rad_e s)
                                       | None => St.uniform 0.1 10
                                       end)]>
                        (<["dist" := Some (St.norm (dist s) (dist_e s))]>
                           (<["z" := Some (St.norm (-0.125) 0.234)]>
                              (<["teff" := Some (St.norm (temp s) (temp_e s))]>
                                 d1)))
                 else <["norm" := Some (St.truncnorm 0 (1 / 1e-20) 0 1e-20)]>
                        (<["z" := Some (St.norm (-0.125) 0.234)]>
                           (<["teff" := Some (St.norm (temp s) (temp_e s))]>
                              d1)))
                : gmap string (option St.rv))).
Proof.
  intros H.
  apply default_priors_Ok in H
    as (s & d1 & d2 & d3 & f3 & d4 & Hs & H1 & H2 & H3 & H4 & ->).
  apply teff_defaults_Ok in H2 as [Ht ->].
  exists s, d1. split; [done|]. split; [done|]. split; [done|].
  split.
  { intros k Hk. rewrite (logg_defaults_other W f ∅ d1 k H1 Hk).
    apply lookup_empty. }
  f_equal. revert H3 H4. unfold scale_defaults, av_defaults.
  destruct (negb (_norm f)); [destruct (rad s)|]; intros [= <- <-] H4;
    destruct (PrimFloat.eqb (Av s) 0);
    try (bind_inv H4; bind_inv H4); by injection H4 as <- _.
Qed.

Lemma default_priors_key_iff f d f' :
  _default_priors W f = Ok (d, f') ->
  forall k : string, k <> "logg" ->
    (is_Some (d !! k) <-> k ∈ order_of (_norm f)).
Proof.
  intros H.
  destruct (default_priors_dict f d f' H)
    as (s & d1 & Hs & Ht & H1 & Hd1 & ->).
  intros k Hk. split.
  - intros Hsome.
    destruct (_norm f); simpl in Hsome;
      unfold order_of, order_physical, order_normalized; simpl;
      repeat (rewrite lookup_insert in Hsome;
              case_decide; [subst k; in_list|]);
      rewrite Hd1 in Hsome by done; by destruct Hsome.
  - intros Hin. destruct (_norm f); simpl in *;
      repeat (apply elem_of_cons in Hin as [-> | Hin];
              [by simplify_map_eq|]);
      by apply elem_of_nil in Hin.
Qed.

(** X8.  The dictionary a completed default-prior construction returns has
    an entry for every name of the mode's canonical order other than
    'logg', and for no name outside the order; 'logg' has one whenever logg
    estimation is off. *)
Theorem default_priors_keys f d f' :
  _default_priors W f = Ok (d, f') ->
  (forall k : string, k <> "logg" ->
     (is_Some (d !! k) <-> k ∈ order_of (_norm f)))
  /\ (_estimate_logg f = false -> is_Some (d !! "logg")).
Proof.
  intros H. split; [by apply (default_priors_key_iff f d f')|].
  destruct (default_priors_dict f d f' H)
    as (s & d1 & Hs & Ht & H1 & Hd1 & ->).
  intros He. revert H1. unfold logg_defaults. rewrite He. simpl.
    intros H1. bind_inv H1. injection H1 as <-.
    destruct (_norm f); simpl; by simplify_map_eq.
Qed.

(** X9.  After default-prior construction, a row of kind default copies the
    default of its parameter into the dictionary of priors, and in physical
    mode the row [norm default] raises KeyError: 'norm' passes the name check
    and has no default there. *)
Theorem default_row_after_defaults f d f1 pd (par pri bo : string) :
  _default_priors W f = Ok (d, f1) ->
  lower pri = "default" ->
  (forall k, order_of (_norm f) !! k = Some par -> par <> "logg" ->
     exists entry,
       d !! par = Some entry
       /\ prior_row W (pd, with_default_priors d f1) (par, pri, bo)
          = Ok (<[par := entry]> pd, with_default_priors d f1))
  /\ (_norm f = false ->
      prior_row W (pd, with_default_priors d f1) ("norm", pri, bo)
      = Raise (KeyError "norm")).
Proof.
  intros H Hpri.
  pose proof (default_priors_preserves W f d f1 H) as (Hn & _).
  pose proof (default_priors_key_iff f d f1 H) as Hkeys.
  split.
  - intros k Hk Hne.
    destruct (order_in_param_list _ _ _ Hk) as [Hin Hmode].
    destruct (proj2 (Hkeys par Hne)) as [entry Hentry];
      [by eapply list_elem_of_lookup_2|].
    exists entry. split; [done|].
    unfold prior_row. rewrite Hin.
    change (_norm (with_default_priors d f1)) with (_norm f1).
    rewrite Hn, Hmode, Hpri. simpl. by rewrite Hentry.
  - intros Hphys.
    assert (d !! "norm" = None) as Hnone.
    { destruct (d !! "norm") eqn:E; [|done].
      assert ("norm" ∈ order_of (_norm f)) as Hin
        by (apply Hkeys; [done | by eexists]).
      assert ("norm" ∉ order_of false) as Hno
        by (by apply (bool_decide_unpack _)).
      by rewrite Hphys in Hin. }
    unfold prior_row.
    change (_norm (with_default_priors d f1)) with (_norm f1).
    rewrite Hn, Hphys, Hpri. simpl. by rewrite Hnone.
Qed.

(** X10.  For a star with a non-zero catalogue extinction, a completed
    default-prior construction gives Av the uniform prior with location 0
    and scale Av, and writes nothing into the coordinator or the fixed
    values: Av is sampled. *)
Theorem default_priors_free_Av f s d f' :
  star f = Some s ->
  PrimFloat.eqb (Av s) 0 = false ->
  _default_priors W f = Ok (d, f') ->
  d !! "Av" = Some (Some (St.uniform 0 (Av s)))
  /\ coordinator f' = coordinator f
  /\ fixed f' = fixed f.
Proof.
  intros Hs HAv H.
  destruct (default_priors_dict f d f' H)
    as (s' & d1 & Hs' & _ & _ & _ & ->).
  assert (s' = s) as -> by congruence.
  split; [rewrite HAv; by simplify_map_eq|].
  apply default_priors_Ok in H
    as (s' & _ & d2 & d3 & f3 & d4 & Hs'' & _ & _ & H3 & H4 & _).
  assert (s' = s) as -> by congruence.
  apply scale_defaults_arrays in H3 as (Hc & Hx & _).
  revert H4. unfold av_defaults. rewrite HAv. intros [= _ <-].
  done.
Qed.

(** X11.  With logg estimation on, when the estimator returns nothing on
    the bands and parameters it is called with (the star's used bands and
    the isochrone parameters with their magnitudes), the default-prior
    construction still completes for a star with a measured temperature,
    and the dictionary it returns has no entry for 'logg': no error is
    raised here for the missing prior. *)
Theorem estimator_none_leaves_no_logg_prior f s (ms es : list float)
    (params : gmap string (float * float)) (used : list string) :
  star f = Some s ->
  _estimate_logg f = true ->
  get_temp s = true ->
  mask_select (mags s) = Ok ms ->
  mask_select (mag_errs s) = Ok es ->
  collect_bands ms es isochrone_bands (isochrone_params W s) []
  = (params, used) ->
  estimate W used params = None ->
  (2 <= length (coordinator f))%nat ->
  (2 <= length (fixed f))%nat ->
  exists d f',
    _default_priors W f = Ok (d, f')
    /\ d !! "logg" = None
    /\ "logg" ∈ order_of (_norm f).
Proof.
  intros Hs He Ht Hm Hme Hcb Hest Hc Hx.
  assert (logg_defaults W f ∅ = Ok ∅) as Hlogg.
  { unfold logg_defaults.
    rewrite He, Hs. cbn [negb of_option]. rewrite bind_Ok_l.
    rewrite Hm, bind_Ok_l. rewrite Hme, bind_Ok_l.
    rewrite Hcb. by rewrite Hest. }
  destruct (_default_priors W f) as [[d f']|e] eqn:E.
  - exists d, f'. split; [done|].
    destruct (default_priors_dict f d f' E)
      as (s' & d1 & _ & _ & H1 & _ & ->).
    rewrite Hlogg in H1. injection H1 as <-.
    split; [destruct (_norm f); simpl; by simplify_map_eq|].
    destruct (_norm f); simpl; in_list.
  - exfalso. revert E. unfold _default_priors.
    rewrite Hlogg, Hs. simpl. unfold teff_defaults. rewrite Ht. simpl.
    destruct (scale_defaults _ _ _) as [d3 f3] eqn:E3.
    apply scale_defaults_arrays in E3 as (Hc3 & Hx3 & _).
    unfold av_defaults. destruct (PrimFloat.eqb (Av s) 0); [|done].
    rewrite set_minus_two_Ok by (rewrite Hc3; lia). simpl.
    rewrite set_minus_two_Ok by (rewrite Hx3; lia). done.
Qed.

(** X12.  Of a star's 24 magnitudes the estimator is handed the eight at
    positions 0, 1, 2, 6, 7, 8, 20 and 21, one per band name; a band is
    among the bands used exactly when its magnitude is not zero, and then
    the parameters carry its magnitude and error under the band's name.
    An array of any other length raises IndexError. *)
Theorem isochrone_bands_used (s : Star) (params0 : gmap string (float * float)) :
  length (mags s) = 24%nat ->
  length (mag_errs s) = 24%nat ->
  exists ms es params used,
    mask_select (mags s) = Ok ms
    /\ mask_select (mag_errs s) = Ok es
    /\ length ms = length isochrone_bands
    /\ collect_bands ms es isochrone_bands params0 [] = (params, used)
    /\ (forall j b pos,
          isochrone_bands !! j = Some b ->
          [0; 1; 2; 6; 7; 8; 20; 21]%nat !! j = Some pos ->
          (b ∈ used <-> Np.truthy (nth pos (mags s) 0%float) = true)
          /\ (b ∈ used ->
              params !! b
              = Some (nth pos (mags s) 0%float, nth pos (mag_errs s) 0%float)))
    /\ (forall a : list float, length a <> 24%nat ->
          mask_select a = Raise IndexError).
Proof.
  intros Hm He.
  destruct (collect_bands
              (map (fun i => nth i (mags s) 0%float) [0; 1; 2; 6; 7; 8; 20; 21]%nat)
              (map (fun i => nth i (mag_errs s) 0%float) [0; 1; 2; 6; 7; 8; 20; 21]%nat)
              isochrone_bands params0 []) as [params used] eqn:E.
  eexists _, _, params, used.
  split; [by apply mask_select_24|]. split; [by apply mask_select_24|].
  split; [done|]. split; [exact E|].
  apply collect_bands_spec in E as [Hin _];
    [|done|done|by apply (bool_decide_unpack _)
     |intros ? _ Hnil; by apply elem_of_nil in Hnil].
  split.
  - intros j b pos Hb Hpos.
    destruct (Hin j b (nth pos (mags s) 0%float) (nth pos (mag_errs s) 0%float))
      as (Hu & Hp & _); [done| | |].
    + rewrite list_lookup_fmap, Hpos. done.
    + rewrite list_lookup_fmap, Hpos. done.
    + split; [done|]. intros Hb'. apply Hp. by apply Hu.
  - intros a Ha. unfold mask_select.
    destruct (Nat.eqb_spec (length a) (length isochrone_mask)); [done|done].
Qed.

End DefaultEntries.

(** ** Initialization, step by step *)

Section InitializeSteps.

Variable W : World.

Lemma initialize_unfold (f : Fitter) :
  initialize W f
  = match star f with
    | None => Raise (InputError no_star_msg)
    | Some s =>
        '(defaults, f1) ← _default_priors W (prepare f s);
        f2 ← create_priors W (with_default_priors defaults f1) (priorfile f1);
        n ← get_ndim f2;
        Ok (with_ndim n f2)
    end.
Proof. unfold initialize. by destruct (star f). Qed.

Lemma prepare_fields (f : Fitter) (s : Star) :
  star (prepare f s) = star f
  /\ _norm (prepare f s) = _norm f
  /\ _estimate_logg (prepare f s) = _estimate_logg f
  /\ priorfile (prepare f s) = priorfile f
  /\ warnings (prepare f s) = warnings f
  /\ coordinator (prepare f s) = Np.zeros (npars (_norm f))
  /\ fixed (prepare f s) = Np.zeros (npars (_norm f))
  /\ order (prepare f s) = order_of (_norm f)
  /\ out_folder (prepare f s)
     = Some (default (starname s ++ "/") (out_folder f)).
Proof.
  unfold prepare. simpl.
  destruct (out_folder f) eqn:Hof; simpl; rewrite ?Hof; done.
Qed.

(** What [_default_priors] does to the arrays and the warnings. *)
Lemma default_priors_arrays (f : Fitter) (s : Star) d (f' : Fitter) :
  star f = Some s ->
  _default_priors W f = Ok (d, f') ->
  coordinator f'
  = (if PrimFloat.eqb (Av s) 0
     then <[(length (coordinator f) - 2)%nat := 1%float]> (coordinator f)
     else coordinator f)
  /\ priorfile f' = priorfile f.
Proof.
  intros Hs H.
  pose proof (default_priors_preserves W f d f' H) as (_ & _ & Hp & _).
  split; [|done].
  apply default_priors_Ok in H
    as (s' & d1 & d2 & d3 & f3 & d4 & Hs' & _ & _ & H3 & H4 & _).
  assert (s' = s) as -> by congruence.
  apply scale_defaults_arrays in H3 as (Hc & _).
  revert H4. unfold av_defaults. destruct (PrimFloat.eqb (Av s) 0).
  - intros H. bind_inv H. bind_inv H. injection H as _ <-. simpl.
    apply set_minus_two in E as [_ ->]. by rewrite Hc.
  - by intros [= _ <-].
Qed.

(** X13.  When [initialize] completes with no prior file (none given, or
    the empty string) and logg estimation off, the prior map is the
    dictionary of defaults, the warning about the missing prior file has
    been emitted, and every free parameter of the order has a distribution
    in the prior map. *)
Theorem initialize_priors_complete (f f' : Fitter) :
  initialize W f = Ok f' ->
  priorfile f = None \/ priorfile f = Some "" ->
  _estimate_logg f = false ->
  priors f' = default_priors f'
  /\ no_priorfile_warning ∈ warnings f'
  /\ (forall i p c,
        order f' !! i = Some p ->
        coordinator f' !! i = Some c ->
        Np.truthy c = false ->
        exists rv, priors f' !! p = Some (Some rv)).
Proof.
  rewrite initialize_unfold. intros H Hpf He.
  destruct (star f) as [s|] eqn:Hs; [|discriminate].
  destruct (prepare_fields f s)
    as (Hs0 & Hn0 & He0 & Hp0 & _ & Hc0 & _ & Ho0 & _).
  bind_inv H. destruct a as [d f1]. bind_inv H. rename a into f2.
  bind_inv H. injection H as <-.
  rewrite Hs in Hs0.
  destruct (default_priors_arrays _ s d f1 Hs0 E) as [Hc1 Hp1].
  pose proof (default_priors_preserves W _ d f1 E) as (Hn1 & Ho1 & _).
  assert (exists dl : St.rv,
            d = <["inflation" := Some (St.truncnorm (-1) 9 0.5 0.5)]>
                 (<["Av" := if PrimFloat.eqb (Av s) 0 then None
                            else Some (St.uniform 0 (Av s))]>
                    ((if negb (_norm f)
                      then <["rad" := Some (match rad s with
                                            | Some r => St.norm r (rad_e s)
                                            | None => St.uniform 0.1 10
                                            end)]>
                             (<["dist" := Some (St.norm (dist s) (dist_e s))]>
                                (<["z" := Some (St.norm (-0.125) 0.234)]>
                                   (<["teff" := Some (St.norm (temp s) (temp_e s))]>
                                      (<["logg" := Some dl]> ∅))))
                      else <["norm" := Some (St.truncnorm 0 (1 / 1e-20) 0 1e-20)]>
                             (<["z" := Some (St.norm (-0.125) 0.234)]>
                                (<["teff" := Some (St.norm (temp s) (temp_e s))]>
                                   (<["logg" := Some dl]> ∅))))
                     : gmap string (option St.rv)))) as [dl Hd].
  { destruct (default_priors_dict W _ d f1 E)
      as (s' & d1 & Hs' & _ & H1 & _ & ->).
    assert (s' = s) as -> by congruence.
    revert H1. unfold logg_defaults. rewrite He0, He. simpl.
    intros H1. bind_inv H1. injection H1 as <-.
    eexists. by destruct (out_folder f). }
  assert (f2 = with_priors d
                 (warn no_priorfile_warning (with_default_priors d f1)))
    as ->.
  { revert E0. unfold create_priors. rewrite Hp1, Hp0.
    destruct Hpf as [-> | ->]; by intros [= <-]. }
  simpl. split; [done|].
  split; [apply elem_of_app; right; apply list_elem_of_here|].
  rewrite Ho1, Ho0, Hc1, Hc0, Hd. clear Hd E E0 E1 Hc1.
  unfold Np.zeros.
  destruct (_norm f); simpl;
    destruct (PrimFloat.eqb (Av s) 0);
    intros i p c Hi Hc Ht;
    unfold order_of, order_normalized, order_physical in Hi; simpl in Hi;
    do 7 (destruct i as [|i]; simpl in Hi, Hc;
          [first [discriminate Hi
                 | injection Hi as <-; injection Hc as <-;
                   first [discriminate Ht | eexists; by simplify_map_eq]]|]);
    first [discriminate Hi | by rewrite lookup_nil in Hi].
Qed.

(** X14.  [initialize] keeps an output folder that was set, character for
    character, and otherwise uses the star's name followed by a slash; in
    particular a folder assigned through the setter is the one [initialize]
    leaves. *)
Theorem initialize_output_folder (f f' : Fitter) (s : Star) :
  star f = Some s ->
  initialize W f = Ok f' ->
  out_folder f' = Some (default (starname s ++ "/") (out_folder f))
  /\ (forall (f0 : Fitter) (dir : string),
        set_out_folder f0 (VStr dir) = Ok f -> out_folder f' = Some dir).
Proof.
  rewrite initialize_unfold. intros Hs H. rewrite Hs in H.
  destruct (prepare_fields f s) as (_ & _ & _ & _ & _ & _ & _ & _ & Hof).
  bind_inv H. destruct a as [d f1]. bind_inv H. rename a into f2.
  bind_inv H. injection H as <-.
  apply default_priors_frame in E as [Hof1 _].
  apply create_priors_frame in E0 as [Hof2 _]. simpl in Hof2 |- *.
  assert (out_folder f2 = Some (default (starname s ++ "/") (out_folder f)))
    as Hfinal by congruence.
  split; [done|].
  intros f0 dir [= <-]. by rewrite Hfinal.
Qed.

End InitializeSteps.

(** ** What [save] writes *)

Lemma string_app_assoc (a b c : string) : (a ++ b) ++ c = a ++ (b ++ c).
Proof.
  induction a as [|x a IH]; [done|].
  change (String x ((a ++ b) ++ c) = String x (a ++ (b ++ c))).
  by rewrite IH.
Qed.

Lemma string_app_empty_r (a : string) : a ++ "" = a.
Proof.
  induction a as [|x a IH]; [done|].
  change (String x (a ++ "") = String x a). by rewrite IH.
Qed.

(** Filling the zeros in place, entry by entry, gives the mapped list. *)
Lemma fill_in_place {A} (h : nat -> A) (z : A) (n : nat) :
  foldl (fun ll i => <[i := h i]> ll) (replicate n z) (seq 0 n)
  = map h (seq 0 n).
Proof.
  assert (forall k, (k <= n)%nat ->
            foldl (fun ll i => <[i := h i]> ll) (replicate n z) (seq 0 k)
            = (map h (seq 0 k) ++ replicate (n - k) z)%list) as Hk.
  { induction k as [|k IH]; intros Hle.
    - simpl. by rewrite Nat.sub_0_r.
    - rewrite seq_S, foldl_snoc, IH by lia. simpl.
      rewrite map_app. simpl.
      replace (n - k)%nat with (S (n - S k)) by lia. simpl.
      rewrite <- (Nat.add_0_r k) at 1.
      replace (k + 0)%nat with (length (map h (seq 0 k)) + 0)%nat
        by (by rewrite length_map, length_seq).
      rewrite insert_app_r. simpl. by rewrite <- app_assoc. }
  rewrite (Hk n) by done. by rewrite Nat.sub_diag, app_nil_r.
Qed.

Lemma loglike_map (W : World) (f : Fitter) (post : Np.matrix) :
  loglike W f post
  = map (fun row =>
           log_likelihood W
             (build_params W row (coordinator f) (fixed f) (_norm f))
             (star f) (_norm f))
        (Np.rows post).
Proof.
  unfold loglike, Np.zeros, Np.shape0.
  rewrite (fill_in_place
             (fun i => log_likelihood W
                         (build_params W (nth i (Np.rows post) [])
                            (coordinator f) (fixed f) (_norm f))
                         (star f) (_norm f))).
  apply list_eq. intros i. rewrite !list_lookup_fmap.
  destruct (Nat.lt_ge_cases i (length (Np.rows post))) as [Hi|Hi].
  - rewrite lookup_seq_lt by done. simpl.
    destruct (lookup_lt_is_Some_2 (Np.rows post) i Hi) as [r Hr].
    rewrite Hr. simpl. by rewrite (nth_lookup_Some _ _ _ _ Hr).
  - rewrite lookup_seq_ge by done. by rewrite lookup_ge_None_2.
Qed.

Section SaveMore.

Variable W : World.
Variable f : Fitter.
Variable post : Np.matrix.

Lemma samples_step_inv (samples : gmap string entry) (j i : nat)
    (p : string) (samples' : gmap string entry) (j' : nat) :
  samples_step f post (samples, j) (i, p) = Ok (samples', j') ->
  exists e, samples' = <[p := e]> samples.
Proof.
  unfold samples_step. intros H. bind_inv H.
  destruct (negb (Np.truthy a)); bind_inv H; injection H as <- _; eauto.
Qed.

Lemma samples_loop_keys (names : list string) :
  forall i0 (samples : gmap string entry) j samples' j',
    for_each (samples_step f post) (samples, j) (enumerate_from i0 names)
    = Ok (samples', j') ->
    forall p, is_Some (samples' !! p) <-> is_Some (samples !! p) \/ p ∈ names.
Proof.
  induction names as [|q names IH]; simpl; intros i0 samples j samples' j' H p.
  - injection H as <- _. rewrite elem_of_nil. tauto.
  - bind_inv H. destruct a as [samples1 j1].
    apply samples_step_inv in E as [e ->].
    rewrite (IH _ _ _ _ _ H p), lookup_insert, elem_of_cons.
    case_decide as Hq; [subst q; split; [by auto | intros _; left; by eexists]|].
    split; [intros [?|?]; auto | intros [?|[?|?]]; auto; congruence].
Qed.

Lemma best_fit_step_inv (st : best_state) (i : nat) (p : string)
    (st1 : best_state) :
  best_fit_step W f post st (i, p) = Ok st1 ->
  bs_j st = free_rank (coordinator f) i ->
  bs_logdat st1 = bs_logdat st ++ log_row W f post i p
  /\ bs_j st1 = free_rank (coordinator f) (S i)
  /\ (exists v, bs_best_fit st1 = <[p := v]> (bs_best_fit st))
  /\ (bs_samples st1 = bs_samples st
      \/ exists e, bs_samples st1 = <[p := e]> (bs_samples st)).
Proof.
  unfold best_fit_step, log_row, Np.get. intros H Hj.
  destruct (coordinator f !! i) as [c|] eqn:Hc; [|discriminate].
  simpl in H. rewrite (free_rank_S _ _ _ Hc).
  destruct (Np.truthy c); simpl in H.
  - destruct (fixed f !! i) as [x|]; [|discriminate]. simpl in H.
    injection H as <-. simpl. rewrite !string_app_assoc, ?Hj.
    split; [done|]. split; [lia|]. split; [by eexists | by left].
  - rewrite Hj in H. unfold Np.column in H.
    destruct (free_rank (coordinator f) i <? Np.shape1 post)%nat;
      [|discriminate].
    simpl in H. unfold column_of.
    destruct (credibility_interval W _) as [[med lo] up].
    injection H as <-. simpl. rewrite !string_app_assoc, ?Hj.
    split; [done|]. split; [lia|]. split; [by eexists | right; by eexists].
Qed.

Lemma best_fit_loop_inv (names : list string) :
  forall i0 (st st' : best_state),
    for_each (best_fit_step W f post) st (enumerate_from i0 names) = Ok st' ->
    bs_j st = free_rank (coordinator f) i0 ->
    bs_logdat st' = bs_logdat st ++ log_rows W f post i0 names
    /\ (forall p, is_Some (bs_best_fit st' !! p)
                  <-> is_Some (bs_best_fit st !! p) \/ p ∈ names)
    /\ (forall p, is_Some (bs_samples st !! p) ->
                  is_Some (bs_samples st' !! p))
    /\ (forall p, is_Some (bs_samples st' !! p) ->
                  is_Some (bs_samples st !! p) \/ p ∈ names)
    /\ (forall p, p ∉ names -> bs_samples st' !! p = bs_samples st !! p).
Proof.
  induction names as [|q names IH]; simpl; intros i0 st st' H Hj.
  - injection H as <-. rewrite string_app_empty_r.
    split; [done|]. split; [intros p; rewrite elem_of_nil; tauto|].
    split; [done|]. split; [by left | done].
  - bind_inv H. rename a into st1.
    apply best_fit_step_inv in E as (Hlog & Hj1 & [v Hbf] & Hsm); [|done].
    destruct (IH _ _ _ H Hj1) as (Hlog' & Hbf' & Hs1 & Hs2 & Hs3).
    split; [by rewrite Hlog', Hlog, string_app_assoc|].
    assert (forall p, is_Some (bs_samples st !! p) ->
                      is_Some (bs_samples st1 !! p)) as Hup.
    { intros p Hp. destruct Hsm as [-> | [e ->]]; [done|].
      rewrite lookup_insert. by case_decide. }
    assert (forall p, is_Some (bs_samples st1 !! p) ->
                      is_Some (bs_samples st !! p) \/ p = q) as Hdown.
    { intros p Hp. destruct Hsm as [Heq | [e Heq]]; rewrite Heq in Hp;
        [by left|].
      rewrite lookup_insert in Hp. case_decide; [by right | by left]. }
    split; [|split; [|split]].
    + intros p. rewrite (Hbf' p), Hbf, lookup_insert, elem_of_cons.
      case_decide as Hq; [subst q; split; [by auto | intros _; left; by eexists]|].
      split; [intros [?|?]; auto | intros [?|[?|?]]; auto; congruence].
    + intros p Hp. by apply Hs1, Hup.
    + intros p Hp. rewrite elem_of_cons.
      destruct (Hs2 p Hp) as [Hp1|Hp1]; [|by auto].
      destruct (Hdown p Hp1); auto.
    + intros p Hp. apply not_elem_of_cons in Hp as [Hne Hp].
      rewrite (Hs3 p Hp).
      destruct Hsm as [-> | [e ->]]; [done | by rewrite lookup_insert_ne].
Qed.

(** The two loops of a completed [save]. *)
Lemma save_inv (lnz lnzer : float) (out : ResultRecord) (logdat : string) :
  save W f (lnz, lnzer, post) = Ok (out, logdat) ->
  exists samples1 j1 st',
    for_each (samples_step f post) (∅, 0%nat) (enumerate_from 0 (order f))
    = Ok (samples1, j1)
    /\ for_each (best_fit_step W f post)
         {| bs_samples := <["loglike" := Column (loglike W f post)]> samples1;
            bs_best_fit := ∅;
            bs_best_theta := Np.zeros (length (order f));
            bs_logdat := logdat_header; bs_j := 0%nat |}
         (enumerate_from 0 (order f)) = Ok st'
    /\ logdat = bs_logdat st'
    /\ posterior_samples out = bs_samples st'
    /\ best_fit out
       = <["likelihood" := log_likelihood W (bs_best_theta st') (star f) (_norm f)]>
           (bs_best_fit st')
    /\ lnZ out = lnz /\ lnZerr out = lnzer
    /\ out_fixed out = fixed f /\ out_coordinator out = coordinator f
    /\ out_star out = star f /\ engine out = _engine f
    /\ out_norm out = _norm f /\ model_grid out = _grid f.
Proof.
  unfold save. intros H. bind_inv H. bind_inv H.
  destruct a0 as [samples1 j1]. bind_inv H. injection H as <- <-.
  exists samples1, j1, a0. done.
Qed.

(** X15.  In the record a completed [save] writes, the 'loglike' entry of
    [posterior_samples] holds one value per posterior sample, in row order:
    the log likelihood of the row expanded with the coordinator and the fixed
    values. *)
Theorem save_loglike (lnz lnzer : float) (out : ResultRecord)
    (logdat : string) :
  order f = order_of (_norm f) ->
  save W f (lnz, lnzer, post) = Ok (out, logdat) ->
  exists ll,
    posterior_samples out !! "loglike" = Some (Column ll)
    /\ length ll = Np.shape0 post
    /\ ll = map (fun row =>
                   log_likelihood W
                     (build_params W row (coordinator f) (fixed f) (_norm f))
                     (star f) (_norm f))
                (Np.rows post).
Proof.
  intros Ho H.
  apply save_inv in H as (samples1 & j1 & st' & _ & H2 & _ & -> & _).
  apply best_fit_loop_inv in H2 as (_ & _ & _ & _ & Hfr); [|done].
  destruct (order_of_not_reserved (_norm f)) as [Hll _]. rewrite <- Ho in Hll.
  exists (loglike W f post). rewrite (Hfr _ Hll). simpl.
  split; [apply lookup_insert_eq|].
  rewrite loglike_map. split; [by rewrite length_map | done].
Qed.

(** X16.  The text a completed [save] writes to the log file is the header
    line followed by one row per parameter of the order, in order: for a
    fixed parameter its name, its value and the word FIXED, for a free one
    its name, the median, the upper and then the lower bound of the
    credibility interval, tab separated. *)
Theorem save_log_text (lnz lnzer : float) (out : ResultRecord)
    (logdat : string) :
  save W f (lnz, lnzer, post) = Ok (out, logdat) ->
  logdat = logdat_header ++ log_rows W f post 0 (order f).
Proof.
  intros H.
  apply save_inv in H as (samples1 & j1 & st' & _ & H2 & -> & _).
  by apply best_fit_loop_inv in H2 as (-> & _).
Qed.

(** X17.  The record a completed [save] writes has in [posterior_samples]
    exactly the names of the order and 'loglike' as keys, in [best_fit]
    exactly the names of the order and 'likelihood', and carries the
    evidence and its error as handed over, the fitter's fixed values,
    coordinator, star, engine name, mode flag and grid name. *)
Theorem save_keys (lnz lnzer : float) (out : ResultRecord) (logdat : string) :
  save W f (lnz, lnzer, post) = Ok (out, logdat) ->
  (forall p, is_Some (posterior_samples out !! p)
             <-> p ∈ order f \/ p = "loglike")
  /\ (forall p, is_Some (best_fit out !! p)
                <-> p ∈ order f \/ p = "likelihood")
  /\ lnZ out = lnz /\ lnZerr out = lnzer
  /\ out_fixed out = fixed f /\ out_coordinator out = coordinator f
  /\ out_star out = star f /\ engine out = _engine f
  /\ out_norm out = _norm f /\ model_grid out = _grid f.
Proof.
  intros H.
  apply save_inv in H as (samples1 & j1 & st' & H1 & H2 & _ & -> & -> & Hrest).
  pose proof (samples_loop_keys _ _ _ _ _ _ H1) as Hk1.
  apply best_fit_loop_inv in H2 as (_ & Hbf & Hs1 & Hs2 & _); [|done].
  simpl in Hbf, Hs1, Hs2.
  split; [|split; [|done]].
  - intros p. split.
    + intros Hp. destruct (Hs2 p Hp) as [Hp1|Hp1]; [|by left].
      rewrite lookup_insert in Hp1. case_decide; [by right|].
      apply Hk1 in Hp1 as [Hp1|Hp1]; [|by left].
      rewrite lookup_empty in Hp1. by destruct Hp1.
    + intros Hp. apply Hs1. rewrite lookup_insert.
      case_decide; [by eexists|].
      apply Hk1. destruct Hp as [Hp|Hp]; [by right | congruence].
  - intros p. rewrite lookup_insert.
    case_decide as Hp; [subst p; split; [by right | by eexists]|].
    rewrite (Hbf p), lookup_empty.
    split; [intros [[? [=]]|?]; by left | intros [?|?]; [by right | congruence]].
Qed.

(** The first loop runs out of columns. *)
Lemma samples_loop_short (names : list string) :
  forall i0 (samples : gmap string entry),
    (i0 + length names = length (coordinator f))%nat ->
    (length (coordinator f) <= length (fixed f))%nat ->
    (free_rank (coordinator f) i0 <= Np.shape1 post)%nat ->
    (Np.shape1 post < count_free (coordinator f))%nat ->
    for_each (samples_step f post)
      (samples, free_rank (coordinator f) i0) (enumerate_from i0 names)
    = Raise IndexError.
Proof.
  induction names as [|p names IH]; intros i0 samples Hlen Hx Hle Hlt.
  - exfalso. simpl in Hlen. rewrite Nat.add_0_r in Hlen.
    unfold free_rank in Hle. rewrite take_ge in Hle by lia. lia.
  - simpl in Hlen.
    destruct (lookup_lt_is_Some_2 (coordinator f) i0) as [c Hc]; [lia|].
    destruct (lookup_lt_is_Some_2 (fixed f) i0) as [x Hxi]; [lia|].
    pose proof (free_rank_S _ _ _ Hc) as HS.
    cbn [for_each enumerate_from].
    destruct (samples_step f post (samples, free_rank (coordinator f) i0)
                (i0, p)) as [[samples1 j1]|e] eqn:Hstep;
      unfold samples_step, Np.get in Hstep; rewrite Hc, Hxi in Hstep;
      simpl in Hstep; destruct (Np.truthy c); simpl in Hstep.
    + injection Hstep as _ <-. rewrite bind_Ok_l.
      replace (free_rank (coordinator f) i0)
        with (free_rank (coordinator f) (S i0)) by lia.
      apply IH; lia.
    + unfold Np.column in Hstep.
      destruct (Nat.ltb_spec (free_rank (coordinator f) i0) (Np.shape1 post))
        as [Hin|Hout]; [|discriminate].
      simpl in Hstep. injection Hstep as _ <-. rewrite bind_Ok_l.
      replace (S (free_rank (coordinator f) i0))
        with (free_rank (coordinator f) (S i0)) by lia.
      apply IH; lia.
    + discriminate.
    + unfold Np.column in Hstep.
      destruct (free_rank (coordinator f) i0 <? Np.shape1 post)%nat;
        [discriminate|].
      simpl in Hstep. by injection Hstep as <-.
Qed.

Lemma save_short (lnz lnzer : float) :
  length (coordinator f) = length (order f) ->
  length (fixed f) = length (order f) ->
  (Np.shape1 post < count_free (coordinator f))%nat ->
  is_Some (out_folder f) ->
  save W f (lnz, lnzer, post) = Raise IndexError.
Proof.
  intros Hc Hx Hlt [dir Hdir]. unfold save. rewrite Hdir. simpl of_option.
  rewrite bind_Ok_l.
  pose proof (samples_loop_short (order f) 0 ∅) as Hshort.
  change (free_rank (coordinator f) 0) with 0%nat in Hshort.
  rewrite Hshort; [done | simpl; lia | lia | lia | done].
Qed.

(** X18.  When the sample array has fewer columns than the coordinator has
    free parameters, [save] raises IndexError; without an output folder it
    raises TypeError before it looks at anything else. *)
Theorem save_too_few_columns (lnz lnzer : float) :
  length (coordinator f) = length (order f) ->
  length (fixed f) = length (order f) ->
  (Np.shape1 post < count_free (coordinator f))%nat ->
  (is_Some (out_folder f) ->
   save W f (lnz, lnzer, post) = Raise IndexError)
  /\ (out_folder f = None ->
      save W f (lnz, lnzer, post) = Raise TypeError).
Proof.
  intros Hc Hx Hlt. split.
  - by apply save_short.
  - intros Hdir. unfold save. by rewrite Hdir.
Qed.

End SaveMore.


(** ** The sampler set-up *)

Section Setup.

Import Sampler.

Lemma item_lt (setup : list pyval) (i : nat) :
  (i < length setup)%nat -> exists v, item setup i = Ok v /\ setup !! i = Some v.
Proof.
  intros Hi. destruct (lookup_lt_is_Some_2 setup i Hi) as [v Hv].
  exists v. unfold item. by rewrite Hv.
Qed.

Lemma item_ge (setup : list pyval) (i : nat) :
  (length setup <= i)%nat -> item setup i = Raise IndexError.
Proof. intros Hi. unfold item. by rewrite lookup_ge_None_2. Qed.

Lemma multinest_block_Ok (defaults : bool) (setup : list pyval) (a : attrs) :
  (defaults = true \/ 3 <= length setup)%nat ->
  exists a', multinest_block defaults setup a = Ok a'
             /\ _setup a' = _setup a /\ _engine a' = _engine a
             /\ _bound a' = _bound a /\ _sample a' = _sample a
             /\ _threads a' = _threads a /\ _dynamic a' = _dynamic a.
Proof.
  unfold multinest_block. intros [-> | Hlen]; [by eexists|].
  destruct defaults; [by eexists|].
  destruct (item_lt setup 1) as (v1 & -> & _); [lia|].
  destruct (item_lt setup 2) as (v2 & -> & _); [lia|].
  by eexists.
Qed.

Lemma multinest_block_short (setup : list pyval) (a : attrs) :
  (1 < length setup < 3)%nat ->
  multinest_block false setup a = Raise IndexError.
Proof.
  intros Hlen. unfold multinest_block.
  destruct (item_lt setup 1) as (v1 & -> & _); [lia|].
  rewrite bind_Ok_l. by rewrite item_ge by lia.
Qed.

Lemma dynesty_block_Ok (defaults : bool) (setup : list pyval) (a : attrs) :
  (defaults = true \/ 7 <= length setup)%nat ->
  exists a', dynesty_block defaults setup a = Ok a'
             /\ _setup a' = _setup a /\ _engine a' = _engine a.
Proof.
  unfold dynesty_block. intros [-> | Hlen]; [by eexists|].
  destruct defaults; [by eexists|].
  destruct (item_lt setup 1) as (v1 & -> & _); [lia|].
  destruct (item_lt setup 2) as (v2 & -> & _); [lia|].
  destruct (item_lt setup 3) as (v3 & -> & _); [lia|].
  destruct (item_lt setup 4) as (v4 & -> & _); [lia|].
  destruct (item_lt setup 5) as (v5 & -> & _); [lia|].
  destruct (item_lt setup 6) as (v6 & -> & _); [lia|].
  by eexists.
Qed.

Lemma dynesty_block_short (setup : list pyval) (a : attrs) :
  (1 < length setup < 7)%nat ->
  dynesty_block false setup a = Raise IndexError.
Proof.
  intros Hlen. unfold dynesty_block.
  destruct setup as [|v0 [|v1 [|v2 [|v3 [|v4 [|v5 [|v6 setup]]]]]]];
    simpl in Hlen; try lia; done.
Qed.

Lemma engines_differ (engine : pyval) :
  is_str engine "multinest" = true -> is_str engine "dynesty" = false.
Proof.
  destruct engine; simpl; try done.
  intros H%String.eqb_eq. by subst.
Qed.

Lemma set_setup_cons (a : attrs) (engine : pyval) (rest : list pyval) :
  set_setup a (engine :: rest)
  = (let a0 :=
       {| _setup := Some (engine :: rest); _engine := Some engine;
          _nlive := _nlive a; _dlogz := _dlogz a;
          _bound := _bound a; _sample := _sample a;
          _threads := _threads a; _dynamic := _dynamic a |} in
     let defaults := (length (engine :: rest) =? 1)%nat in
     a1 ← (if is_str engine "multinest"
           then multinest_block defaults (engine :: rest) a0 else Ok a0);
     if is_str engine "dynesty"
     then dynesty_block defaults (engine :: rest) a1 else Ok a1).
Proof. reflexivity. Qed.

Lemma set_setup_cases (a : attrs) (engine : pyval) (rest : list pyval) :
  let setup := engine :: rest in
  let need :=
    if is_str engine "multinest" then 3%nat
    else if is_str engine "dynesty" then 7%nat else 1%nat in
  ((exists a', set_setup a setup = Ok a')
   /\ (length setup = 1%nat \/ (need <= length setup)%nat))
  \/ (set_setup a setup = Raise IndexError
      /\ (1 < length setup < need)%nat).
Proof.
  cbv zeta. rewrite set_setup_cons. cbv zeta.
  assert (1 <= length (engine :: rest))%nat as Hpos by (simpl; lia).
  remember (engine :: rest) as setup eqn:Hs. clear Hs.
  set (a0 := {| _setup := Some setup |}).
  destruct (Nat.eqb_spec (length setup) 1) as [H1|H1].
  - left. split; [|by left].
    destruct (is_str engine "multinest") eqn:Hm.
    + rewrite (engines_differ _ Hm).
      destruct (multinest_block_Ok true setup a0) as (a' & -> & _);
        [by left|].
      rewrite bind_Ok_l. by eexists.
    + rewrite bind_Ok_l. destruct (is_str engine "dynesty"); [|by eexists].
      destruct (dynesty_block_Ok true setup a0) as (a' & -> & _);
        [by left|].
      by eexists.
  - destruct (is_str engine "multinest") eqn:Hm.
    + rewrite (engines_differ _ Hm).
      destruct (Nat.le_gt_cases 3 (length setup)) as [Hl|Hl].
      * left. split; [|by right].
        destruct (multinest_block_Ok false setup a0) as (a' & -> & _);
          [by right|].
        rewrite bind_Ok_l. by eexists.
      * right. rewrite multinest_block_short by lia. split; [done | lia].
    + rewrite bind_Ok_l. destruct (is_str engine "dynesty").
      * destruct (Nat.le_gt_cases 7 (length setup)) as [Hl|Hl].
        -- left. split; [|by right].
           destruct (dynesty_block_Ok false setup a0) as (a' & -> & _);
             [by right|].
           by eexists.
        -- right. rewrite dynesty_block_short by lia. split; [done | lia].
      * left. split; [by eexists | by right].
Qed.

(** X20.  The set-up setter refuses an empty list with an InputError that
    carries its message.  Otherwise it accepts the list exactly when it has
    one entry (the defaults) or at least as many as the engine named first
    reads: three for 'multinest', seven for 'dynesty', one for any other
    value, which it does not check; a list in between raises IndexError. *)
Theorem set_setup_lengths (a : attrs) (setup : list pyval) :
  match setup !! 0%nat with
  | None => set_setup a setup = Raise (InputError err_msg)
  | Some engine =>
      let need :=
        if is_str engine "multinest" then 3%nat
        else if is_str engine "dynesty" then 7%nat else 1%nat in
      (is_Ok (set_setup a setup) = true
       <-> length setup = 1%nat \/ (need <= length setup)%nat)
      /\ (is_Ok (set_setup a setup) = false ->
          set_setup a setup = Raise IndexError)
  end.
Proof.
  destruct setup as [|engine rest]; [done|].
  cbn [lookup list_lookup].
  pose proof (set_setup_cases a engine rest) as Hcases.
  cbv zeta in Hcases |- *.
  destruct Hcases as [[[a' ->] Hc] | [-> Hc]]; simpl is_Ok.
  - split; [by split | discriminate].
  - split; [|done]. split; [discriminate | intros [?|?]; lia].
Qed.

(** X21.  The set-up setter writes only the attributes of the engine it is
    given: with an engine that is neither 'multinest' nor 'dynesty' it keeps
    the list and the name and leaves the number of live points, the
    tolerance, the bounding, the sampling method, the thread count and the
    dynamic flag as a previous assignment left them; with 'multinest' it
    leaves the last four so. *)
Theorem set_setup_other_attributes (a : attrs) (setup : list pyval)
    (engine : pyval) (a' : attrs) :
  setup !! 0%nat = Some engine ->
  is_str engine "dynesty" = false ->
  set_setup a setup = Ok a' ->
  _setup a' = Some setup /\ _engine a' = Some engine
  /\ _bound a' = _bound a /\ _sample a' = _sample a
  /\ _threads a' = _threads a /\ _dynamic a' = _dynamic a
  /\ (is_str engine "multinest" = false ->
      _nlive a' = _nlive a /\ _dlogz a' = _dlogz a).
Proof.
  intros He Hd H. unfold set_setup in H.
  destruct (length setup <? 1)%nat; [discriminate|].
  unfold item at 1 in H. rewrite He in H. cbn [of_option] in H.
  rewrite bind_Ok_l in H. rewrite Hd in H.
  destruct (is_str engine "multinest").
  - bind_inv H. injection H as <-. unfold multinest_block in E.
    destruct (length setup =? 1)%nat.
    + injection E as <-. simpl. by repeat split.
    + bind_inv E. bind_inv E. injection E as <-. simpl. by repeat split.
  - rewrite bind_Ok_l in H. injection H as <-. simpl. by repeat split.
Qed.

End Setup.

(** ** The likelihood wrappers and the MultiNest results *)

Lemma first_entries_loop (cube : list float) (m : nat) :
  forall (k : nat) (acc : list float),
    (k + m <= length cube)%nat ->
    for_each
      (fun (theta : list float) i =>
         x ← Np.get cube i; Ok (theta ++ [x])%list)
      acc (seq k m)
    = Ok (acc ++ take m (drop k cube))%list.
Proof.
  set (step := fun (theta : list float) i =>
                 x ← Np.get cube i; Ok (theta ++ [x])%list).
  induction m as [|m IH]; intros k acc Hlen.
  - simpl. by rewrite app_nil_r.
  - destruct (lookup_lt_is_Some_2 cube k) as [x Hx]; [lia|].
    cbn [seq for_each].
    assert (step acc k = Ok (acc ++ [x])%list) as ->
      by (unfold step, Np.get; by rewrite Hx).
    rewrite bind_Ok_l, IH by lia.
    rewrite <- app_assoc. simpl.
    by rewrite (drop_S _ _ _ Hx).
Qed.

(** X22.  On a cube that holds at least [ndim] entries the MultiNest
    likelihood wrapper returns what the dynesty wrapper returns on the
    first [ndim] entries of the cube: it reads no entry beyond them and
    ignores its third argument. *)
Theorem multinest_log_like_first_entries (W : World) (f : Fitter)
    (cube : list float) (ndim nparams : Z) :
  (Z.to_nat ndim <= length cube)%nat ->
  multinest_log_like W f cube ndim nparams
  = Ok (dynesty_log_like W f (take (Z.to_nat ndim) cube)).
Proof.
  intros Hlen. unfold multinest_log_like, first_entries.
  by rewrite (first_entries_loop cube (Z.to_nat ndim) 0 []) by done.
Qed.



(** ** When [initialize] completes, and the keys a prior file gives *)

Section Completion.

Variable W : World.

Lemma is_Ok_true {A} (r : result A) : is_Ok r = true -> exists a, r = Ok a.
Proof. destruct r; [by eexists | discriminate]. Qed.

Lemma default_priors_completes (f : Fitter) (s : Star) :
  star f = Some s -> get_temp s = true -> _estimate_logg f = false ->
  is_Some (read_pickle W logg_ppf) ->
  length (coordinator f) = npars (_norm f) ->
  length (fixed f) = npars (_norm f) ->
  exists d f', _default_priors W f = Ok (d, f').
Proof.
  intros Hs Ht Hl [p Hp] Hc Hx.
  unfold _default_priors, logg_defaults. rewrite Hl, Hp, Hs.
  simpl. unfold teff_defaults. rewrite Ht. simpl.
  destruct (scale_defaults _ _ _) as [d3 f3] eqn:E3.
  apply scale_defaults_arrays in E3 as (Hc3 & Hx3 & _).
  unfold av_defaults. destruct (PrimFloat.eqb (Av s) 0); [|by do 2 eexists].
  rewrite set_minus_two_Ok
    by (rewrite Hc3, Hc; unfold npars; destruct (_norm f); simpl; lia).
  simpl.
  rewrite set_minus_two_Ok
    by (rewrite Hx3, Hx; unfold npars; destruct (_norm f); simpl; lia).
  by do 2 eexists.
Qed.

(** X24.  With no prior file (none given, or the empty string) and logg
    estimation off, [initialize] completes exactly when a star is set, the
    star has a measured temperature and the logg table can be read. *)
Theorem initialize_completes (f : Fitter) :
  priorfile f = None \/ priorfile f = Some "" ->
  _estimate_logg f = false ->
  is_Ok (initialize W f) = true
  <-> exists s, star f = Some s /\ get_temp s = true
                /\ is_Some (read_pickle W logg_ppf).
Proof.
  intros Hpf Hl. rewrite initialize_unfold.
  destruct (star f) as [s|] eqn:Hs;
    [|split; [discriminate | by intros (s & [=] & _)]].
  destruct (prepare_fields f s)
    as (Hps & Hpn & Hpl & Hpp & _ & Hpc & Hpx & _).
  split.
  - intros [f' H]%is_Ok_true. exists s. split; [done|].
    bind_inv H. destruct a as [d f1].
    apply default_priors_Ok in E
      as (s' & d1 & d2 & d3 & f3 & d4 & Hs' & Hlg & Hte & _).
    apply teff_defaults_Ok in Hte as [Hte _].
    assert (s' = s) as -> by congruence.
    split; [done|].
    unfold logg_defaults in Hlg. rewrite Hpl, Hl in Hlg. simpl in Hlg.
    destruct (read_pickle W logg_ppf); [by eexists | discriminate].
  - intros (s' & [= <-] & Ht & Hp).
    destruct (default_priors_completes (prepare f s) s) as (d & f1 & E);
      try done; try congruence.
    { rewrite Hpc, Hpn. apply length_replicate. }
    { rewrite Hpx, Hpn. apply length_replicate. }
    rewrite E, bind_Ok_l.
    pose proof (default_priors_preserves W _ _ _ E)
      as (Hn1 & _ & Hpf1 & Hlen1 & Hflag1).
    assert (exists f2,
              create_priors W (with_default_priors d f1) (priorfile f1)
              = Ok f2) as [f2 E2].
    { rewrite Hpf1, Hpp. destruct Hpf as [-> | ->]; by eexists. }
    rewrite E2, bind_Ok_l.
    apply create_priors_preserves in E2 as (Hn2 & _ & Hlen2 & Hflag2).
    simpl in Hn2, Hlen2, Hflag2.
    destruct (flags_sum_ndim (_norm f2) (coordinator f2)) as [_ Hint].
    { rewrite Hlen2, Hlen1, Hpc, Hn2, Hn1, Hpn. apply length_replicate. }
    { apply Hflag2, Hflag1. rewrite Hpc. apply zeros_flags. }
    unfold get_ndim. cbv zeta. by rewrite Hint.
Qed.

Lemma prior_row_dict pd f (par pri bo : string) pd' f' :
  prior_row W (pd, f) (par, pri, bo) = Ok (pd', f') ->
  (stores_prior pri /\ exists v, pd' = <[par := v]> pd)
  \/ (~ stores_prior pri /\ pd' = pd).
Proof.
  unfold prior_row, stores_prior. intros H.
  destruct (negb (str_in par param_list)); [discriminate|].
  destruct (_norm f && _); [discriminate|].
  destruct (String.eqb_spec (lower pri) "uniform") as [Hu|Hu].
  { destruct (split comma bo) as [|a [|b [|]]]; try discriminate.
    bind_inv H. bind_inv H. injection H as <- <-.
    left. split; [by left | by eexists]. }
  destruct (String.eqb_spec (lower pri) "normal") as [Hn|Hn].
  { destruct (split comma bo) as [|a [|b [|]]]; try discriminate.
    bind_inv H. bind_inv H. injection H as <- <-.
    left. split; [by right; left | by eexists]. }
  destruct (String.eqb_spec (lower pri) "truncatednormal") as [Ht|Ht].
  { destruct (split comma bo) as [|a [|b [|c [|e [|]]]]]; try discriminate.
    bind_inv H. bind_inv H. bind_inv H. bind_inv H.
    destruct (PrimFloat.eqb a1 0); discriminate. }
  destruct (String.eqb_spec (lower pri) "default") as [Hd|Hd].
  { bind_inv H. injection H as <- <-.
    left. split; [by right; right | by eexists]. }
  right. split; [by intros [?|[?|?]]|].
  destruct (String.eqb (lower pri) "fixed"); [|by injection H as <- _].
  bind_inv H. bind_inv H. bind_inv H. by injection H as <- _.
Qed.

Lemma prior_rows_keys (rows : list (string * string * string)) :
  forall pd f pd' f',
    for_each (prior_row W) (pd, f) rows = Ok (pd', f') ->
    forall k, is_Some (pd' !! k)
              <-> is_Some (pd !! k)
                  \/ exists pri bo, (k, pri, bo) ∈ rows /\ stores_prior pri.
Proof.
  induction rows as [|[[par pri] bo] rows IH]; intros pd f pd' f' H k.
  - injection H as <- _. split; [by left|].
    intros [?|(pri & bo & Hin & _)]; [done|]. by apply elem_of_nil in Hin.
  - cbn [for_each] in H. bind_inv H. destruct a as [pd1 f1].
    rewrite (IH _ _ _ _ H k).
    apply prior_row_dict in E as [[Hs [v ->]] | [Hs ->]].
    + rewrite lookup_insert. case_decide as Hk.
      * subst par. split; [|intros _; left; by eexists].
        intros _. right. exists pri, bo. split; [apply list_elem_of_here | done].
      * split.
        -- intros [?|(pri' & bo' & Hin & Hs')]; [by left|].
           right. exists pri', bo'. split; [by apply list_elem_of_further | done].
        -- intros [?|(pri' & bo' & Hin & Hs')]; [by left|].
           apply elem_of_cons in Hin as [[= -> -> ->] | Hin]; [done|].
           right. by exists pri', bo'.
    + split.
      * intros [?|(pri' & bo' & Hin & Hs')]; [by left|].
        right. exists pri', bo'. split; [by apply list_elem_of_further | done].
      * intros [?|(pri' & bo' & Hin & Hs')]; [by left|].
        apply elem_of_cons in Hin as [[= -> -> ->] | Hin]; [done|].
        right. by exists pri', bo'.
Qed.

(** X25.  The prior map a completed [create_priors] builds has as keys
    exactly the parameters of those triples its loop ran over (what
    [loadtxt] and [zip] make of the file) whose kind is uniform, normal or
    default, in any letter case: a parameter no triple names, or that is
    named only with kind fixed or another kind, has no entry, also when
    the defaults hold a prior for it. *)
Theorem file_priors_keys (f : Fitter) (p : string)
    (rows : list (string * string * string)) (f' : Fitter) :
  p <> "" ->
  loadtxt W p = Ok rows ->
  create_priors W f (Some p) = Ok f' ->
  forall k, is_Some (priors f' !! k)
            <-> exists pri bo,
                  (k, pri, bo) ∈ rows
                  /\ (lower pri = "uniform" \/ lower pri = "normal"
                      \/ lower pri = "default").
Proof.
  intros Hp Hrows H k. destruct p as [|c p]; [done|].
  unfold create_priors in H. rewrite Hrows, bind_Ok_l in H.
  bind_inv H. destruct a as [pd1 f1]. injection H as <-. simpl.
  rewrite (prior_rows_keys _ _ _ _ _ E k), lookup_empty.
  split; [intros [[? [=]]|?]; done | by right].
Qed.

End Completion.

(** * The extra properties on concrete runs *)

(** X1 on a row for 'mass'. *)
Lemma unknown_parameter_rejected_witness :
  str_in "mass" param_list = false
  /\ prior_row Sample.world (∅, Sample.prepared Sample.ngts6 false)
       ("mass", "normal", "1,0.1") = Raise (PriorError "mass" 0)
  /\ (forall (p : string) rows,
        p <> "" -> loadtxt Sample.world p = Ok rows ->
        ("mass", "normal", "1,0.1") ∈ rows ->
        is_Ok (create_priors Sample.world
                 (Sample.prepared Sample.ngts6 false) (Some p)) = false).
Proof.
  split; [reflexivity|].
  apply (unknown_parameter_rejected Sample.world ∅
           (Sample.prepared Sample.ngts6 false) "mass" "normal" "1,0.1").
  reflexivity.
Defined.

(** X2 on a row for 'dist' in normalized mode. *)
Lemma dist_rad_rejected_in_norm_mode_witness :
  _norm (Sample.prepared Sample.ngts6 true) = true
  /\ ("dist" = "dist" \/ "dist" = "rad")
  /\ prior_row Sample.world (∅, Sample.prepared Sample.ngts6 true)
       ("dist", "normal", "300,10") = Raise (PriorError "dist" 1)
  /\ (forall (p : string) rows,
        p <> "" -> loadtxt Sample.world p = Ok rows ->
        ("dist", "normal", "300,10") ∈ rows ->
        is_Ok (create_priors Sample.world
                 (Sample.prepared Sample.ngts6 true) (Some p)) = false).
Proof.
  split; [reflexivity|]. split; [by left|].
  apply (dist_rad_rejected_in_norm_mode Sample.world ∅
           (Sample.prepared Sample.ngts6 true) "dist" "normal" "300,10");
    [reflexivity | by left].
Defined.

(** X3 on the row that fixes the metallicity. *)
Lemma fixed_row_marks_witness :
  (order (Sample.prepared Sample.ngts6 false) = order_of false
   /\ order (Sample.prepared Sample.ngts6 false) !! 2%nat = Some "z"
   /\ lower "Fixed" = "fixed"
   /\ py_float Sample.world "-0.125" = Some (-0.125)%float)
  /\ exists f',
       prior_row Sample.world (∅, Sample.prepared Sample.ngts6 false)
         ("z", "Fixed", "-0.125") = Ok (∅, f')
       /\ coordinator f' = [0; 0; 1; 0; 0; 0; 0]%float
       /\ fixed f' = [0; 0; -0.125; 0; 0; 0; 0]%float.
Proof.
  assert (py_float Sample.world "-0.125" = Some (-0.125)%float) as Hv
    by (vm_compute; reflexivity).
  split; [repeat split; try reflexivity; exact Hv|].
  destruct (fixed_row_marks Sample.world ∅
              (Sample.prepared Sample.ngts6 false) "z" "Fixed" "-0.125"
              (-0.125)%float 2
              eq_refl eq_refl eq_refl eq_refl eq_refl Hv)
    as (f' & Hrow & Hc & Hx & _).
  exists f'. split; [exact Hrow|]. split; [rewrite Hc | rewrite Hx]; reflexivity.
Defined.

(** X4 on a row of kind normal. *)
Lemma only_fixed_rows_touch_arrays_witness :
  prior_row Sample.world (∅, Sample.prepared Sample.ngts6 false)
    ("teff", "normal", "4730,44")
  = Ok (<["teff" := Some (St.norm 4730 44)]> ∅,
        Sample.prepared Sample.ngts6 false)
  /\ (lower "normal" <> "fixed" ->
      Sample.prepared Sample.ngts6 false = Sample.prepared Sample.ngts6 false)
  /\ (lower "normal" = "fixed" ->
      (<["teff" := Some (St.norm 4730 44)]> ∅ : gmap string (option St.rv))
      = ∅).
Proof.
  assert (prior_row Sample.world (∅, Sample.prepared Sample.ngts6 false)
            ("teff", "normal", "4730,44")
          = Ok (<["teff" := Some (St.norm 4730 44)]> ∅,
                Sample.prepared Sample.ngts6 false)) as H
    by (vm_compute; reflexivity).
  split; [exact H|].
  exact (only_fixed_rows_touch_arrays Sample.world _ _ _ _ _ _ _ H).
Defined.

(** X5 on a row of kind loguniform. *)
Lemma unknown_kind_ignored_witness :
  str_in "teff" param_list = true
  /\ (lower "LogUniform"
      ∉ ["uniform"; "normal"; "truncatednormal"; "default"; "fixed"])
  /\ prior_row Sample.world (∅, Sample.prepared Sample.ngts6 false)
       ("teff", "LogUniform", "1,2")
     = Ok (∅, Sample.prepared Sample.ngts6 false).
Proof.
  assert (lower "LogUniform"
          ∉ ["uniform"; "normal"; "truncatednormal"; "default"; "fixed"])
    as Hkind by (by apply (bool_decide_unpack _)).
  split; [reflexivity|]. split; [exact Hkind|].
  exact (unknown_kind_ignored Sample.world ∅
           (Sample.prepared Sample.ngts6 false) "teff" "LogUniform" "1,2"
           eq_refl eq_refl Hkind).
Defined.

(** X6 on a uniform row with three bounds. *)
Lemma malformed_bounds_raise_witness :
  (str_in "teff" param_list = true
   /\ lower "uniform" = "uniform"
   /\ length (split comma "4000,5000,6000") = 3%nat)
  /\ prior_row Sample.world (∅, Sample.prepared Sample.ngts6 false)
       ("teff", "uniform", "4000,5000,6000") = Raise ValueError.
Proof.
  split; [repeat split; reflexivity|].
  apply (malformed_bounds_raise Sample.world ∅
           (Sample.prepared Sample.ngts6 false) "teff" "uniform"
           "4000,5000,6000" eq_refl eq_refl (or_introl eq_refl)).
  left. vm_compute. discriminate.
Defined.

(** X7 on the prior file of the sample world, in normalized mode. *)
Lemma create_priors_never_frees_witness :
  exists f',
    create_priors Sample.world (Cases.ready Sample.ngts6 true)
      (Some "priors.dat") = Ok f'
    /\ coordinator (Cases.ready Sample.ngts6 true) = [0; 0; 0; 0; 1; 0]%float
    /\ coordinator f' = [0; 0; 1; 1; 1; 0]%float
    /\ (count_fixed (coordinator (Cases.ready Sample.ngts6 true))
        <= count_fixed (coordinator f'))%nat.
Proof.
  assert ({f' | create_priors Sample.world (Cases.ready Sample.ngts6 true)
                  (Some "priors.dat") = Ok f'
                /\ coordinator f' = [0; 0; 1; 1; 1; 0]%float}) as [f' [H Hc]]
    by (eexists; vm_compute; split; reflexivity).
  exists f'. split; [exact H|]. split; [vm_compute; reflexivity|].
  split; [exact Hc|].
  exact (proj2 (proj2 (create_priors_never_frees Sample.world _ _ _ H))).
Defined.

(** X8 on the defaults of the sample star in physical mode. *)
Lemma default_priors_keys_witness :
  _default_priors Sample.world (Sample.prepared Sample.ngts6 false)
  = Ok ((Sample.default_run Sample.ngts6 false).1,
        (Sample.default_run Sample.ngts6 false).2)
  /\ (forall k : string, k <> "logg" ->
        (is_Some ((Sample.default_run Sample.ngts6 false).1 !! k)
         <-> k ∈ order_of false))
  /\ is_Some ((Sample.default_run Sample.ngts6 false).1 !! "logg").
Proof.
  assert (_default_priors Sample.world (Sample.prepared Sample.ngts6 false)
          = Ok ((Sample.default_run Sample.ngts6 false).1,
                (Sample.default_run Sample.ngts6 false).2)) as H
    by (vm_compute; reflexivity).
  split; [exact H|].
  destruct (default_priors_keys Sample.world
              (Sample.prepared Sample.ngts6 false) _ _ H) as [Hk Hl].
  split; [exact Hk | exact (Hl eq_refl)].
Defined.

(** X9 on a default row for the temperature, and one for 'norm'. *)
Lemma default_row_after_defaults_witness :
  (_default_priors Sample.world (Sample.prepared Sample.ngts6 false)
   = Ok ((Sample.default_run Sample.ngts6 false).1,
         (Sample.default_run Sample.ngts6 false).2)
   /\ lower "Default" = "default")
  /\ prior_row Sample.world (∅, Cases.ready Sample.ngts6 false)
       ("teff", "Default", "0")
     = Ok (<["teff" := Some (St.norm 4730 44)]> ∅,
           Cases.ready Sample.ngts6 false)
  /\ prior_row Sample.world (∅, Cases.ready Sample.ngts6 false)
       ("norm", "Default", "0") = Raise (KeyError "norm").
Proof.
  assert (_default_priors Sample.world (Sample.prepared Sample.ngts6 false)
          = Ok ((Sample.default_run Sample.ngts6 false).1,
                (Sample.default_run Sample.ngts6 false).2)) as H
    by (vm_compute; reflexivity).
  split; [split; [exact H | reflexivity]|].
  destruct (default_row_after_defaults Sample.world
              (Sample.prepared Sample.ngts6 false) _ _ ∅
              "teff" "Default" "0" H eq_refl) as [Hrow Hnorm].
  split; [|exact (Hnorm eq_refl)].
  destruct (Hrow 0%nat eq_refl) as (e & He & Hr); [discriminate|].
  unfold Cases.ready. rewrite Hr. do 2 f_equal.
  assert ((Sample.default_run Sample.ngts6 false).1 !! "teff"
          = Some (Some (St.norm 4730 44))) as He' by (vm_compute; reflexivity).
  rewrite He' in He. by injection He as <-.
Defined.

(** X10 on the reddened star. *)
Lemma default_priors_free_Av_witness :
  (star (Sample.prepared Cases.reddened false) = Some Cases.reddened
   /\ PrimFloat.eqb (Av Cases.reddened) 0 = false
   /\ _default_priors Sample.world (Sample.prepared Cases.reddened false)
      = Ok ((Sample.default_run Cases.reddened false).1,
            (Sample.default_run Cases.reddened false).2))
  /\ (Sample.default_run Cases.reddened false).1 !! "Av"
     = Some (Some (St.uniform 0 0.3))
  /\ coordinator (Sample.default_run Cases.reddened false).2 = Np.zeros 7.
Proof.
  assert (_default_priors Sample.world (Sample.prepared Cases.reddened false)
          = Ok ((Sample.default_run Cases.reddened false).1,
                (Sample.default_run Cases.reddened false).2)) as H
    by (vm_compute; reflexivity).
  split; [split; [reflexivity | split; [reflexivity | exact H]]|].
  destruct (default_priors_free_Av Sample.world
              (Sample.prepared Cases.reddened false) Cases.reddened _ _
              eq_refl eq_refl H) as (Hav & Hc & _).
  split; [exact Hav | exact Hc].
Defined.

(** X11 on the reddened star, in a world whose estimator answers for the
    three 2MASS bands alone and has nothing for the five bands this star
    has. *)
Lemma estimator_none_leaves_no_logg_prior_witness :
  (star Cases.estimating = Some Cases.reddened
   /\ _estimate_logg Cases.estimating = true
   /\ get_temp Cases.reddened = true
   /\ mask_select (mags Cases.reddened)
      = Ok [7.1; 7.4; 7; 8.2; 0; 8.6; 0; 0]%float
   /\ mask_select (mag_errs Cases.reddened) = Ok (replicate 8 0.02%float)
   /\ (collect_bands [7.1; 7.4; 7; 8.2; 0; 8.6; 0; 0]%float
         (replicate 8 0.02%float) isochrone_bands
         (isochrone_params Cases.picky_world Cases.reddened) []).2
      = ["H"; "J"; "Ks"; "G"; "BP"]
   /\ estimate Cases.picky_world ["H"; "J"; "Ks"] ∅ = Some (4.4, 0.1)%float
   /\ estimate Cases.picky_world ["H"; "J"; "Ks"; "G"; "BP"]
        (collect_bands [7.1; 7.4; 7; 8.2; 0; 8.6; 0; 0]%float
           (replicate 8 0.02%float) isochrone_bands
           (isochrone_params Cases.picky_world Cases.reddened) []).1
      = None)
  /\ exists d f',
       _default_priors Cases.picky_world Cases.estimating = Ok (d, f')
       /\ d !! "logg" = None
       /\ "logg" ∈ order_of (_norm Cases.estimating).
Proof.
  assert (mask_select (mags Cases.reddened)
          = Ok [7.1; 7.4; 7; 8.2; 0; 8.6; 0; 0]%float) as Hm
    by (vm_compute; reflexivity).
  assert (mask_select (mag_errs Cases.reddened)
          = Ok (replicate 8 0.02%float)) as He
    by (vm_compute; reflexivity).
  assert ((collect_bands [7.1; 7.4; 7; 8.2; 0; 8.6; 0; 0]%float
             (replicate 8 0.02%float) isochrone_bands
             (isochrone_params Cases.picky_world Cases.reddened) []).2
          = ["H"; "J"; "Ks"; "G"; "BP"]) as Hu
    by (vm_compute; reflexivity).
  assert (estimate Cases.picky_world ["H"; "J"; "Ks"; "G"; "BP"]
            (collect_bands [7.1; 7.4; 7; 8.2; 0; 8.6; 0; 0]%float
               (replicate 8 0.02%float) isochrone_bands
               (isochrone_params Cases.picky_world Cases.reddened) []).1
          = None) as Hn by reflexivity.
  split; [repeat split; try reflexivity; assumption|].
  apply (estimator_none_leaves_no_logg_prior Cases.picky_world
           Cases.estimating Cases.reddened _ _ _ _
           eq_refl eq_refl eq_refl Hm He
           (eq_trans (surjective_pairing _) (f_equal (pair _) Hu)) Hn);
    simpl; lia.
Defined.

(** X12 on the magnitudes of the reddened star: five of the eight bands. *)
Lemma isochrone_bands_used_witness :
  (length (mags Cases.reddened) = 24%nat
   /\ length (mag_errs Cases.reddened) = 24%nat)
  /\ exists ms es params used,
       mask_select (mags Cases.reddened) = Ok ms
       /\ mask_select (mag_errs Cases.reddened) = Ok es
       /\ length ms = length isochrone_bands
       /\ collect_bands ms es isochrone_bands ∅ [] = (params, used)
       /\ length used = 5%nat.
Proof.
  split; [split; reflexivity|].
  destruct (isochrone_bands_used Cases.reddened ∅ eq_refl eq_refl)
    as (ms & es & params & used & Hm & He & Hl & Hc & _).
  exists ms, es, params, used.
  split; [exact Hm|]. split; [exact He|]. split; [exact Hl|].
  split; [exact Hc|].
  assert (mask_select (mags Cases.reddened)
          = Ok [7.1; 7.4; 7; 8.2; 0; 8.6; 0; 0]%float) as Hm'
    by (vm_compute; reflexivity).
  assert (mask_select (mag_errs Cases.reddened)
          = Ok (replicate 8 0.02%float)) as He'
    by (vm_compute; reflexivity).
  rewrite Hm' in Hm. rewrite He' in He.
  injection Hm as <-. injection He as <-.
  vm_compute in Hc. by injection Hc as _ <-.
Defined.

(** X13 on the sample star without a prior file. *)
Lemma initialize_priors_complete_witness :
  (initialize Sample.world (Sample.fitter Sample.ngts6 false None)
   = Ok (Sample.initialized Sample.ngts6 false None)
   /\ priorfile (Sample.fitter Sample.ngts6 false None) = None
   /\ _estimate_logg (Sample.fitter Sample.ngts6 false None) = false)
  /\ priors (Sample.initialized Sample.ngts6 false None)
     = default_priors (Sample.initialized Sample.ngts6 false None)
  /\ no_priorfile_warning
     ∈ warnings (Sample.initialized Sample.ngts6 false None)
  /\ (forall i p c,
        order (Sample.initialized Sample.ngts6 false None) !! i = Some p ->
        coordinator (Sample.initialized Sample.ngts6 false None) !! i
        = Some c ->
        Np.truthy c = false ->
        exists rv,
          priors (Sample.initialized Sample.ngts6 false None) !! p
          = Some (Some rv)).
Proof.
  assert (initialize Sample.world (Sample.fitter Sample.ngts6 false None)
          = Ok (Sample.initialized Sample.ngts6 false None)) as H
    by (vm_compute; reflexivity).
  split; [split; [exact H | split; reflexivity]|].
  exact (initialize_priors_complete Sample.world _ _ H
           (or_introl eq_refl) eq_refl).
Defined.

(** X14 on the sample star, with and without a folder set. *)
Lemma initialize_output_folder_witness :
  (star (Sample.fitter Sample.ngts6 false None) = Some Sample.ngts6
   /\ initialize Sample.world (Sample.fitter Sample.ngts6 false None)
      = Ok (Sample.initialized Sample.ngts6 false None))
  /\ out_folder (Sample.initialized Sample.ngts6 false None)
     = Some "NGTS-6/".
Proof.
  assert (initialize Sample.world (Sample.fitter Sample.ngts6 false None)
          = Ok (Sample.initialized Sample.ngts6 false None)) as H
    by (vm_compute; reflexivity).
  split; [split; [reflexivity | exact H]|].
  destruct (initialize_output_folder Sample.world
              (Sample.fitter Sample.ngts6 false None) _ Sample.ngts6
              eq_refl H) as [Hof _].
  rewrite Hof. reflexivity.
Defined.

(** X15 on the two samples of the sample posterior. *)
Lemma save_loglike_witness :
  order (Sample.initialized Sample.ngts6 false None)
  = order_of (_norm (Sample.initialized Sample.ngts6 false None))
  /\ exists out logdat ll,
       save Sample.world (Sample.initialized Sample.ngts6 false None)
         (1.5, 0.1, Sample.posterior)%float = Ok (out, logdat)
       /\ posterior_samples out !! "loglike" = Some (Column ll)
       /\ length ll = 2%nat.
Proof.
  assert ({r | save Sample.world (Sample.initialized Sample.ngts6 false None)
                 (1.5, 0.1, Sample.posterior)%float = Ok r}) as [[out logdat] H]
    by (eexists; vm_compute; reflexivity).
  split; [reflexivity|].
  destruct (save_loglike Sample.world
              (Sample.initialized Sample.ngts6 false None) _ _ _ _ _
              eq_refl H)
    as (ll & Hll & Hlen & _).
  exists out, logdat, ll. split; [exact H|]. split; [exact Hll | exact Hlen].
Defined.

(** X16 on the same run. *)
Lemma save_log_text_witness :
  exists out logdat,
    save Sample.world (Sample.initialized Sample.ngts6 false None)
      (1.5, 0.1, Sample.posterior)%float = Ok (out, logdat)
    /\ logdat
       = logdat_header
         ++ log_rows Sample.world (Sample.initialized Sample.ngts6 false None)
              Sample.posterior 0
              (order (Sample.initialized Sample.ngts6 false None)).
Proof.
  assert ({r | save Sample.world (Sample.initialized Sample.ngts6 false None)
                 (1.5, 0.1, Sample.posterior)%float = Ok r}) as [[out logdat] H]
    by (eexists; vm_compute; reflexivity).
  exists out, logdat. split; [exact H|].
  exact (save_log_text Sample.world _ _ _ _ _ _ H).
Defined.

(** X17 on the same run. *)
Lemma save_keys_witness :
  exists out logdat,
    save Sample.world (Sample.initialized Sample.ngts6 false None)
      (1.5, 0.1, Sample.posterior)%float = Ok (out, logdat)
    /\ (forall p, is_Some (posterior_samples out !! p)
                  <-> p ∈ order (Sample.initialized Sample.ngts6 false None)
                      \/ p = "loglike")
    /\ (forall p, is_Some (best_fit out !! p)
                  <-> p ∈ order (Sample.initialized Sample.ngts6 false None)
                      \/ p = "likelihood")
    /\ lnZ out = 1.5%float /\ lnZerr out = 0.1%float.
Proof.
  assert ({r | save Sample.world (Sample.initialized Sample.ngts6 false None)
                 (1.5, 0.1, Sample.posterior)%float = Ok r}) as [[out logdat] H]
    by (eexists; vm_compute; reflexivity).
  exists out, logdat. split; [exact H|].
  destruct (save_keys Sample.world _ _ _ _ _ _ H)
    as (Hp & Hb & Hz & Hzer & _).
  split; [exact Hp|]. split; [exact Hb|]. split; [exact Hz | exact Hzer].
Defined.

(** X18 on a sample array of two columns for six free parameters. *)
Lemma save_too_few_columns_witness :
  (length (coordinator (Sample.initialized Sample.ngts6 false None))
   = length (order (Sample.initialized Sample.ngts6 false None))
   /\ length (fixed (Sample.initialized Sample.ngts6 false None))
      = length (order (Sample.initialized Sample.ngts6 false None))
   /\ (Np.shape1 Cases.short_posterior
       < count_free (coordinator (Sample.initialized Sample.ngts6 false None)))%nat
   /\ is_Some (out_folder (Sample.initialized Sample.ngts6 false None)))
  /\ save Sample.world (Sample.initialized Sample.ngts6 false None)
       (1.5, 0.1, Cases.short_posterior)%float = Raise IndexError.
Proof.
  assert (length (coordinator (Sample.initialized Sample.ngts6 false None))
          = length (order (Sample.initialized Sample.ngts6 false None))) as H1
    by (vm_compute; reflexivity).
  assert (length (fixed (Sample.initialized Sample.ngts6 false None))
          = length (order (Sample.initialized Sample.ngts6 false None))) as H2
    by (vm_compute; reflexivity).
  assert (Np.shape1 Cases.short_posterior
          < count_free (coordinator (Sample.initialized Sample.ngts6 false None)))%nat
    as H3 by (vm_compute; lia).
  assert (is_Some (out_folder (Sample.initialized Sample.ngts6 false None)))
    as H4 by (vm_compute; by eexists).
  split; [repeat split; assumption|].
  exact (proj1 (save_too_few_columns Sample.world _ _ 1.5%float 0.1%float
                  H1 H2 H3) H4).
Defined.


(** X21 on a MultiNest set-up assigned over the default one. *)
Lemma set_setup_other_attributes_witness :
  exists a',
    Sampler.set_setup Cases.default_setup
      [VStr "multinest"; VInt 1000; VFloat 0.1] = Ok a'
    /\ Sampler._nlive a' = Some (VInt 1000)
    /\ Sampler._bound a' = Some (VStr "multi")
    /\ Sampler._sample a' = Some (VStr "rwalk")
    /\ Sampler._threads a' = Some (VInt 1)
    /\ Sampler._dynamic a' = Some (VBool false).
Proof.
  assert ({a' | Sampler.set_setup Cases.default_setup
                  [VStr "multinest"; VInt 1000; VFloat 0.1] = Ok a'
                /\ Sampler._nlive a' = Some (VInt 1000)}) as [a' [H Hn]]
    by (eexists; vm_compute; split; reflexivity).
  exists a'. split; [exact H|]. split; [exact Hn|].
  destruct (set_setup_other_attributes Cases.default_setup
              [VStr "multinest"; VInt 1000; VFloat 0.1]
              (VStr "multinest") a' eq_refl eq_refl H)
    as (_ & _ & Hb & Hs & Ht & Hd & _).
  rewrite Hb, Hs, Ht, Hd. repeat split; reflexivity.
Defined.

(** X22 on a cube of eight entries, six of them parameters. *)
Lemma multinest_log_like_first_entries_witness :
  (Z.to_nat 6 <= length Cases.cube)%nat
  /\ multinest_log_like Sample.world
       (Sample.initialized Sample.ngts6 false None) Cases.cube 6 8
     = Ok (dynesty_log_like Sample.world
             (Sample.initialized Sample.ngts6 false None)
             [0.3; 0.5; 0.1; 0.9; 0.7; 0.4]%float).
Proof.
  assert (Z.to_nat 6 <= length Cases.cube)%nat as H by (simpl; lia).
  split; [exact H|].
  exact (multinest_log_like_first_entries Sample.world
           (Sample.initialized Sample.ngts6 false None) Cases.cube 6 8 H).
Defined.


(** X24 on the two sample stars: one with, one without a temperature. *)
Lemma initialize_completes_witness :
  (priorfile (Sample.fitter Sample.unmeasured false None) = None
   /\ _estimate_logg (Sample.fitter Sample.unmeasured false None) = false)
  /\ is_Ok (initialize Sample.world
              (Sample.fitter Sample.ngts6 false None)) = true
  /\ is_Ok (initialize Sample.world
              (Sample.fitter Sample.unmeasured false None)) = false.
Proof.
  split; [split; reflexivity|]. split.
  - apply (initialize_completes Sample.world
             (Sample.fitter Sample.ngts6 false None)
             (or_introl eq_refl) eq_refl).
    exists Sample.ngts6. repeat split. by eexists.
  - destruct (is_Ok (initialize Sample.world
                       (Sample.fitter Sample.unmeasured false None)))
      eqn:Hok; [|reflexivity].
    apply (initialize_completes Sample.world
             (Sample.fitter Sample.unmeasured false None)
             (or_introl eq_refl) eq_refl) in Hok as (s & Hs & Ht & _).
    injection Hs as <-. discriminate Ht.
Defined.

(** X25 on the prior file of the sample world: no key for z and norm,
    which it fixes, and none for inflation, which it does not name. *)
Lemma file_priors_keys_witness :
  loadtxt Sample.world "priors.dat" = Ok Sample.prior_rows
  /\ exists f',
       create_priors Sample.world (Cases.ready Sample.ngts6 true)
         (Some "priors.dat") = Ok f'
       /\ is_Some (priors f' !! "teff")
       /\ priors f' !! "z" = None
       /\ priors f' !! "inflation" = None.
Proof.
  assert ({f' | create_priors Sample.world (Cases.ready Sample.ngts6 true)
                  (Some "priors.dat") = Ok f'
                /\ priors f' !! "z" = None
                /\ priors f' !! "inflation" = None}) as [f' (H & Hz & Hi)]
    by (eexists; vm_compute; repeat split; reflexivity).
  split; [reflexivity|].
  exists f'. split; [exact H|]. split; [|split; [exact Hz | exact Hi]].
  apply (file_priors_keys Sample.world _ "priors.dat" Sample.prior_rows f'
           ltac:(discriminate) eq_refl H "teff").
  exists "normal", "4730,44". split; [apply list_elem_of_here|].
  right. by left.
Defined.
